(** * LightRAG MCP servers: request dispatch, event queue and SSE sessions

    A shallow embedding of the four HTTP front ends of the repository

    - [mcp_server.py]        (class [MCPHandler]),
    - [simple_mcp_server.py] (class [SimpleHTTPRequestHandler]),
    - [sse_server.py]        (class [SSEHandler]),
    - [simple_sse.py]        (the Flask generator [generate]),

    followed by the properties of the specification that concern them.

    Handlers are written in a small state-and-exception monad over a
    [world]: the module-level [event_queue], the connection of the handler
    ([wfile], with the number of writes the peer will still accept), the
    outbound calls made through [requests.post], and the seconds spent in
    [time.sleep].  An exception keeps the world as it was when it was
    raised, as in Python.  What is outside the repository (the environment,
    the backend behind [requests.post], [str()] on non-string values, the
    wall clock) is a parameter, gathered in the class [Runtime]. *)

From Stdlib Require Import String Ascii List ZArith QArith Bool Arith Lia RelationClasses.
Import ListNotations.
Close Scope Q_scope.
Open Scope string_scope.
Open Scope list_scope.

(** ** JSON values, as [json.loads] builds them and [json.dumps] prints them *)

#[local] Unset Elimination Schemes.
Inductive json : Type :=
| JNull
| JBool (b : bool)
| JInt (n : Z)
| JFloat (q : Q)
| JStr (s : string)
| JList (l : list json)
| JDict (d : list (string * json)).
#[local] Set Elimination Schemes.

(** A Python dict literal, in source order.  *)
Definition dict := list (string * json).

Fixpoint dict_get (k : string) (d : dict) : option json :=
  match d with
  | [] => None
  | (k', v) :: rest => if String.eqb k' k then Some v else dict_get k rest
  end.

Definition is_some {A : Type} (o : option A) : bool :=
  match o with Some _ => true | None => false end.

(** ** Exceptions *)

Inductive exn : Type :=
| JSONDecodeError
| QueueEmpty
| BrokenPipeError
| ConnectionResetError
| AttributeError (msg : string)
| TypeError (msg : string)
| KeyError (key : string)
| RequestException (msg : string)
| UnicodeDecodeError (msg : string)
| ValueError (msg : string)
| RecursionError (msg : string).

(** [str(e)] *)
Definition exn_str (e : exn) : string :=
  match e with
  | JSONDecodeError => "Expecting value"
  | QueueEmpty => ""
  | BrokenPipeError => "[Errno 32] Broken pipe"
  | ConnectionResetError => "[Errno 104] Connection reset by peer"
  | AttributeError msg => msg
  | TypeError msg => msg
  | KeyError key => "'" ++ key ++ "'"
  | RequestException msg => msg
  | UnicodeDecodeError msg => msg
  | ValueError msg => msg
  | RecursionError msg => msg
  end.

Inductive result (A : Type) : Type :=
| Ok (a : A)
| Raise (e : exn).
Arguments Ok {A} a.
Arguments Raise {A} e.

(** ** The Python operators the handlers apply to parsed JSON *)

Definition type_name (j : json) : string :=
  match j with
  | JNull => "NoneType"
  | JBool _ => "bool"
  | JInt _ => "int"
  | JFloat _ => "float"
  | JStr _ => "str"
  | JList _ => "list"
  | JDict _ => "dict"
  end.

(** [bool(x)], as in [if not query_text] *)
Definition truthy (j : json) : bool :=
  match j with
  | JNull => false
  | JBool b => b
  | JInt n => negb (n =? 0)%Z
  | JFloat q => negb (Qeq_bool q 0)
  | JStr s => negb (String.eqb s "")
  | JList l => match l with [] => false | _ :: _ => true end
  | JDict d => match d with [] => false | _ :: _ => true end
  end.

(** [x == 'literal'] *)
Definition py_eq_str (j : json) (s : string) : bool :=
  match j with
  | JStr t => String.eqb t s
  | _ => false
  end.

(** [needle in hay] on strings *)
Fixpoint contains (needle hay : string) : bool :=
  String.prefix needle hay
  || match hay with
     | EmptyString => false
     | String _ rest => contains needle rest
     end.

(** ['key' in x] *)
Definition py_in (key : string) (x : json) : result bool :=
  match x with
  | JDict d => Ok (is_some (dict_get key d))
  | JList l => Ok (existsb (fun v => py_eq_str v key) l)
  | JStr s => Ok (contains key s)
  | _ => Raise (TypeError ("argument of type '" ++ type_name x ++ "' is not iterable"))
  end.

(** [x.get(key, default)] *)
Definition py_get (x : json) (key : string) (default : json) : result json :=
  match x with
  | JDict d => Ok (match dict_get key d with Some v => v | None => default end)
  | _ => Raise (AttributeError ("'" ++ type_name x ++ "' object has no attribute 'get'"))
  end.

(** [x['key']] on a value for which ['key' in x] held *)
Definition py_getitem (x : json) (key : string) : result json :=
  match x with
  | JDict d => match dict_get key d with
               | Some v => Ok v
               | None => Raise (KeyError key)
               end
  | JList _ => Raise (TypeError "list indices must be integers or slices, not str")
  | JStr _ => Raise (TypeError "string indices must be integers, not 'str'")
  | _ => Raise (TypeError ("'" ++ type_name x ++ "' object is not subscriptable"))
  end.

Definition lower_ascii (c : ascii) : ascii :=
  let n := nat_of_ascii c in
  if (65 <=? n)%nat && (n <=? 90)%nat then ascii_of_nat (n + 32) else c.

Fixpoint lower (s : string) : string :=
  match s with
  | EmptyString => EmptyString
  | String c rest => String (lower_ascii c) (lower rest)
  end.

(** [x.lower()] *)
Definition py_lower (x : json) : result string :=
  match x with
  | JStr s => Ok (lower s)
  | _ => Raise (AttributeError ("'" ++ type_name x ++ "' object has no attribute 'lower'"))
  end.

(** [len(x)] *)
Definition py_len (x : json) : result Z :=
  match x with
  | JStr s => Ok (Z.of_nat (String.length s))
  | JList l => Ok (Z.of_nat (List.length l))
  | JDict d => Ok (Z.of_nat (List.length d))
  | _ => Raise (TypeError ("object of type '" ++ type_name x ++ "' has no len()"))
  end.

(** ** The connection and the world *)

(** One [wfile.write].  [json.dumps] is kept symbolic: a chunk carries the
    value that is serialised. *)
Inductive chunk : Type :=
| Head (code : Z) (headers : list (string * string))
| Body (payload : json)
| Text (s : string)
| ErrorPage (code : Z) (message : string)
| EventLine (event_type : string)
| DataLine (data : json)
| EventFrame (event_type : string) (data : json).

(** What [requests.post] gives back. *)
Record response : Type := mkResponse {
  status_code : Z;
  response_json : result json;   (* what [response.json()] returns, or raises *)
  response_text : string
}.

Inductive post_outcome : Type :=
| Responded (r : response)
| Failed (msg : string).         (* connection error, timeout, ... *)

Record call : Type := mkCall {
  call_endpoint : string;
  call_payload : json;
  call_timeout : Z
}.

Record world : Type := mkWorld {
  event_queue : list json;             (* the module-level [queue.Queue()], head first *)
  outbound : list call;                (* [requests.post] calls made, oldest first *)
  wire : list chunk;                   (* what was written to [wfile], oldest first *)
  peer : option nat;                   (* writes the peer still takes; [None]: it stays *)
  pending : option (Z * list (string * string));   (* status line and headers not yet flushed *)
  slept : nat;                         (* seconds spent in [time.sleep] by this handler *)
  got : list json                      (* values [event_queue.get] handed to this handler *)
}.

Definition set_event_queue (q : list json) (w : world) : world :=
  mkWorld q (outbound w) (wire w) (peer w) (pending w) (slept w) (got w).
Definition set_outbound (o : list call) (w : world) : world :=
  mkWorld (event_queue w) o (wire w) (peer w) (pending w) (slept w) (got w).
Definition set_wire (c : list chunk) (p : option nat) (w : world) : world :=
  mkWorld (event_queue w) (outbound w) c p (pending w) (slept w) (got w).
Definition set_pending (h : option (Z * list (string * string))) (w : world) : world :=
  mkWorld (event_queue w) (outbound w) (wire w) (peer w) h (slept w) (got w).
Definition set_slept (n : nat) (w : world) : world :=
  mkWorld (event_queue w) (outbound w) (wire w) (peer w) (pending w) n (got w).
Definition set_got (q : list json) (g : list json) (w : world) : world :=
  mkWorld q (outbound w) (wire w) (peer w) (pending w) (slept w) g.

(** ** The monad of handlers *)

Definition M (A : Type) : Type := world -> world * result A.

Definition ret {A : Type} (a : A) : M A := fun w => (w, Ok a).

Definition raise {A : Type} (e : exn) : M A := fun w => (w, Raise e).

Definition bind {A B : Type} (m : M A) (k : A -> M B) : M B :=
  fun w =>
    match m w with
    | (w', Ok a) => k a w'
    | (w', Raise e) => (w', Raise e)
    end.

Definition lift {A : Type} (r : result A) : M A := fun w => (w, r).

(** [try: m  except <handles>: h] *)
Definition try_except {A : Type} (m : M A) (handles : exn -> bool) (h : exn -> M A) : M A :=
  fun w =>
    match m w with
    | (w', Ok a) => (w', Ok a)
    | (w', Raise e) => if handles e then h e w' else (w', Raise e)
    end.

Declare Scope py_scope.
Delimit Scope py_scope with py.
Notation "x <- m ;; k" := (bind m (fun x => k))
  (at level 61, m at next level, right associativity) : py_scope.
Notation "m ;; k" := (bind m (fun _ => k))
  (at level 61, right associativity) : py_scope.
Open Scope py_scope.

Definition exec {A : Type} (m : M A) (w : world) : world := fst (m w).
Definition eval {A : Type} (m : M A) (w : world) : result A := snd (m w).

(** [for _ in range(n): body] *)
Fixpoint for_range (n : nat) (body : M unit) : M unit :=
  match n with
  | O => ret tt
  | S n' => body ;; for_range n' body
  end.

(** [while True: body], observed for [fuel] iterations. *)
Fixpoint while_true (fuel : nat) (body : M unit) : M unit :=
  match fuel with
  | O => ret tt
  | S fuel' => body ;; while_true fuel' body
  end.

(** ** Primitives *)

(** [self.wfile.write(...)]: fails once the peer has gone. *)
Definition wfile_write (c : chunk) : M unit :=
  fun w =>
    match peer w with
    | None => (set_wire (wire w ++ [c]) None w, Ok tt)
    | Some (S n) => (set_wire (wire w ++ [c]) (Some n) w, Ok tt)
    | Some O => (w, Raise BrokenPipeError)
    end.

(** [self.wfile.flush()]: the handler's [wfile] is unbuffered. *)
Definition wfile_flush : M unit := ret tt.

(** [self.send_response(code)]: buffers the status line. *)
Definition send_response (code : Z) : M unit :=
  fun w => (set_pending (Some (code, [])) w, Ok tt).

(** [self.send_header(k, v)]: buffers one header. *)
Definition send_header (k v : string) : M unit :=
  fun w =>
    match pending w with
    | Some (code, hs) => (set_pending (Some (code, hs ++ [(k, v)])) w, Ok tt)
    | None => (set_pending (Some (200%Z, [(k, v)])) w, Ok tt)
    end.

(** [self.end_headers()]: writes the buffered head. *)
Definition end_headers : M unit :=
  fun w =>
    match pending w with
    | Some (code, hs) => wfile_write (Head code hs) (set_pending None w)
    | None => (w, Ok tt)
    end.

(** [self.send_error(code, message)]: head and HTML error page. *)
Definition send_error (code : Z) (message : string) : M unit :=
  send_response code ;;
  send_header "Connection" "close" ;;
  send_header "Content-Type" "text/html;charset=utf-8" ;;
  end_headers ;;
  wfile_write (ErrorPage code message).

(** [event_queue.put(v)] *)
Definition event_queue_put (v : json) : M unit :=
  fun w => (set_event_queue (event_queue w ++ [v]) w, Ok tt).

(** [event_queue.get(block=False)] *)
Definition event_queue_get_nowait : M json :=
  fun w =>
    match event_queue w with
    | [] => (w, Raise QueueEmpty)
    | v :: rest => (set_got rest (got w ++ [v]) w, Ok v)
    end.

(** [time.sleep(n)] *)
Definition time_sleep (n : nat) : M unit :=
  fun w => (set_slept (slept w + n) w, Ok tt).

Definition is_queue_empty (e : exn) : bool :=
  match e with QueueEmpty => true | _ => false end.

Definition is_json_decode_error (e : exn) : bool :=
  match e with JSONDecodeError => true | _ => false end.

(** [except (ConnectionResetError, BrokenPipeError)] *)
Definition is_disconnect (e : exn) : bool :=
  match e with ConnectionResetError | BrokenPipeError => true | _ => false end.

(** [except Exception] *)
Definition any_exception (e : exn) : bool := true.

(** ** What lies outside the repository *)

Class Runtime : Type := {
  os_environ : string -> option string;          (* [os.environ] *)
  backend : string -> json -> Z -> post_outcome; (* the service behind [requests.post] *)
  py_str : json -> string;                       (* [str(x)] for a value that is not a string *)
  wall_clock : nat -> Q                          (* [time.time()] after that much sleep *)
}.

(** What a POST carried, by what becomes of it: the bytes are not UTF-8
    and [.decode('utf-8')] raises; [json.loads] raises [JSONDecodeError];
    [json.loads] raises something else ([ValueError] for an integer
    literal over the digit limit, [RecursionError] for nesting too deep);
    [json.loads] returns a value. *)
Inductive post_body : Type :=
| Undecodable (msg : string)
| Unparseable (post_data : string)
| Unloadable (post_data : string) (e : exn)
| Parsed (request_data : json).

(** [self.rfile.read(content_length).decode('utf-8')] *)
Definition rfile_read_decode (body : post_body) : M unit :=
  match body with
  | Undecodable msg => raise (UnicodeDecodeError msg)
  | _ => ret tt
  end.

(** [json.loads(post_data)] *)
Definition json_loads (body : post_body) : M json :=
  match body with
  | Undecodable msg => raise (UnicodeDecodeError msg)
  | Unparseable _ => raise JSONDecodeError
  | Unloadable _ e => raise e
  | Parsed request_data => ret request_data
  end.

(** The one entry of [sources] in every answered query. *)
Definition knowledge_base_source : json :=
  JDict
    [ ("title", JStr "VAEBZ Knowledge Base");
      ("snippet", JStr "Information about VAEBZ and TaskHarbinger");
      ("confidence", JFloat (19 # 20)) ].

Record request : Type := mkRequest {
  path : string;
  headers : list (string * string)
}.

(** [self.headers.get(name, default)]: header names compare without case. *)
Fixpoint headers_get (name default : string) (hs : list (string * string)) : string :=
  match hs with
  | [] => default
  | (k, v) :: rest =>
      if String.eqb (lower k) (lower name) then v else headers_get name default rest
  end.

Section Builtins.
Context {R : Runtime}.

(** [{x}] inside an f-string *)
Definition fmt (x : json) : string :=
  match x with
  | JStr s => s
  | _ => py_str x
  end.

(** [os.environ.get(name, default)] *)
Definition os_environ_get (name default : string) : M string :=
  ret (match os_environ name with Some v => v | None => default end).

(** [requests.post(endpoint, json=payload, timeout=t)] *)
Definition requests_post (endpoint : string) (payload : json) (t : Z) : M response :=
  fun w =>
    let w' := set_outbound (outbound w ++ [mkCall endpoint payload t]) w in
    match backend endpoint payload t with
    | Responded r => (w', Ok r)
    | Failed msg => (w', Raise (RequestException msg))
    end.

(** [response.json()] *)
Definition response_json_call (r : response) : M json :=
  lift (response_json r).

(** [time.time()] *)
Definition time_time : M json :=
  fun w => (w, Ok (JFloat (wall_clock (slept w)))).
End Builtins.

(** ** [mcp_server.py] *)

Module mcp_server.

Definition TOOLS : json :=
  JList
    [ JDict
        [ ("name", JStr "query");
          ("description", JStr "Query VAEBZ product information using natural language");
          ("parameters",
            JDict
              [ ("type", JStr "object");
                ("properties",
                  JDict
                    [ ("query",
                        JDict
                          [ ("type", JStr "string");
                            ("description", JStr "The query about VAEBZ products or services") ]) ]);
                ("required", JList [JStr "query"]) ]) ];
      JDict
        [ ("name", JStr "embedding");
          ("description", JStr "Get embeddings for a given text");
          ("parameters",
            JDict
              [ ("type", JStr "object");
                ("properties",
                  JDict
                    [ ("text",
                        JDict
                          [ ("type", JStr "string");
                            ("description", JStr "The text to embed") ]) ]);
                ("required", JList [JStr "text"]) ]) ] ].

(** The [context] literal of [handle_query]. *)
Definition context : string :=
"
VAEBZ is a technology company specializing in AI infrastructure and automation solutions.
Key products include:
- TaskHarbinger: An AI orchestration platform for workflow automation
- LightRAG: A retrieval-augmented generation system for knowledge integration
- MCP Services: AI service integrations using Marvin Control Protocol
- SentinelGaze: Web UI for system monitoring and management
- AtomicScope: A real-time code analysis and visualization tool for developers
- ProposalForge: An automated proposal generation and management system

TaskHarbinger features include orchestration of AI tasks, integration with various AI services, 
support for LightRAG, Git MCP server, containerized architecture with Docker, Traefik for API routing, 
DynamoDB for persistence, Redis for caching, and UI for monitoring.

AtomicScope provides real-time code structure visualization, dependency analysis, impact assessment of 
code changes, integration with version control systems, performance bottleneck identification, and 
automated refactoring suggestions. It helps development teams understand complex codebases more easily.

ProposalForge is VAEBZ's AI-powered proposal system that automates the creation, management, and tracking 
of business proposals. It features customizable templates, content generation based on client requirements, 
pricing optimization algorithms, approval workflows, digital signature integration, analytics dashboards, 
and seamless integration with CRM systems. The system reduces proposal creation time by up to 70% while 
improving win rates through personalized content and data-driven insights.

MCP (Marvin Control Protocol) allows standardized communication between AI services with support for 
multiple transport methods, service discovery, integration with AI tools, authentication, and action frameworks.

The system uses a microservice architecture with Docker containers, API routing through Traefik, 
and various specialized components for AI processing.
".

Definition prompt_head : string :=
"Based on the following context about VAEBZ and its products, please answer this question:

CONTEXT:
".

Definition prompt_middle : string :=
"

QUESTION:
".

Definition prompt_tail : string :=
"

If the question cannot be answered based on the context, please only use information that would be factual about 
VAEBZ as a technology company focused on AI infrastructure and automation. Do not invent specific details about 
people, events, or statistics that aren't in the context.".

Section Handler.
Context {R : Runtime}.

Definition send_sse_event (event_type : string) (data : json) : M unit :=
  wfile_write (EventLine event_type) ;;
  wfile_write (DataLine data) ;;
  wfile_flush.

Definition handle_get_tools : M json :=
  ret (JDict
         [ ("status", JStr "ok");
           ("message", JStr "Tools retrieved");
           ("data", JDict [("tools", TOOLS)]) ]).

(** The result returned when the LLM call did not give a 200. *)
Definition query_fallback (query_text : json) : json :=
  JDict
    [ ("status", JStr "error");
      ("message", JStr "Failed to process query");
      ("data",
        JDict
          [ ("response",
              JStr ("I'm unable to answer your question about '" ++ fmt query_text
                    ++ "' at this time. Please try again later."));
            ("sources", JList []) ]) ].

Definition handle_query (data : json) : M json :=
  try_except
    (d <- lift (py_get data "data" (JDict [])) ;;
     query_text <- lift (py_get d "query" (JStr "")) ;;
     if negb (truthy query_text) then
       ret (JDict
              [ ("status", JStr "error");
                ("message", JStr "No query provided");
                ("data", JNull) ])
     else
       llm_binding <- os_environ_get "LLM_BINDING" "ollama" ;;
       llm_host <- os_environ_get "LLM_BINDING_HOST" "http://host.docker.internal:11434" ;;
       llm_model <- os_environ_get "LLM_MODEL" "llama3:instruct" ;;
       let prompt :=
         (prompt_head ++ context ++ prompt_middle ++ fmt query_text ++ prompt_tail)%string in
       answered <-
         (if String.eqb llm_binding "ollama" then
            let endpoint := (llm_host ++ "/api/generate")%string in
            let payload :=
              JDict
                [ ("model", JStr llm_model);
                  ("prompt", JStr prompt);
                  ("stream", JBool false) ] in
            response <- requests_post endpoint payload 60 ;;
            if (status_code response =? 200)%Z then
              llm_response <- response_json_call response ;;
              text <- lift (py_get llm_response "response" (JStr "No response from LLM")) ;;
              ret (Some
                     (JDict
                        [ ("status", JStr "ok");
                          ("message", JStr "Query processed");
                          ("data",
                            JDict
                              [ ("response", text);
                                ("sources", JList [knowledge_base_source]) ]) ]))
            else ret None
          else ret None) ;;
       match answered with
       | Some r => ret r
       | None => ret (query_fallback query_text)
       end)
    any_exception
    (fun e =>
       ret (JDict
              [ ("status", JStr "error");
                ("message", JStr ("Error processing query: " ++ exn_str e));
                ("data", JNull) ])).

Definition handle_embedding (data : json) : M json :=
  try_except
    (d <- lift (py_get data "data" (JDict [])) ;;
     text <- lift (py_get d "text" (JStr "")) ;;
     if negb (truthy text) then
       ret (JDict
              [ ("status", JStr "error");
                ("message", JStr "No text provided for embedding");
                ("data", JNull) ])
     else
       embedding_binding <- os_environ_get "EMBEDDING_BINDING" "ollama" ;;
       embedding_host <-
         os_environ_get "EMBEDDING_BINDING_HOST" "http://host.docker.internal:11434" ;;
       embedding_model <- os_environ_get "EMBEDDING_MODEL" "bge-m3:latest" ;;
       answered <-
         (if String.eqb embedding_binding "ollama" then
            let endpoint := (embedding_host ++ "/api/embeddings")%string in
            let payload :=
              JDict [ ("model", JStr embedding_model); ("prompt", text) ] in
            response <- requests_post endpoint payload 30 ;;
            if (status_code response =? 200)%Z then
              embedding_response <- response_json_call response ;;
              embedding <- lift (py_get embedding_response "embedding" (JList [])) ;;
              dimensions <- lift (py_len embedding) ;;
              ret (Some
                     (JDict
                        [ ("status", JStr "ok");
                          ("message", JStr "Embedding processed");
                          ("data",
                            JDict
                              [ ("dimensions", JInt dimensions);
                                ("model", JStr embedding_model);
                                ("status", JStr "success") ]) ]))
            else ret None
          else ret None) ;;
       match answered with
       | Some r => ret r
       | None =>
           ret (JDict
                  [ ("status", JStr "error");
                    ("message", JStr "Embedding service unavailable");
                    ("data",
                      JDict
                        [ ("dimensions", JInt 0);
                          ("model", JStr embedding_model);
                          ("status", JStr "failed") ]) ])
       end)
    any_exception
    (fun e =>
       ret (JDict
              [ ("status", JStr "error");
                ("message", JStr ("Error processing embedding: " ++ exn_str e));
                ("data", JNull) ])).

Definition handle_capabilities : M json :=
  llm <- os_environ_get "LLM_MODEL" "llama3:instruct" ;;
  embedding <- os_environ_get "EMBEDDING_MODEL" "bge-m3:latest" ;;
  ret (JDict
         [ ("status", JStr "ok");
           ("message", JStr "Capabilities retrieved");
           ("data",
             JDict
               [ ("capabilities", JList [JStr "rag"; JStr "embedding"; JStr "query"]);
                 ("models", JDict [("llm", JStr llm); ("embedding", JStr embedding)]);
                 ("api_version", JStr "1.0");
                 ("tools", TOOLS) ]) ]).

Definition default_response (message : string) : M json :=
  ret (JDict
         [ ("status", JStr "ok");
           ("message", JStr message);
           ("data",
             JDict
               [ ("capabilities", JList [JStr "rag"; JStr "embedding"; JStr "query"]);
                 ("api_version", JStr "1.0") ]) ]).

(** The value bound to [response] in [do_POST], lines 56 to 85. *)
Definition do_POST_response (content_length : Z) (body : post_body) : M json :=
  if (content_length >? 0)%Z then
    rfile_read_decode body ;;
    try_except
      (request_data <- json_loads body ;;
       has_action <- lift (py_in "action" request_data) ;;
       if has_action : bool then
         action <- lift (py_get request_data "action" JNull) ;;
         if py_eq_str action "query" then handle_query request_data
         else if py_eq_str action "embedding" then handle_embedding request_data
         else if py_eq_str action "capabilities" then handle_capabilities
         else if py_eq_str action "get_tools" then handle_get_tools
         else default_response ("Action '" ++ fmt action ++ "' acknowledged")
       else default_response "No action specified")
      is_json_decode_error
      (fun _ =>
         ret (JDict
                [ ("status", JStr "error");
                  ("message", JStr "Invalid JSON data") ]))
  else default_response "Empty request".

Definition do_POST (content_length : Z) (body : post_body) : M unit :=
  response <- do_POST_response content_length body ;;
  send_response 200 ;;
  send_header "Content-Type" "application/json" ;;
  end_headers ;;
  wfile_write (Body response) ;;
  event_queue_put response.

(** One pass of the body of [for _ in range(30)]. *)
Definition poll_and_sleep : M unit :=
  try_except
    (event <- event_queue_get_nowait ;;
     send_sse_event "message" event)
    is_queue_empty
    (fun _ => ret tt) ;;
  time_sleep 1.

Definition send_heartbeat : M unit :=
  now <- time_time ;;
  send_sse_event "heartbeat"
    (JDict [("type", JStr "heartbeat"); ("timestamp", now)]).

(** One pass of the body of [while True]. *)
Definition cycle : M unit :=
  for_range 30 poll_and_sleep ;;
  send_heartbeat.

(** The [try] block of [do_GET]: the loop, left on a disconnect. *)
Definition stream (fuel : nat) : M unit :=
  try_except (while_true fuel cycle) is_disconnect (fun _ => ret tt).

Definition do_GET (fuel : nat) (req : request) : M unit :=
  if String.eqb (path req) "/health" then
    send_response 200 ;;
    send_header "Content-Type" "application/json" ;;
    end_headers ;;
    wfile_write
      (Body (JDict
               [ ("status", JStr "ok");
                 ("message", JStr "LightRAG MCP Server is healthy") ]))
  else
    let accept_header := headers_get "Accept" "" (headers req) in
    if contains "text/event-stream" accept_header then
      send_response 200 ;;
      send_header "Content-Type" "text/event-stream" ;;
      send_header "Cache-Control" "no-cache" ;;
      send_header "Connection" "keep-alive" ;;
      end_headers ;;
      send_sse_event "connected"
        (JDict
           [ ("status", JStr "connected");
             ("message", JStr "LightRAG MCP Server Connected") ]) ;;
      send_sse_event "tools"
        (JDict [("type", JStr "tools"); ("tools", TOOLS)]) ;;
      capabilities <- handle_capabilities ;;
      send_sse_event "capabilities" capabilities ;;
      stream fuel
    else
      send_response 200 ;;
      send_header "Content-Type" "text/plain" ;;
      end_headers ;;
      wfile_write (Text "LightRAG MCP Server Running").
End Handler.

End mcp_server.

(** The answer of the three variants that do not call a backend. *)
Definition canned_vaebz : string :=
  "VAEBZ is a technology company specializing in AI infrastructure and automation solutions. Key products include TaskHarbinger, LightRAG, MCP Services, SentinelGaze, AtomicScope, and ProposalForge.".

Definition canned_head : string :=
  "Based on available information, I can tell you that your query '".

Definition canned_tail : string :=
  "' relates to VAEBZ's AI products and services. VAEBZ offers TaskHarbinger for AI orchestration, LightRAG for knowledge integration, and several other AI automation tools.".

(** ** [simple_mcp_server.py] *)

Module simple_mcp_server.

Definition TOOLS : json :=
  JList
    [ JDict
        [ ("name", JStr "query");
          ("description", JStr "Query VAEBZ product information using natural language");
          ("parameters",
            JDict
              [ ("type", JStr "object");
                ("properties",
                  JDict
                    [ ("query",
                        JDict
                          [ ("type", JStr "string");
                            ("description", JStr "The query about VAEBZ products or services") ]) ]);
                ("required", JList [JStr "query"]) ]) ] ].

Definition capabilities : json :=
  JDict
    [ ("status", JStr "ok");
      ("message", JStr "Capabilities retrieved");
      ("data",
        JDict
          [ ("capabilities", JList [JStr "query"]);
            ("models", JDict [("llm", JStr "llama3:instruct")]);
            ("api_version", JStr "1.0");
            ("tools", TOOLS) ]) ].

Definition tools_response : json :=
  JDict
    [ ("status", JStr "ok");
      ("message", JStr "Tools retrieved");
      ("data", JDict [("tools", TOOLS)]) ].

Section Handler.
Context {R : Runtime}.

Definition send_sse_event (event_type : string) (data : json) : M unit :=
  wfile_write (EventLine event_type) ;;
  wfile_write (DataLine data) ;;
  wfile_flush.

Definition handle_query (data : json) : M json :=
  d <- lift (py_get data "data" (JDict [])) ;;
  query_text <- lift (py_get d "query" (JStr "")) ;;
  if negb (truthy query_text) then
    ret (JDict
           [ ("status", JStr "error");
             ("message", JStr "No query provided");
             ("data", JNull) ])
  else
    lowered <- lift (py_lower query_text) ;;
    let response_text :=
      if contains "vaebz" lowered then canned_vaebz
      else (canned_head ++ fmt query_text ++ canned_tail)%string in
    ret (JDict
           [ ("status", JStr "ok");
             ("message", JStr "Query processed");
             ("data",
               JDict
                 [ ("response", JStr response_text);
                   ("sources", JList [knowledge_base_source]) ]) ]).

(** The value bound to [response] in [do_POST], lines 164 to 207. *)
Definition do_POST_response (content_length : Z) (body : post_body) : M json :=
  if (content_length >? 0)%Z then
    rfile_read_decode body ;;
    try_except
      (request_data <- json_loads body ;;
       has_action <- lift (py_in "action" request_data) ;;
       if has_action : bool then
         action <- lift (py_get request_data "action" JNull) ;;
         if py_eq_str action "query" then handle_query request_data
         else if py_eq_str action "get_tools" then ret tools_response
         else
           ret (JDict
                  [ ("status", JStr "ok");
                    ("message", JStr ("Action '" ++ fmt action ++ "' acknowledged"));
                    ("data", JDict []) ])
       else
         ret (JDict
                [ ("status", JStr "ok");
                  ("message", JStr "No action specified");
                  ("data", JDict []) ]))
      is_json_decode_error
      (fun _ =>
         ret (JDict
                [ ("status", JStr "error");
                  ("message", JStr "Invalid JSON data") ]))
  else
    ret (JDict
           [ ("status", JStr "ok");
             ("message", JStr "Empty request");
             ("data", JDict []) ]).

Definition do_POST (content_length : Z) (body : post_body) : M unit :=
  response <- do_POST_response content_length body ;;
  send_response 200 ;;
  send_header "Content-Type" "application/json" ;;
  end_headers ;;
  wfile_write (Body response) ;;
  event_queue_put response.

Definition poll_and_sleep : M unit :=
  try_except
    (event <- event_queue_get_nowait ;;
     send_sse_event "message" event)
    is_queue_empty
    (fun _ => ret tt) ;;
  time_sleep 1.

Definition send_heartbeat : M unit :=
  now <- time_time ;;
  send_sse_event "heartbeat"
    (JDict [("type", JStr "heartbeat"); ("timestamp", now)]).

Definition cycle : M unit :=
  for_range 30 poll_and_sleep ;;
  send_heartbeat.

(** The [try] block of [do_GET]: the loop, left on a disconnect. *)
Definition stream (fuel : nat) : M unit :=
  try_except (while_true fuel cycle) is_disconnect (fun _ => ret tt).

Definition reply_json (payload : json) : M unit :=
  send_response 200 ;;
  send_header "Content-Type" "application/json" ;;
  end_headers ;;
  wfile_write (Body payload).

Definition do_GET (fuel : nat) (req : request) : M unit :=
  let accept_header := headers_get "Accept" "" (headers req) in
  if contains "text/event-stream" accept_header then
    send_response 200 ;;
    send_header "Content-Type" "text/event-stream" ;;
    send_header "Cache-Control" "no-cache" ;;
    send_header "Connection" "keep-alive" ;;
    end_headers ;;
    send_sse_event "connected"
      (JDict
         [ ("status", JStr "connected");
           ("message", JStr "LightRAG MCP Server Connected") ]) ;;
    send_sse_event "tools"
      (JDict [("type", JStr "tools"); ("tools", TOOLS)]) ;;
    send_sse_event "capabilities" capabilities ;;
    stream fuel
  else if String.eqb (path req) "/health" then
    reply_json
      (JDict
         [ ("status", JStr "ok");
           ("message", JStr "LightRAG Simple MCP Server is healthy") ])
  else if String.eqb (path req) "/capabilities" || String.eqb (path req) "/" then
    reply_json capabilities
  else if String.eqb (path req) "/tools" then
    reply_json tools_response
  else
    send_response 200 ;;
    send_header "Content-Type" "text/plain" ;;
    end_headers ;;
    wfile_write (Text "LightRAG Simple MCP Server Running").
End Handler.

End simple_mcp_server.

(** ** [sse_server.py] *)

Module sse_server.

Definition TOOLS : json := simple_mcp_server.TOOLS.

Section Handler.
Context {R : Runtime}.

Definition send_sse_event (event_type : string) (data : json) : M unit :=
  wfile_write (EventFrame event_type data) ;;
  wfile_flush.

Definition send_heartbeat : M unit :=
  now <- time_time ;;
  send_sse_event "heartbeat"
    (JDict [("type", JStr "heartbeat"); ("timestamp", now)]).

Definition do_GET (fuel : nat) (req : request) : M unit :=
  send_response 200 ;;
  send_header "Content-Type" "text/event-stream" ;;
  send_header "Cache-Control" "no-cache" ;;
  send_header "Connection" "keep-alive" ;;
  send_header "Access-Control-Allow-Origin" "*" ;;
  end_headers ;;
  send_sse_event "connected"
    (JDict
       [ ("status", JStr "connected");
         ("message", JStr "LightRAG MCP Server Connected") ]) ;;
  send_sse_event "tools" (JDict [("tools", TOOLS)]) ;;
  try_except
    (while_true fuel (send_heartbeat ;; time_sleep 5))
    is_disconnect
    (fun _ => ret tt).

Definition handle_query (data : json) : M json :=
  d <- lift (py_get data "data" (JDict [])) ;;
  query_text <- lift (py_get d "query" (JStr "")) ;;
  if negb (truthy query_text) then
    ret (JDict
           [ ("status", JStr "error");
             ("message", JStr "No query provided") ])
  else
    lowered <- lift (py_lower query_text) ;;
    let response_text :=
      if contains "vaebz" lowered then canned_vaebz
      else (canned_head ++ fmt query_text ++ canned_tail)%string in
    ret (JDict
           [ ("status", JStr "ok");
             ("message", JStr "Query processed");
             ("data",
               JDict
                 [ ("response", JStr response_text);
                   ("sources", JList [knowledge_base_source]) ]) ]).

(** The value bound to [response] in [do_POST], lines 82 to 89. *)
Definition do_POST_response (request_data : json) : M json :=
  has_action <- lift (py_in "action" request_data) ;;
  is_query <-
    (if has_action : bool then
       action <- lift (py_getitem request_data "action") ;;
       ret (py_eq_str action "query")
     else ret false) ;;
  if is_query : bool then handle_query request_data
  else
    ret (JDict
           [ ("status", JStr "ok");
             ("message", JStr "Request received");
             ("data", JDict []) ]).

Definition do_POST (content_length : Z) (body : post_body) : M unit :=
  if (content_length >? 0)%Z then
    rfile_read_decode body ;;
    try_except
      (request_data <- json_loads body ;;
       response <- do_POST_response request_data ;;
       send_response 200 ;;
       send_header "Content-Type" "application/json" ;;
       end_headers ;;
       wfile_write (Body response))
      is_json_decode_error
      (fun _ => send_error 400 "Invalid JSON data")
  else send_error 400 "Empty request".
End Handler.

End sse_server.

(** ** [simple_sse.py] *)

Module simple_sse.

Definition TOOLS : json := simple_mcp_server.TOOLS.

Section Views.
Context {R : Runtime}.

(** Flask sends the head and then each value the generator yields. *)
Definition yield (event_type : string) (data : json) : M unit :=
  wfile_write (EventFrame event_type data).

Definition generate (fuel : nat) : M unit :=
  yield "connected"
    (JDict
       [ ("status", JStr "connected");
         ("message", JStr "LightRAG MCP Server Connected") ]) ;;
  yield "tools" (JDict [("tools", TOOLS)]) ;;
  while_true fuel
    (time_sleep 10 ;;
     now <- time_time ;;
     yield "heartbeat" (JDict [("type", JStr "heartbeat"); ("timestamp", now)])).

(** [jsonify(payload)] returned from a view *)
Definition jsonify (payload : json) : M unit :=
  send_response 200 ;;
  send_header "Content-Type" "application/json" ;;
  end_headers ;;
  wfile_write (Body payload).

Definition sse (fuel : nat) (req : request) : M unit :=
  let accept_header := headers_get "Accept" "" (headers req) in
  if contains "text/event-stream" accept_header then
    send_response 200 ;;
    send_header "Content-Type" "text/event-stream" ;;
    end_headers ;;
    generate fuel
  else
    jsonify
      (JDict
         [ ("status", JStr "ok");
           ("message", JStr "LightRAG MCP Server is running");
           ("data",
             JDict [("capabilities", JList [JStr "query"]); ("tools", TOOLS)]) ]).

Definition health_check : M unit :=
  jsonify
    (JDict
       [ ("status", JStr "ok");
         ("message", JStr "LightRAG MCP Server is healthy") ]).

(** The payload [handle_query] passes to [jsonify]. *)
Definition handle_query (data : json) : M json :=
  d <- lift (py_get data "data" (JDict [])) ;;
  query_text <- lift (py_get d "query" (JStr "")) ;;
  if negb (truthy query_text) then
    ret (JDict
           [ ("status", JStr "error");
             ("message", JStr "No query provided");
             ("data", JNull) ])
  else
    lowered <- lift (py_lower query_text) ;;
    let response_text :=
      if contains "vaebz" lowered then canned_vaebz
      else (canned_head ++ fmt query_text ++ canned_tail)%string in
    ret (JDict
           [ ("status", JStr "ok");
             ("message", JStr "Query processed");
             ("data",
               JDict
                 [ ("response", JStr response_text);
                   ("sources", JList [knowledge_base_source]) ]) ]).

(** The payload of the response [handle_request] returns; [posted] is
    what [request.get_json()] gave, a value or an exception. *)
Definition handle_request_payload (posted : result json) : M json :=
  try_except
    (request_data <- lift posted ;;
     has_action <- lift (py_in "action" request_data) ;;
     is_query <-
       (if has_action : bool then
          action <- lift (py_getitem request_data "action") ;;
          ret (py_eq_str action "query")
        else ret false) ;;
     if is_query : bool then handle_query request_data
     else
       has_action' <- lift (py_in "action" request_data) ;;
       is_get_tools <-
         (if has_action' : bool then
            action <- lift (py_getitem request_data "action") ;;
            ret (py_eq_str action "get_tools")
          else ret false) ;;
       if is_get_tools : bool then
         ret (JDict
                [ ("status", JStr "ok");
                  ("message", JStr "Tools retrieved");
                  ("data", JDict [("tools", TOOLS)]) ])
       else
         ret (JDict
                [ ("status", JStr "ok");
                  ("message", JStr "Request received");
                  ("data", JDict []) ]))
    any_exception
    (fun e =>
       ret (JDict
              [ ("status", JStr "error");
                ("message", JStr ("Error: " ++ exn_str e));
                ("data", JDict []) ])).

Definition handle_request (posted : result json) : M unit :=
  payload <- handle_request_payload posted ;;
  jsonify payload.
End Views.

End simple_sse.

(** ** Sessions as a state machine, and two of them on one queue

    The loop of [do_GET] in [mcp_server.py] and [simple_mcp_server.py],
    taken one pass of the [for] body at a time, so that the passes of two
    handler threads can be interleaved.  [event_queue.get] holds the lock of
    the queue, so a pass takes or misses the head atomically. *)

Module Fanout.

Inductive phase : Type :=
| Streaming (ticks_done : nat)
| Closed.

Inductive sid : Type := SessionA | SessionB.

Record system : Type := mkSystem {
  queue : list json;                 (* the shared [event_queue] *)
  session_a : world * phase;         (* the connection of each handler and where it stands *)
  session_b : world * phase
}.

Section Sessions.
Context {R : Runtime}.

(** One tick: the [for] body, then the heartbeat if it was the 30th. *)
Definition session_step (p : phase) : M phase :=
  match p with
  | Closed => ret Closed
  | Streaming i =>
      try_except
        (mcp_server.poll_and_sleep ;;
         if (S i =? 30)%nat then
           mcp_server.send_heartbeat ;;
           ret (Streaming 0)
         else ret (Streaming (S i)))
        is_disconnect
        (fun _ => ret Closed)
  end.

Fixpoint run_steps (n : nat) (p : phase) : M phase :=
  match n with
  | O => ret p
  | S n' => p' <- session_step p ;; run_steps n' p'
  end.

(** A handler thread takes its next tick on the shared queue. *)
Definition tick_on (q : list json) (s : world * phase) : list json * (world * phase) :=
  match session_step (snd s) (set_event_queue q (fst s)) with
  | (w', Ok p') => (event_queue w', (w', p'))
  | (w', Raise _) => (event_queue w', (w', Closed))
  end.

Definition sched_step (st : system) (who : sid) : system :=
  match who with
  | SessionA =>
      let '(q, s) := tick_on (queue st) (session_a st) in
      mkSystem q s (session_b st)
  | SessionB =>
      let '(q, s) := tick_on (queue st) (session_b st) in
      mkSystem q (session_a st) s
  end.

Definition run_schedule (schedule : list sid) (st : system) : system :=
  fold_left sched_step schedule st.
End Sessions.

(** What [tryConsume] has handed to each session so far. *)
Definition observed_a (st : system) : list json := got (fst (session_a st)).
Definition observed_b (st : system) : list json := got (fst (session_b st)).

End Fanout.

(** ** Vocabulary of the properties *)

(** A connection just accepted: nothing written, nothing slept. *)
Definition connect (q : list json) (calls : list call) (budget : option nat) : world :=
  mkWorld q calls [] budget None 0 [].

(** The peer takes at least [n] more writes. *)
Definition accepts (n : nat) (w : world) : bool :=
  match peer w with
  | None => true
  | Some k => (n <=? k)%nat
  end.

(** The SSE events on the wire, framing removed: a label line followed by
    its data line, or both in one write. *)
Fixpoint events_of (cs : list chunk) : list (string * json) :=
  match cs with
  | [] => []
  | EventLine t :: rest =>
      match rest with
      | DataLine d :: rest' => (t, d) :: events_of rest'
      | _ => events_of rest
      end
  | EventFrame t d :: rest => (t, d) :: events_of rest
  | _ :: rest => events_of rest
  end.

Definition event_types (w : world) : list string := map fst (events_of (wire w)).

Fixpoint starts_with (l full : list string) : bool :=
  match l, full with
  | [], _ => true
  | x :: l', y :: full' => String.eqb x y && starts_with l' full'
  | _ :: _, [] => false
  end.

(** A mapping with a [status] of ["ok"] or ["error"] and a string [message]. *)
Definition well_formed_result (r : json) : bool :=
  match r with
  | JDict d =>
      match dict_get "status" d with
      | Some (JStr s) => String.eqb s "ok" || String.eqb s "error"
      | _ => false
      end
      && match dict_get "message" d with
         | Some (JStr _) => true
         | _ => false
         end
  | _ => false
  end.

Definition on_result {A : Type} (P : A -> Prop) (r : result A) : Prop :=
  match r with
  | Ok a => P a
  | Raise _ => True
  end.

(** A request whose [data.query] is the empty string or is missing. *)
Definition empty_query (d : dict) : bool :=
  match dict_get "data" d with
  | None => true
  | Some (JDict dd) =>
      match dict_get "query" dd with
      | None => true
      | Some (JStr s) => String.eqb s ""
      | Some _ => false
      end
  | Some _ => false
  end.

Definition json_head : chunk := Head 200 [("Content-Type", "application/json")].

Definition invalid_json_result : json :=
  JDict [("status", JStr "error"); ("message", JStr "Invalid JSON data")].

Definition no_query_result : json :=
  JDict [("status", JStr "error"); ("message", JStr "No query provided"); ("data", JNull)].

(** The result has [status: error], and [data] with an apology naming the
    query and no sources. *)
Definition degraded_about (q : string) (r : json) : Prop :=
  exists d dd text,
    r = JDict d /\
    dict_get "status" d = Some (JStr "error") /\
    dict_get "data" d = Some (JDict dd) /\
    dict_get "response" dd = Some (JStr text) /\
    contains q text = true /\
    dict_get "sources" dd = Some (JList []).

(** The result has [status: error] and [data: null]. *)
Definition error_with_null_data (r : json) : Prop :=
  exists d,
    r = JDict d /\
    dict_get "status" d = Some (JStr "error") /\
    dict_get "data" d = Some JNull.

(** A 200 with a JSON body whose [status] is ["ok"], and nothing else. *)
Definition answers_health (cs : list chunk) : Prop :=
  exists d,
    cs = [json_head; Body (JDict d)] /\
    dict_get "status" d = Some (JStr "ok").

(** Sample runtimes: no environment variables; a backend that cannot be
    reached, and one that answers 503. *)
Definition sample_str (x : json) : string :=
  match x with
  | JNull => "None"
  | JBool true => "True"
  | JBool false => "False"
  | _ => "..."
  end.

Definition unreachable_backend : Runtime := {|
  os_environ := fun _ => None;
  backend := fun _ _ _ => Failed "Connection refused";
  py_str := sample_str;
  wall_clock := fun n => inject_Z (Z.of_nat n)
|}.

Definition overloaded_backend : Runtime := {|
  os_environ := fun _ => None;
  backend := fun _ _ _ =>
    Responded
      (mkResponse 503
         (Raise (RequestException "Expecting value: line 1 column 1 (char 0)"))
         "Service Unavailable");
  py_str := sample_str;
  wall_clock := fun n => inject_Z (Z.of_nat n)
|}.

Definition query_request (q : string) : json :=
  JDict [("action", JStr "query"); ("data", JDict [("query", JStr q)])].

Definition sse_request (p : string) : request :=
  mkRequest p [("Accept", "text/event-stream")].

(** The tail of [do_POST] in [mcp_server.py] and [simple_mcp_server.py]:
    write the response, then put it on the queue. *)
Definition reply_and_publish (r : json) : M unit :=
  send_response 200 ;;
  send_header "Content-Type" "application/json" ;;
  end_headers ;;
  wfile_write (Body r) ;;
  event_queue_put r.

(** Every run of the computation takes a world to one related to it. *)
Definition respects {A : Type} (rel : world -> world -> Prop) (m : M A) : Prop :=
  forall w, rel w (exec m w).

(** [w'] differs from [w] at most in the outbound calls. *)
Definition same_connection (w w' : world) : Prop :=
  event_queue w' = event_queue w /\
  wire w' = wire w /\
  peer w' = peer w /\
  pending w' = pending w /\
  slept w' = slept w /\
  got w' = got w.

(** [w'] comes from [w] by writing, buffering headers, sleeping: the queue,
    what was taken from it and the outbound calls are as they were, and
    the wire has only grown. *)
Definition io_only (w w' : world) : Prop :=
  event_queue w' = event_queue w /\
  got w' = got w /\
  outbound w' = outbound w /\
  exists extra, wire w' = wire w ++ extra.

(** The wire of [w'] continues the wire of [w]. *)
Definition extends (w w' : world) : Prop :=
  exists extra, wire w' = wire w ++ extra.

(** The queue is as it was. *)
Definition keeps_queue (w w' : world) : Prop :=
  event_queue w' = event_queue w.

(** From an empty queue nothing is taken. *)
Definition drained (w w' : world) : Prop :=
  event_queue w = [] -> event_queue w' = [] /\ got w' = got w.

(** Every value the computation returns satisfies [P]. *)
Definition yields {A : Type} (P : A -> Prop) (m : M A) : Prop :=
  forall w, on_result P (eval m w).

(** The computation returns, whatever the world. *)
Definition total {A : Type} (m : M A) : Prop :=
  forall w, exists a, eval m w = Ok a.

Definition well_formed (r : json) : Prop := well_formed_result r = true.

(** The queue of [w'] is the queue of [w] with exactly [r] put at its tail. *)
Definition published_one (r : json) (w w' : world) : Prop :=
  event_queue w' = event_queue w ++ [r].

Definition nothing_published (w w' : world) : Prop :=
  event_queue w' = event_queue w.

(** A connection just accepted, the server having neither queued events
    nor called its backend. *)
Definition idle : world := connect [] [] None.

Definition error_head : chunk :=
  Head 400 [("Connection", "close"); ("Content-Type", "text/html;charset=utf-8")].

(** What [handle_query] of [mcp_server.py] returns when an exception reaches
    its [except Exception]. *)
Definition query_error (msg : string) : json :=
  JDict
    [ ("status", JStr "error");
      ("message", JStr ("Error processing query: " ++ msg));
      ("data", JNull) ].

(** The refusal of [sse_server.py], which has no [data] key. *)
Definition no_query_result_bare : json :=
  JDict [("status", JStr "error"); ("message", JStr "No query provided")].

(** [os.environ.get('LLM_BINDING', 'ollama')] *)
Definition llm_binding {R : Runtime} : string :=
  match os_environ "LLM_BINDING" with
  | Some v => v
  | None => "ollama"
  end.

Definition stream_head : chunk :=
  Head 200
    [ ("Content-Type", "text/event-stream");
      ("Cache-Control", "no-cache");
      ("Connection", "keep-alive") ].

(** The head of [sse_server.py], which adds a CORS header. *)
Definition stream_head_cors : chunk :=
  Head 200
    [ ("Content-Type", "text/event-stream");
      ("Cache-Control", "no-cache");
      ("Connection", "keep-alive");
      ("Access-Control-Allow-Origin", "*") ].

Definition bootstrap : list string := ["connected"; "tools"; "capabilities"].

(** A GET asks for a stream when its [Accept] header names the type. *)
Definition wants_stream (req : request) : bool :=
  contains "text/event-stream" (headers_get "Accept" "" (headers req)).

(** The payload of the heartbeat sent after [t] seconds of sleep. *)
Definition heartbeat_at {R : Runtime} (t : nat) : json :=
  JDict [("type", JStr "heartbeat"); ("timestamp", JFloat (wall_clock t))].

(** The payloads of the heartbeats on the wire, in order. *)
Definition heartbeats_of (w : world) : list json :=
  map snd (filter (fun ev => String.eqb (fst ev) "heartbeat") (events_of (wire w))).

Definition health_body (message : string) : json :=
  JDict [("status", JStr "ok"); ("message", JStr message)].

(** Heartbeats as [mcp_server.py] writes them, one for each time of the
    list: a label line and a data line. *)
Definition beat_lines {R : Runtime} (times : list nat) : list chunk :=
  flat_map (fun t => [EventLine "heartbeat"; DataLine (heartbeat_at t)]) times.

(** Heartbeats as [sse_server.py] and [simple_sse.py] write them: one
    write each. *)
Definition beat_frames {R : Runtime} (times : list nat) : list chunk :=
  map (fun t => EventFrame "heartbeat" (heartbeat_at t)) times.

(** The times [t0 + period * j] for [j] from [first], [k] of them. *)
Definition every (period t0 first k : nat) : list nat :=
  map (fun j => t0 + period * j) (seq first k).

(** While the peer stays connected the computation returns, having slept
    exactly [n] seconds. *)
Definition sleeps (n : nat) (m : M unit) : Prop :=
  forall w,
    peer w = None ->
    exists w', m w = (w', Ok tt) /\ peer w' = None /\ slept w' = slept w + n.

(** The session has left its loop: it is closed, or an exception escaped. *)
Definition halted (r : result Fanout.phase) : Prop :=
  match r with
  | Ok Fanout.Closed => True
  | Ok (Fanout.Streaming _) => False
  | Raise _ => True
  end.

(** ** Vocabulary of the further properties *)


(** Queued events as a stream of [mcp_server.py] writes them. *)
Definition message_lines (events : list json) : list chunk :=
  flat_map (fun e => [EventLine "message"; DataLine e]) events.

(** What the handler took from the queue and what it left make up the
    queue it found; it put nothing there and called no backend. *)
Definition conserves (w w' : world) : Prop :=
  outbound w' = outbound w /\
  exists taken,
    event_queue w = taken ++ event_queue w' /\
    got w' = got w ++ taken.

(** A JSON value that is neither a string nor an array nor an object. *)
Definition scalar (j : json) : bool :=
  match j with
  | JNull | JBool _ | JInt _ | JFloat _ => true
  | JStr _ | JList _ | JDict _ => false
  end.

Definition is_object (j : json) : bool :=
  match j with
  | JDict _ => true
  | _ => false
  end.

Definition is_text (j : json) : bool :=
  match j with
  | JStr _ => true
  | _ => false
  end.

(** [x.get] on a value that has no such method. *)
Definition no_get (j : json) : string :=
  "'" ++ type_name j ++ "' object has no attribute 'get'".

(** [x.lower] on a value that has no such method. *)
Definition no_lower (j : json) : string :=
  "'" ++ type_name j ++ "' object has no attribute 'lower'".

(** ['action' in x] on a value that is not a container. *)
Definition not_iterable (j : json) : string :=
  "argument of type '" ++ type_name j ++ "' is not iterable".

(** The acknowledgment of [simple_mcp_server.py]. *)
Definition bare_ack (message : string) : json :=
  JDict [("status", JStr "ok"); ("message", JStr message); ("data", JDict [])].

(** What [handle_embedding] returns on an exception, on a missing text and
    when the service did not answer 200. *)
Definition embedding_error (msg : string) : json :=
  JDict
    [ ("status", JStr "error");
      ("message", JStr ("Error processing embedding: " ++ msg));
      ("data", JNull) ].

Definition no_text_result : json :=
  JDict
    [ ("status", JStr "error");
      ("message", JStr "No text provided for embedding");
      ("data", JNull) ].

Definition embedding_unavailable (model : string) : json :=
  JDict
    [ ("status", JStr "error");
      ("message", JStr "Embedding service unavailable");
      ("data",
        JDict
          [ ("dimensions", JInt 0); ("model", JStr model); ("status", JStr "failed") ]) ].

Definition embedding_processed (dimensions : Z) (model : string) : json :=
  JDict
    [ ("status", JStr "ok");
      ("message", JStr "Embedding processed");
      ("data",
        JDict
          [ ("dimensions", JInt dimensions);
            ("model", JStr model);
            ("status", JStr "success") ]) ].

Definition query_processed (text : json) : json :=
  JDict
    [ ("status", JStr "ok");
      ("message", JStr "Query processed");
      ("data", JDict [("response", text); ("sources", JList [knowledge_base_source])]) ].

(** [os.environ.get(name, default)] as a value. *)
Definition environ_or {R : Runtime} (name default : string) : string :=
  match os_environ name with
  | Some v => v
  | None => default
  end.

(** The error payload of [handle_request] in [simple_sse.py]. *)
Definition flask_error (msg : string) : json :=
  JDict
    [ ("status", JStr "error");
      ("message", JStr ("Error: " ++ msg));
      ("data", JDict []) ].

(** A backend that answers every call with 200 and the same JSON body. *)
Definition answering_backend (body : json) : Runtime := {|
  os_environ := fun _ => None;
  backend := fun _ _ _ => Responded (mkResponse 200 (Ok body) "");
  py_str := sample_str;
  wall_clock := fun n => inject_Z (Z.of_nat n)
|}.

(** The acknowledgment of [mcp_server.py], built by [default_response]. *)
Definition mcp_ack (message : string) : json :=
  JDict
    [ ("status", JStr "ok");
      ("message", JStr message);
      ("data",
        JDict
          [ ("capabilities", JList [JStr "rag"; JStr "embedding"; JStr "query"]);
            ("api_version", JStr "1.0") ]) ].

(** The message that acknowledges a request whose action is not routed. *)
Definition acknowledgment {R : Runtime} (action : option json) : string :=
  match action with
  | None => "No action specified"
  | Some a => "Action '" ++ fmt a ++ "' acknowledged"
  end.

(** The action is one of those the [do_POST] of [mcp_server.py] routes. *)
Definition routed_by_mcp (action : option json) : bool :=
  match action with
  | None => false
  | Some a =>
      py_eq_str a "query" || py_eq_str a "embedding"
      || py_eq_str a "capabilities" || py_eq_str a "get_tools"
  end.

(** The action is one of the two [simple_mcp_server.py] and
    [simple_sse.py] route. *)
Definition routed_by_simple (action : option json) : bool :=
  match action with
  | None => false
  | Some a => py_eq_str a "query" || py_eq_str a "get_tools"
  end.

(** The field of [data] is missing or holds a value that Python takes for
    false: [""], [0], [false], [null], an empty array or object. *)
Definition falsy_field (field : string) (d : dict) : bool :=
  match dict_get "data" d with
  | None => true
  | Some (JDict dd) =>
      match dict_get field dd with
      | None => true
      | Some v => negb (truthy v)
      end
  | Some _ => false
  end.

(** The answer of the variants without a backend to the query [q]. *)
Definition canned_answer (q : string) : json :=
  query_processed
    (JStr (if contains "vaebz" (lower q) then canned_vaebz
           else canned_head ++ q ++ canned_tail)).


(** The world after one more [requests.post]. *)
Definition called (c : call) (w : world) : world :=
  set_outbound (outbound w ++ [c]) w.

(** What the backend does with a call. *)
Definition answer_of {R : Runtime} (c : call) : post_outcome :=
  backend (call_endpoint c) (call_payload c) (call_timeout c).

(** The prompt [handle_query] builds around the query. *)
Definition prompt_about {R : Runtime} (query_text : json) : string :=
  (mcp_server.prompt_head ++ mcp_server.context ++ mcp_server.prompt_middle
   ++ fmt query_text ++ mcp_server.prompt_tail)%string.

(** The call [handle_query] of [mcp_server.py] makes for a query. *)
Definition generate_call {R : Runtime} (query_text : json) : call :=
  mkCall
    (environ_or "LLM_BINDING_HOST" "http://host.docker.internal:11434" ++ "/api/generate")
    (JDict
       [ ("model", JStr (environ_or "LLM_MODEL" "llama3:instruct"));
         ("prompt", JStr (prompt_about query_text));
         ("stream", JBool false) ])
    60.

(** The call [handle_embedding] makes for a text. *)
Definition embedding_call {R : Runtime} (text : json) : call :=
  mkCall
    (environ_or "EMBEDDING_BINDING_HOST" "http://host.docker.internal:11434"
     ++ "/api/embeddings")
    (JDict
       [ ("model", JStr (environ_or "EMBEDDING_MODEL" "bge-m3:latest"));
         ("prompt", text) ])
    30.

(** [embedding_response.get('embedding', [])] *)
Definition embedding_of (b : dict) : json :=
  match dict_get "embedding" b with
  | Some v => v
  | None => JList []
  end.

(** [llm_response.get('response', 'No response from LLM')] *)
Definition response_of (b : dict) : json :=
  match dict_get "response" b with
  | Some v => v
  | None => JStr "No response from LLM"
  end.

(** Why a 200 answer cannot be used: [response.json()] raises, and the
    text is that of its exception, or the JSON is not an object.  [None]
    when it can. *)
Definition unusable (resp : response) : option string :=
  match response_json resp with
  | Raise e => Some (exn_str e)
  | Ok (JDict _) => None
  | Ok body => Some (no_get body)
  end.

(** No header of the list is named [Accept], in any letter case. *)
Definition without_accept (hs : list (string * string)) : bool :=
  forallb (fun kv => negb (String.eqb (lower (fst kv)) "accept")) hs.

(** The value [handle_capabilities] of [mcp_server.py] returns. *)
Definition mcp_capabilities {R : Runtime} : json :=
  JDict
    [ ("status", JStr "ok");
      ("message", JStr "Capabilities retrieved");
      ("data",
        JDict
          [ ("capabilities", JList [JStr "rag"; JStr "embedding"; JStr "query"]);
            ("models",
              JDict
                [ ("llm", JStr (environ_or "LLM_MODEL" "llama3:instruct"));
                  ("embedding", JStr (environ_or "EMBEDDING_MODEL" "bge-m3:latest")) ]);
            ("api_version", JStr "1.0");
            ("tools", mcp_server.TOOLS) ]) ].

(** The payload of the [connected] event. *)
Definition connected_payload : json :=
  JDict
    [ ("status", JStr "connected");
      ("message", JStr "LightRAG MCP Server Connected") ].

(** The payload of the [tools] event for a catalogue. *)
Definition tools_payload (tools : json) : json :=
  JDict [("type", JStr "tools"); ("tools", tools)].

(** The answer to [get_tools] for a catalogue. *)
Definition tools_retrieved (tools : json) : json :=
  JDict
    [ ("status", JStr "ok");
      ("message", JStr "Tools retrieved");
      ("data", JDict [("tools", tools)]) ].

Definition text_head : chunk := Head 200 [("Content-Type", "text/plain")].

(** No header of the request is named [Accept], in any letter case. *)
Definition no_accept (req : request) : bool :=
  forallb (fun kv => negb (String.eqb (lower (fst kv)) "accept")) (headers req).

(** The status page [simple_sse.py] serves to a GET that asks for no
    stream. *)
Definition flask_status_page : json :=
  JDict
    [ ("status", JStr "ok");
      ("message", JStr "LightRAG MCP Server is running");
      ("data",
        JDict [("capabilities", JList [JStr "query"]); ("tools", simple_sse.TOOLS)]) ].

(** A backend that answers every call with 200 and the body [{not json],
    on which [response.json()] raises. *)
Definition garbling_backend : Runtime := {|
  os_environ := fun _ => None;
  backend := fun _ _ _ =>
    Responded
      (mkResponse 200
         (Raise (RequestException
                   "Expecting property name enclosed in double quotes: line 1 column 2 (char 1)"))
         "{not json");
  py_str := sample_str;
  wall_clock := fun n => inject_Z (Z.of_nat n)
|}.
(** * Properties *)

(** ** Laws of the monad *)

#[export] Instance same_connection_preorder : PreOrder same_connection.
Proof.
  split.
  - intro w. repeat split.
  - intros w1 w2 w3 (a1 & a2 & a3 & a4 & a5 & a6) (b1 & b2 & b3 & b4 & b5 & b6).
    repeat split; congruence.
Qed.

#[export] Instance io_only_preorder : PreOrder io_only.
Proof.
  split.
  - intro w. repeat split. exists []. symmetry. apply app_nil_r.
  - intros w1 w2 w3 (a1 & a2 & a3 & x & a4) (b1 & b2 & b3 & y & b4).
    repeat split; try congruence.
    exists (x ++ y). rewrite b4, a4. symmetry. apply app_assoc.
Qed.

#[export] Instance extends_preorder : PreOrder extends.
Proof.
  split.
  - intro w. exists []. symmetry. apply app_nil_r.
  - intros w1 w2 w3 [x Hx] [y Hy]. exists (x ++ y).
    rewrite Hy, Hx. symmetry. apply app_assoc.
Qed.

#[export] Instance keeps_queue_preorder : PreOrder keeps_queue.
Proof.
  split.
  - intro w. reflexivity.
  - intros w1 w2 w3 H12 H23. unfold keeps_queue in *. congruence.
Qed.

#[export] Instance drained_preorder : PreOrder drained.
Proof.
  split.
  - intros w H. auto.
  - intros w1 w2 w3 H12 H23 H. destruct (H12 H) as [Hq Hg].
    destruct (H23 Hq) as [Hq' Hg']. split; congruence.
Qed.

Section Respect.
Context (rel : world -> world -> Prop) {Hrel : PreOrder rel}.

Lemma respects_ret {A : Type} (a : A) : respects rel (ret a).
Proof. intro w. reflexivity. Qed.

Lemma respects_raise {A : Type} (e : exn) : respects rel (@raise A e).
Proof. intro w. reflexivity. Qed.

Lemma respects_lift {A : Type} (r : result A) : respects rel (lift r).
Proof. intro w. reflexivity. Qed.

Lemma respects_bind {A B : Type} (m : M A) (k : A -> M B) :
  respects rel m -> (forall a, respects rel (k a)) -> respects rel (bind m k).
Proof.
  intros Hm Hk w. specialize (Hm w). unfold exec, bind in *.
  destruct (m w) as [w1 [a | e]]; cbn [fst] in *; [ | exact Hm ].
  transitivity w1; [ exact Hm | apply Hk ].
Qed.

Lemma respects_try {A : Type} (m : M A) (handles : exn -> bool) (h : exn -> M A) :
  respects rel m -> (forall e, respects rel (h e)) -> respects rel (try_except m handles h).
Proof.
  intros Hm Hh w. specialize (Hm w). unfold exec, try_except in *.
  destruct (m w) as [w1 [a | e]]; cbn [fst] in *; [ exact Hm | ].
  destruct (handles e); [ | exact Hm ].
  transitivity w1; [ exact Hm | apply Hh ].
Qed.

Lemma respects_for_range (n : nat) (body : M unit) :
  respects rel body -> respects rel (for_range n body).
Proof.
  intro Hb. induction n as [ | n IH ]; cbn [for_range].
  - apply respects_ret.
  - apply respects_bind; auto.
Qed.

Lemma respects_while_true (fuel : nat) (body : M unit) :
  respects rel body -> respects rel (while_true fuel body).
Proof.
  intro Hb. induction fuel as [ | fuel IH ]; cbn [while_true].
  - apply respects_ret.
  - apply respects_bind; auto.
Qed.
End Respect.

Lemma respects_weaken {A : Type} (rel rel' : world -> world -> Prop) (m : M A) :
  (forall w w', rel w w' -> rel' w w') -> respects rel m -> respects rel' m.
Proof. intros Himp Hm w. apply Himp, Hm. Qed.

Section Results.

Lemma yields_ret {A : Type} (P : A -> Prop) (a : A) : P a -> yields P (ret a).
Proof. intros H w. exact H. Qed.

Lemma yields_bind {A B : Type} (Q : A -> Prop) (P : B -> Prop) (m : M A) (k : A -> M B) :
  yields Q m -> (forall a, Q a -> yields P (k a)) -> yields P (bind m k).
Proof.
  intros Hm Hk w. specialize (Hm w). unfold eval, bind in *.
  destruct (m w) as [w1 [a | e]]; cbn in *; [ | exact I ].
  apply (Hk a Hm w1).
Qed.

Lemma yields_any {A : Type} (m : M A) : yields (fun _ => True) m.
Proof. intro w. unfold on_result. destruct (eval m w); exact I. Qed.

Lemma yields_then {A B : Type} (P : B -> Prop) (m : M A) (k : A -> M B) :
  (forall a, yields P (k a)) -> yields P (bind m k).
Proof.
  intro Hk. apply (yields_bind (fun _ => True)); [ apply yields_any | auto ].
Qed.

Lemma yields_try {A : Type} (P : A -> Prop) (m : M A) (handles : exn -> bool)
    (h : exn -> M A) :
  yields P m -> (forall e, yields P (h e)) -> yields P (try_except m handles h).
Proof.
  intros Hm Hh w. specialize (Hm w). unfold eval, try_except in *.
  destruct (m w) as [w1 [a | e]]; cbn in *; [ exact Hm | ].
  destruct (handles e); [ apply (Hh e w1) | exact I ].
Qed.

Lemma total_ret {A : Type} (a : A) : total (ret a).
Proof. intro w. exists a. reflexivity. Qed.

Lemma total_lift {A : Type} (a : A) : total (lift (Ok a)).
Proof. intro w. exists a. reflexivity. Qed.

Lemma total_bind {A B : Type} (m : M A) (k : A -> M B) :
  total m -> (forall a, total (k a)) -> total (bind m k).
Proof.
  intros Hm Hk w. destruct (Hm w) as [a Ha]. unfold eval, bind in *.
  destruct (m w) as [w1 [a' | e]]; cbn in *; [ | discriminate ].
  apply Hk.
Qed.

Lemma total_after_ret {A B : Type} (a : A) (k : A -> M B) :
  total (k a) -> total (bind (ret a) k).
Proof. intros Hk w. apply Hk. Qed.

Lemma total_after_lift {A B : Type} (a : A) (k : A -> M B) :
  total (k a) -> total (bind (lift (Ok a)) k).
Proof. intros Hk w. apply Hk. Qed.

Lemma total_try_any {A : Type} (m : M A) (h : exn -> M A) :
  (forall e, total (h e)) -> total (try_except m any_exception h).
Proof.
  intros Hh w. unfold eval, try_except.
  destruct (m w) as [w1 [a | e]]; cbn; [ eauto | apply Hh ].
Qed.

Lemma total_try {A : Type} (m : M A) (handles : exn -> bool) (h : exn -> M A) :
  total m -> total (try_except m handles h).
Proof.
  intros Hm w. destruct (Hm w) as [a Ha]. unfold eval, try_except in *.
  destruct (m w) as [w1 [a' | e]]; cbn in *; [ eauto | discriminate ].
Qed.

Lemma returns_and_yields {A : Type} (P : A -> Prop) (m : M A) :
  total m -> yields P m -> forall w, exists a, eval m w = Ok a /\ P a.
Proof.
  intros Ht Hy w. destruct (Ht w) as [a Ha]. specialize (Hy w).
  rewrite Ha in Hy. eauto.
Qed.
End Results.

(** ** What each primitive touches *)

Section Primitives.
Context {R : Runtime}.

Lemma write_io_only (c : chunk) : respects io_only (wfile_write c).
Proof.
  intro w. unfold exec, wfile_write.
  destruct (peer w) as [ [ | n ] | ]; cbn; repeat split;
    first [ exists [c]; reflexivity | exists []; symmetry; apply app_nil_r ].
Qed.

Lemma send_response_io_only (code : Z) : respects io_only (send_response code).
Proof. intro w. repeat split. exists []. symmetry. apply app_nil_r. Qed.

Lemma send_header_io_only (k v : string) : respects io_only (send_header k v).
Proof.
  intro w. unfold exec, send_header. destruct (pending w) as [ [code hs] | ];
    repeat split; exists []; symmetry; apply app_nil_r.
Qed.

Lemma end_headers_io_only : respects io_only end_headers.
Proof.
  intro w. unfold exec, end_headers. destruct (pending w) as [ [code hs] | ].
  - apply (write_io_only (Head code hs) (set_pending None w)).
  - reflexivity.
Qed.

Lemma sleep_io_only (n : nat) : respects io_only (time_sleep n).
Proof. intro w. repeat split. exists []. symmetry. apply app_nil_r. Qed.

Lemma time_io_only : respects io_only time_time.
Proof. intro w. reflexivity. Qed.

Lemma environ_quiet (name default :
  string) : respects same_connection (os_environ_get name default).
Proof. apply respects_ret; typeclasses eauto. Qed.

Lemma requests_post_quiet (endpoint : string) (payload : json) (t : Z) :
  respects same_connection (requests_post endpoint payload t).
Proof.
  intro w. unfold exec, requests_post.
  destruct (backend endpoint payload t); repeat split.
Qed.

Lemma response_json_quiet (r :
  response) : respects same_connection (response_json_call r).
Proof.
  unfold response_json_call. apply respects_lift; typeclasses eauto.
Qed.

Lemma json_loads_quiet (body : post_body) : respects same_connection (json_loads body).
Proof.
  destruct body; first [ apply respects_raise | apply respects_ret ]; typeclasses eauto.
Qed.

Lemma read_decode_quiet (body : post_body) :
  respects same_connection (rfile_read_decode body).
Proof.
  destruct body; first [ apply respects_raise | apply respects_ret ]; typeclasses eauto.
Qed.

Lemma get_extends : respects extends event_queue_get_nowait.
Proof.
  intro w. unfold exec, event_queue_get_nowait.
  destruct (event_queue w); exists []; symmetry; apply app_nil_r.
Qed.

Lemma get_drained : respects drained event_queue_get_nowait.
Proof.
  intros w H. unfold exec, event_queue_get_nowait. rewrite H. auto.
Qed.

Lemma io_only_extends (w w' : world) : io_only w w' -> extends w w'.
Proof. intros (_ & _ & _ & H). exact H. Qed.

Lemma io_only_keeps_queue (w w' : world) : io_only w w' -> keeps_queue w w'.
Proof. intros (H & _). exact H. Qed.

Lemma io_only_drained (w w' : world) : io_only w w' -> drained w w'.
Proof. intros (Hq & Hg & _) H. split; congruence. Qed.

Lemma same_connection_extends (w w' : world) : same_connection w w' -> extends w w'.
Proof. intros (_ & H & _). exists []. rewrite H. symmetry. apply app_nil_r. Qed.

Lemma same_connection_keeps_queue (w w' : world) :
  same_connection w w' -> keeps_queue w w'.
Proof. intros (H & _). exact H. Qed.

Lemma same_connection_drained (w w' : world) : same_connection w w' -> drained w w'.
Proof. intros (Hq & _ & _ & _ & _ & Hg) H. split; congruence. Qed.

Lemma io_only_then_extends {A : Type} (m : M A) :
  respects io_only m -> respects extends m.
Proof. apply respects_weaken, io_only_extends. Qed.

Lemma io_only_then_keeps_queue {A : Type} (m : M A) :
  respects io_only m -> respects keeps_queue m.
Proof. apply respects_weaken, io_only_keeps_queue. Qed.

Lemma io_only_then_drained {A : Type} (m : M A) :
  respects io_only m -> respects drained m.
Proof. apply respects_weaken, io_only_drained. Qed.

Lemma quiet_then_extends {A :
  Type} (m : M A) : respects same_connection m -> respects extends m.
Proof. apply respects_weaken, same_connection_extends. Qed.

Lemma quiet_then_keeps_queue {A :
  Type} (m : M A) : respects same_connection m -> respects keeps_queue m.
Proof. apply respects_weaken, same_connection_keeps_queue. Qed.

Lemma quiet_then_drained {A :
  Type} (m : M A) : respects same_connection m -> respects drained m.
Proof. apply respects_weaken, same_connection_drained. Qed.
End Primitives.

Create HintDb respects_db.

#[export] Hint Resolve write_io_only send_response_io_only send_header_io_only
  end_headers_io_only sleep_io_only time_io_only environ_quiet requests_post_quiet
  response_json_quiet json_loads_quiet read_decode_quiet get_extends get_drained
  : respects_db.
#[export] Hint Resolve io_only_then_extends io_only_then_keeps_queue io_only_then_drained
  quiet_then_extends quiet_then_keeps_queue quiet_then_drained : respects_db.

Create HintDb total_db.
#[export] Hint Resolve total_ret total_lift : total_db.

(** Decompose a handler along its binds, handlers, loops and branches. *)
Ltac order_found := first [ typeclasses eauto | assumption ].

Ltac respects_step :=
  match goal with
  | |- respects _ (bind _ _) => apply respects_bind; [ order_found | | intro ]
  | |- respects _ (try_except _ _ _) => apply respects_try; [ order_found | | intro ]
  | |- respects _ (for_range _ _) => apply respects_for_range; [ order_found | ]
  | |- respects _ (while_true _ _) => apply respects_while_true; [ order_found | ]
  | |- respects _ (ret _) => apply respects_ret; order_found
  | |- respects _ (raise _) => apply respects_raise; order_found
  | |- respects _ (lift _) => apply respects_lift; order_found
  | |- respects _ (if ?b then _ else _) => destruct b
  | |- respects _ (match ?x with _ => _ end) => destruct x
  | |- respects _ _ => solve [ auto with respects_db ]
  end.

Ltac yields_step :=
  match goal with
  | |- yields _ (ret _) => apply yields_ret; reflexivity
  | |- yields _ (bind _ _) => apply yields_then; intro
  | |- yields _ (try_except _ _ _) => apply yields_try; [ | intro ]
  | |- yields _ (if ?b then _ else _) => destruct b
  end.

Ltac total_step :=
  match goal with
  | |- total (bind _ _) => apply total_bind; [ | intro ]
  | |- total (try_except _ any_exception _) => apply total_try_any; intro
  | |- total (if ?b then _ else _) => destruct b
  | |- total _ => solve [ auto with total_db ]
  end.

(** ** The handlers touch neither the queue nor the connection *)

Section Frames.
Context {R : Runtime}.

Lemma mcp_handle_query_quiet (data :
  json) : respects same_connection (mcp_server.handle_query data).
Proof. unfold mcp_server.handle_query, os_environ_get. repeat respects_step. Qed.

Lemma mcp_handle_embedding_quiet (data :
  json) : respects same_connection (mcp_server.handle_embedding data).
Proof. unfold mcp_server.handle_embedding, os_environ_get. repeat respects_step. Qed.

Lemma mcp_handle_capabilities_respects (rel : world -> world -> Prop) :
  PreOrder rel -> respects rel mcp_server.handle_capabilities.
Proof.
  intro Hrel. unfold mcp_server.handle_capabilities, os_environ_get.
  repeat respects_step.
Qed.

Lemma mcp_response_quiet (content_length : Z) (body : post_body) :
  respects same_connection (mcp_server.do_POST_response content_length body).
Proof.
  unfold mcp_server.do_POST_response, mcp_server.handle_get_tools,
    mcp_server.default_response.
  repeat respects_step;
    auto using mcp_handle_query_quiet, mcp_handle_embedding_quiet,
      mcp_handle_capabilities_respects, same_connection_preorder.
Qed.

Lemma simple_handle_query_quiet (data : json) :
  respects same_connection (simple_mcp_server.handle_query data).
Proof. unfold simple_mcp_server.handle_query. repeat respects_step. Qed.

Lemma simple_response_quiet (content_length : Z) (body : post_body) :
  respects same_connection (simple_mcp_server.do_POST_response content_length body).
Proof.
  unfold simple_mcp_server.do_POST_response.
  repeat respects_step; auto using simple_handle_query_quiet.
Qed.

Lemma sse_handle_query_quiet (data :
  json) : respects same_connection (sse_server.handle_query data).
Proof. unfold sse_server.handle_query. repeat respects_step. Qed.

Lemma sse_response_quiet (request_data : json) :
  respects same_connection (sse_server.do_POST_response request_data).
Proof.
  unfold sse_server.do_POST_response.
  repeat respects_step; auto using sse_handle_query_quiet.
Qed.
End Frames.
(** ** Shape of the results *)

Section Shapes.
Context {R : Runtime}.

Lemma mcp_handle_query_shape (data : json) :
  yields well_formed (mcp_server.handle_query data).
Proof.
  unfold mcp_server.handle_query.
  apply yields_try; [ | intro e; apply yields_ret; reflexivity ].
  apply yields_then; intro d. apply yields_then; intro query_text.
  destruct (negb (truthy query_text)); [ apply yields_ret; reflexivity | ].
  apply yields_then; intro llm_binding.
  apply yields_then; intro llm_host.
  apply yields_then; intro llm_model.
  apply (yields_bind (fun o => match o with Some r => well_formed r | None => True end)).
  - destruct (String.eqb llm_binding "ollama"); [ | apply yields_ret; exact I ].
    apply yields_then; intro response.
    destruct (status_code response =? 200)%Z; [ | apply yields_ret; exact I ].
    apply yields_then; intro llm_response. apply yields_then; intro text.
    apply yields_ret. reflexivity.
  - intros [r | ] Hr; apply yields_ret; [ exact Hr | reflexivity ].
Qed.

Lemma mcp_handle_embedding_shape (data : json) :
  yields well_formed (mcp_server.handle_embedding data).
Proof.
  unfold mcp_server.handle_embedding.
  apply yields_try; [ | intro e; apply yields_ret; reflexivity ].
  apply yields_then; intro d. apply yields_then; intro text.
  destruct (negb (truthy text)); [ apply yields_ret; reflexivity | ].
  apply yields_then; intro embedding_binding.
  apply yields_then; intro embedding_host.
  apply yields_then; intro embedding_model.
  apply (yields_bind (fun o => match o with Some r => well_formed r | None => True end)).
  - destruct (String.eqb embedding_binding "ollama"); [ | apply yields_ret; exact I ].
    apply yields_then; intro response.
    destruct (status_code response =? 200)%Z; [ | apply yields_ret; exact I ].
    apply yields_then; intro embedding_response.
    apply yields_then; intro embedding. apply yields_then; intro dimensions.
    apply yields_ret. reflexivity.
  - intros [r | ] Hr; apply yields_ret; [ exact Hr | reflexivity ].
Qed.

Lemma mcp_response_shape (content_length : Z) (body : post_body) :
  yields well_formed (mcp_server.do_POST_response content_length body).
Proof.
  unfold mcp_server.do_POST_response, mcp_server.handle_capabilities,
    mcp_server.handle_get_tools, mcp_server.default_response.
  repeat yields_step;
    auto using mcp_handle_query_shape, mcp_handle_embedding_shape.
Qed.

Lemma simple_handle_query_shape (data : json) :
  yields well_formed (simple_mcp_server.handle_query data).
Proof. unfold simple_mcp_server.handle_query. repeat yields_step. Qed.

Lemma simple_response_shape (content_length : Z) (body : post_body) :
  yields well_formed (simple_mcp_server.do_POST_response content_length body).
Proof.
  unfold simple_mcp_server.do_POST_response.
  repeat yields_step; auto using simple_handle_query_shape.
Qed.

Lemma sse_handle_query_shape (data : json) :
  yields well_formed (sse_server.handle_query data).
Proof. unfold sse_server.handle_query. repeat yields_step. Qed.

Lemma sse_response_shape (request_data : json) :
  yields well_formed (sse_server.do_POST_response request_data).
Proof.
  unfold sse_server.do_POST_response.
  repeat yields_step; auto using sse_handle_query_shape.
Qed.

Lemma mcp_handle_query_total (data : json) : total (mcp_server.handle_query data).
Proof. unfold mcp_server.handle_query. repeat total_step. Qed.

Lemma mcp_handle_embedding_total (data : json) :
  total (mcp_server.handle_embedding data).
Proof. unfold mcp_server.handle_embedding. repeat total_step. Qed.

Lemma mcp_response_total_on_objects (content_length : Z) (d : dict) :
  total (mcp_server.do_POST_response content_length (Parsed (JDict d))).
Proof.
  unfold mcp_server.do_POST_response, mcp_server.handle_capabilities,
    mcp_server.handle_get_tools, mcp_server.default_response, os_environ_get.
  destruct (content_length >? 0)%Z; [ | apply total_ret ].
  cbn [rfile_read_decode]. apply total_after_ret.
  apply total_try. cbn [json_loads].
  apply total_after_ret. cbn [py_in]. apply total_after_lift.
  destruct (is_some (dict_get "action" d)); [ | apply total_ret ].
  cbn [py_get]. apply total_after_lift.
  repeat total_step;
    auto using mcp_handle_query_total, mcp_handle_embedding_total.
Qed.

Lemma mcp_response_on_malformed (p : positive) (post_data : string) (w : world) :
  mcp_server.do_POST_response (Z.pos p) (Unparseable post_data) w
  = (w, Ok invalid_json_result).
Proof. reflexivity. Qed.

Lemma simple_response_on_malformed (p : positive) (post_data : string) (w : world) :
  simple_mcp_server.do_POST_response (Z.pos p) (Unparseable post_data) w
  = (w, Ok invalid_json_result).
Proof. reflexivity. Qed.

(** C9.  Whatever [do_POST] binds to [response] — in [mcp_server.py],
    [simple_mcp_server.py] and [sse_server.py], on every branch: the
    action handlers, the acknowledgment of an unknown or absent action,
    the empty body, the body that is not JSON — is a mapping with a
    [status] that is ["ok"] or ["error"] and a [message] that is a
    string.  In [mcp_server.py] every body that is a JSON object, every
    body that [json.loads] rejects with [JSONDecodeError] and every
    empty body does get such a result. *)
Theorem every_dispatch_result_is_well_formed :
  (forall content_length body w,
      on_result well_formed (eval (mcp_server.do_POST_response content_length body) w)) /\
  (forall content_length body w,
      on_result well_formed
        (eval (simple_mcp_server.do_POST_response content_length body) w)) /\
  (forall request_data w,
      on_result well_formed (eval (sse_server.do_POST_response request_data) w)) /\
  (forall content_length d w,
      exists r,
        eval (mcp_server.do_POST_response content_length (Parsed (JDict d))) w = Ok r /\
        well_formed r) /\
  (forall content_length post_data w,
      exists r,
        eval (mcp_server.do_POST_response content_length (Unparseable post_data)) w = Ok r /\
        well_formed r).
Proof.
  split; [ | split; [ | split; [ | split ] ] ].
  - intros. apply mcp_response_shape.
  - intros. apply simple_response_shape.
  - intros. apply sse_response_shape.
  - intros content_length d.
    apply returns_and_yields;
      [ apply mcp_response_total_on_objects | apply mcp_response_shape ].
  - intros content_length post_data w.
    destruct content_length as [ | p | p ]; eexists; split; reflexivity.
Qed.
End Shapes.

(** ** Publication of results *)

Section Publication.
Context {R : Runtime}.

Lemma accepts_two (w : world) :
  accepts 2 w = true -> peer w = None \/ exists n, peer w = Some (S (S n)).
Proof.
  unfold accepts. destruct (peer w) as [ [ | [ | n ] ] | ]; cbn; intros H;
    try discriminate; eauto.
Qed.

Lemma reply_and_publish_run (r : json) (w : world) :
  match reply_and_publish r w with
  | (w', Ok _) =>
      wire w' = wire w ++ [json_head; Body r] /\
      event_queue w' = event_queue w ++ [r] /\
      outbound w' = outbound w /\
      accepts 2 w = true
  | (w', Raise _) => event_queue w' = event_queue w /\ accepts 2 w = false
  end.
Proof.
  unfold reply_and_publish, accepts, bind, send_response, send_header, end_headers,
    wfile_write, event_queue_put.
  cbn.
  destruct (peer w) as [ [ | [ | n ] ] | ] eqn:E; cbn; rewrite ?E; cbn;
    rewrite <- ?app_assoc; repeat split.
Qed.

Lemma respond_then_publish (m : M json) (w : world) :
  respects same_connection m ->
  match bind m reply_and_publish w with
  | (w', Ok _) =>
      exists r,
        eval m w = Ok r /\
        wire w' = wire w ++ [json_head; Body r] /\
        published_one r w w'
  | (w', Raise _) =>
      nothing_published w w' /\
      (accepts 2 w = false \/ exists e, eval m w = Raise e)
  end.
Proof.
  intro Hq. specialize (Hq w). unfold bind, eval, exec in *.
  destruct (m w) as [w1 [r | e]]; cbn [fst snd] in *; cbv beta iota.
  - destruct Hq as (Hqueue & Hwire & Hpeer & _).
    pose proof (reply_and_publish_run r w1) as Hrun.
    unfold accepts, published_one, nothing_published in *.
    rewrite Hpeer, Hqueue, Hwire in Hrun.
    destruct (reply_and_publish r w1) as [w' [ [] | e ]].
    + exists r. tauto.
    + tauto.
  - split; [ apply Hq | eauto ].
Qed.

(** C2, as the code has it.  In [mcp_server.py] and
    [simple_mcp_server.py] a POST that runs to its end puts exactly one
    event on the queue, the response it has just written, whatever the
    branch (any action, no action, an empty body, a body that is not
    JSON); a POST that raises before that puts nothing.  In
    [mcp_server.py] a POST whose body is a JSON object always runs to its
    end while the peer stays connected.  [sse_server.py] has no queue:
    its POST publishes nothing. *)
Theorem post_publishes_its_response_last :
  (forall content_length body w,
      match mcp_server.do_POST content_length body w with
      | (w', Ok _) =>
          exists r,
            eval (mcp_server.do_POST_response content_length body) w = Ok r /\
            wire w' = wire w ++ [json_head; Body r] /\
            published_one r w w'
      | (w', Raise _) => nothing_published w w'
      end) /\
  (forall content_length body w,
      match simple_mcp_server.do_POST content_length body w with
      | (w', Ok _) =>
          exists r,
            eval (simple_mcp_server.do_POST_response content_length body) w = Ok r /\
            wire w' = wire w ++ [json_head; Body r] /\
            published_one r w w'
      | (w', Raise _) => nothing_published w w'
      end) /\
  (forall content_length d q calls,
      eval (mcp_server.do_POST content_length (Parsed (JDict d))) (connect q calls None)
      = Ok tt) /\
  (forall content_length body w,
      nothing_published w (exec (sse_server.do_POST content_length body) w)).
Proof.
  split; [ | split; [ | split ] ].
  - intros content_length body w.
    pose proof (respond_then_publish _ w (mcp_response_quiet content_length body)) as H.
    change (bind (mcp_server.do_POST_response content_length body) reply_and_publish)
      with (mcp_server.do_POST content_length body) in H.
    destruct (mcp_server.do_POST content_length body w) as [w' [ [] | e ]]; tauto.
  - intros content_length body w.
    pose proof (respond_then_publish _ w (simple_response_quiet content_length body)) as H.
    change (bind (simple_mcp_server.do_POST_response content_length body) reply_and_publish)
      with (simple_mcp_server.do_POST content_length body) in H.
    destruct (simple_mcp_server.do_POST content_length body w) as [w' [ [] | e ]]; tauto.
  - intros content_length d q calls.
    set (w := connect q calls None).
    pose proof (respond_then_publish _ w (mcp_response_quiet content_length (Parsed (JDict d))))
      as H.
    change (bind (mcp_server.do_POST_response content_length (Parsed (JDict d)))
              reply_and_publish)
      with (mcp_server.do_POST content_length (Parsed (JDict d))) in H.
    unfold eval at 1.
    destruct (mcp_server.do_POST content_length (Parsed (JDict d)) w) as [w' [ [] | e ]];
      [ reflexivity | ].
    destruct H as [_ [H | [e' H]]]; [ subst w; cbn in H; discriminate H | ].
    destruct (mcp_response_total_on_objects content_length d w) as [r Hr].
    congruence.
  - intros content_length body. unfold nothing_published.
    change (respects keeps_queue (sse_server.do_POST content_length body)).
    unfold sse_server.do_POST, send_error.
    repeat respects_step; auto using quiet_then_keeps_queue, sse_response_quiet.
Qed.

(** C3, as the code has it.  A POST with a non-empty body, on a
    connection that takes the two writes of the answer.  When the body
    decodes as UTF-8 and [json.loads] rejects it with
    [JSONDecodeError], [mcp_server.py] and [simple_mcp_server.py]
    answer 200 with the body [{status: error, message: Invalid JSON
    data}] and put that body on the queue as one event; [sse_server.py]
    answers with the error page 400 [Invalid JSON data] and publishes
    nothing.  A body that is not UTF-8 fails at [.decode], before the
    [try], and a body on which [json.loads] raises anything else is
    not caught by [except json.JSONDecodeError]: in both cases, and in
    the three servers, [do_POST] ends with that exception, nothing
    written and nothing published. *)
Theorem malformed_json_is_answered_and_published
    (p : positive) (post_data : string) (w : world) :
  accepts 2 w = true ->
  (let w' := exec (mcp_server.do_POST (Z.pos p) (Unparseable post_data)) w in
   wire w' = wire w ++ [json_head; Body invalid_json_result] /\
   published_one invalid_json_result w w') /\
  (let w' := exec (simple_mcp_server.do_POST (Z.pos p) (Unparseable post_data)) w in
   wire w' = wire w ++ [json_head; Body invalid_json_result] /\
   published_one invalid_json_result w w') /\
  (let w' := exec (sse_server.do_POST (Z.pos p) (Unparseable post_data)) w in
   wire w' = wire w ++ [error_head; ErrorPage 400 "Invalid JSON data"] /\
   nothing_published w w') /\
  (forall msg,
      mcp_server.do_POST (Z.pos p) (Undecodable msg) w
      = (w, Raise (UnicodeDecodeError msg)) /\
      simple_mcp_server.do_POST (Z.pos p) (Undecodable msg) w
      = (w, Raise (UnicodeDecodeError msg)) /\
      sse_server.do_POST (Z.pos p) (Undecodable msg) w
      = (w, Raise (UnicodeDecodeError msg))) /\
  (forall e,
      is_json_decode_error e = false ->
      mcp_server.do_POST (Z.pos p) (Unloadable post_data e) w = (w, Raise e) /\
      simple_mcp_server.do_POST (Z.pos p) (Unloadable post_data e) w = (w, Raise e) /\
      sse_server.do_POST (Z.pos p) (Unloadable post_data e) w = (w, Raise e)).
Proof.
  intro Hpeer.
  split; [ | split; [ | split; [ | split ] ] ].
  4: { intro msg. repeat split. }
  4: { intros e He.
       unfold mcp_server.do_POST, simple_mcp_server.do_POST, sse_server.do_POST,
         mcp_server.do_POST_response, simple_mcp_server.do_POST_response, try_except,
         bind, json_loads, rfile_read_decode, raise, ret.
       cbn [Z.gtb Z.compare]. rewrite He. repeat split. }
  all: unfold published_one, nothing_published, exec, mcp_server.do_POST,
         simple_mcp_server.do_POST, sse_server.do_POST, send_error, bind, try_except,
         send_response, send_header, end_headers, wfile_write, event_queue_put;
       cbn;
       destruct (accepts_two w Hpeer) as [E | [n E]]; rewrite E; cbn; rewrite ?E; cbn;
       rewrite <- ?app_assoc; repeat split.
Qed.
End Publication.

(** ** Queries *)

Section Queries.
Context {R : Runtime}.

Lemma empty_query_text (d : dict) :
  empty_query d = true ->
  dict_get "data" d = None \/
  exists dd,
    dict_get "data" d = Some (JDict dd) /\
    (dict_get "query" dd = None \/ dict_get "query" dd = Some (JStr "")).
Proof.
  unfold empty_query.
  destruct (dict_get "data" d) as [ [ | | | | | | dd ] | ]; try discriminate; auto.
  intro H. right. exists dd. split; [ reflexivity | ].
  destruct (dict_get "query" dd) as [ [ | | | | s | | ] | ]; try discriminate; auto.
  apply String.eqb_eq in H. subst s. auto.
Qed.

Lemma mcp_refuses_empty_query (d : dict) (w : world) :
  empty_query d = true ->
  mcp_server.handle_query (JDict d) w = (w, Ok no_query_result).
Proof.
  intro H. unfold mcp_server.handle_query, try_except, bind, lift.
  cbn [py_get].
  destruct (empty_query_text d H) as [E | (dd & E & [E' | E'])];
    rewrite E; cbn [py_get]; rewrite ?E'; reflexivity.
Qed.

Lemma simple_refuses_empty_query (d : dict) (w : world) :
  empty_query d = true ->
  simple_mcp_server.handle_query (JDict d) w = (w, Ok no_query_result).
Proof.
  intro H. unfold simple_mcp_server.handle_query, bind, lift.
  cbn [py_get].
  destruct (empty_query_text d H) as [E | (dd & E & [E' | E'])];
    rewrite E; cbn [py_get]; rewrite ?E'; reflexivity.
Qed.

Lemma sse_refuses_empty_query (d : dict) (w : world) :
  empty_query d = true ->
  sse_server.handle_query (JDict d) w = (w, Ok no_query_result_bare).
Proof.
  intro H. unfold sse_server.handle_query, bind, lift.
  cbn [py_get].
  destruct (empty_query_text d H) as [E | (dd & E & [E' | E'])];
    rewrite E; cbn [py_get]; rewrite ?E'; reflexivity.
Qed.

(** With [action: query], [do_POST] hands the request to [handle_query]. *)
Lemma mcp_dispatches_query (p : positive) (d : dict) (w : world) :
  dict_get "action" d = Some (JStr "query") ->
  mcp_server.do_POST_response (Z.pos p) (Parsed (JDict d)) w
  = mcp_server.handle_query (JDict d) w.
Proof.
  intro Haction.
  destruct (mcp_handle_query_total (JDict d) w) as [r Hr].
  unfold mcp_server.do_POST_response, try_except, bind, lift, json_loads,
    rfile_read_decode, ret, eval in *.
  cbn [Z.gtb Z.compare py_in py_get]. rewrite Haction. cbn [is_some py_eq_str].
  change (String.eqb "query" "query") with true. cbv beta iota.
  destruct (mcp_server.handle_query (JDict d) w) as [w1 [r1 | e]];
    [ reflexivity | discriminate ].
Qed.

Lemma simple_dispatches_query (p : positive) (d : dict) (w w1 : world) (r : json) :
  dict_get "action" d = Some (JStr "query") ->
  simple_mcp_server.handle_query (JDict d) w = (w1, Ok r) ->
  simple_mcp_server.do_POST_response (Z.pos p) (Parsed (JDict d)) w = (w1, Ok r).
Proof.
  intros Haction Hrun.
  unfold simple_mcp_server.do_POST_response, try_except, bind, lift, json_loads,
    rfile_read_decode, ret.
  cbn [Z.gtb Z.compare py_in py_get]. rewrite Haction. cbn [is_some py_eq_str].
  change (String.eqb "query" "query") with true. cbv beta iota.
  rewrite Hrun. reflexivity.
Qed.

Lemma sse_dispatches_query (d : dict) (w w1 : world) (r : json) :
  dict_get "action" d = Some (JStr "query") ->
  sse_server.handle_query (JDict d) w = (w1, Ok r) ->
  sse_server.do_POST_response (JDict d) w = (w1, Ok r).
Proof.
  intros Haction Hrun.
  unfold sse_server.do_POST_response, bind, lift, ret.
  cbn [py_in py_getitem]. rewrite Haction. cbn [is_some py_eq_str].
  change (String.eqb "query" "query") with true. cbv beta iota.
  exact Hrun.
Qed.

(** C4, as the code has it.  A [query] request whose [data.query] is
    empty or missing is refused with [status: error] before anything
    else is done: the world comes back as it was, so no call went to the
    backend.  [mcp_server.py] and [simple_mcp_server.py] return
    [data: null]; [sse_server.py] returns a result with no [data] key. *)
Theorem empty_query_is_refused_without_backend (p : positive) (d : dict) (w : world) :
  dict_get "action" d = Some (JStr "query") ->
  empty_query d = true ->
  mcp_server.do_POST_response (Z.pos p) (Parsed (JDict d)) w = (w, Ok no_query_result) /\
  simple_mcp_server.do_POST_response (Z.pos p) (Parsed (JDict d)) w
  = (w, Ok no_query_result) /\
  sse_server.do_POST_response (JDict d) w = (w, Ok no_query_result_bare) /\
  error_with_null_data no_query_result /\
  (exists bare,
      no_query_result_bare = JDict bare /\
      dict_get "status" bare = Some (JStr "error") /\
      dict_get "data" bare = None).
Proof.
  intros Haction Hempty.
  split; [ | split; [ | split; [ | split ] ] ].
  - rewrite (mcp_dispatches_query p d w Haction). apply mcp_refuses_empty_query, Hempty.
  - apply simple_dispatches_query; [ exact Haction | ].
    apply simple_refuses_empty_query, Hempty.
  - apply sse_dispatches_query; [ exact Haction | ].
    apply sse_refuses_empty_query, Hempty.
  - eexists. repeat split.
  - eexists. repeat split.
Qed.

(** C10.  A request with no [data] key at all gets from [handle_query]
    the very result an empty [data.query] gets, in [mcp_server.py],
    [simple_mcp_server.py] and [sse_server.py]: the refusal is returned,
    nothing is raised. *)
Theorem absent_data_is_an_empty_query (d : dict) (w : world) :
  dict_get "data" d = None ->
  let with_empty_query := JDict (("data", JDict [("query", JStr "")]) :: d) in
  (mcp_server.handle_query (JDict d) w = (w, Ok no_query_result) /\
   mcp_server.handle_query with_empty_query w = (w, Ok no_query_result)) /\
  (simple_mcp_server.handle_query (JDict d) w = (w, Ok no_query_result) /\
   simple_mcp_server.handle_query with_empty_query w = (w, Ok no_query_result)) /\
  (sse_server.handle_query (JDict d) w = (w, Ok no_query_result_bare) /\
   sse_server.handle_query with_empty_query w = (w, Ok no_query_result_bare)).
Proof.
  intros Habsent with_empty_query.
  assert (H1 : empty_query d = true) by (unfold empty_query; rewrite Habsent; reflexivity).
  assert (H2 : empty_query (("data", JDict [("query", JStr "")]) :: d) = true)
    by reflexivity.
  repeat split;
    auto using mcp_refuses_empty_query, simple_refuses_empty_query,
      sse_refuses_empty_query.
Qed.
End Queries.

(** ** Failure of the backend *)

Section BackendFailure.
Context {R : Runtime}.

Lemma prefix_of_append (s t : string) : String.prefix s (s ++ t)%string = true.
Proof.
  induction s as [ | c s IH ]; cbn.
  - destruct t; reflexivity.
  - destruct (ascii_dec c c) as [ _ | Hne ]; [ exact IH | contradiction ].
Qed.

Lemma contains_at_front (s t : string) : contains s (s ++ t)%string = true.
Proof.
  destruct (s ++ t)%string eqn:E; cbn [contains]; rewrite <- E, prefix_of_append; reflexivity.
Qed.

Lemma contains_after (needle pre hay : string) :
  contains needle hay = true -> contains needle (pre ++ hay)%string = true.
Proof.
  intro H. induction pre as [ | c pre IH ]; cbn [String.append contains].
  - exact H.
  - rewrite IH. apply orb_true_r.
Qed.

Lemma fallback_names_the_query (q : string) :
  degraded_about q (mcp_server.query_fallback (JStr q)).
Proof.
  unfold degraded_about, mcp_server.query_fallback.
  do 3 eexists. split; [ reflexivity | ].
  repeat split.
  cbn [fmt]. apply contains_after, contains_at_front.
Qed.

(** The run of [handle_query] on a query that is not empty. *)
Lemma mcp_generation_run (d dd : dict) (v : json) (w : world) :
  dict_get "data" d = Some (JDict dd) ->
  dict_get "query" dd = Some v ->
  truthy v = true ->
  mcp_server.handle_query (JDict d) w
  = if String.eqb (environ_or "LLM_BINDING" "ollama") "ollama" then
      (called (generate_call v) w,
       Ok match answer_of (generate_call v) with
          | Failed msg => query_error msg
          | Responded resp =>
              if (status_code resp =? 200)%Z then
                match response_json resp with
                | Raise e => query_error (exn_str e)
                | Ok (JDict b) => query_processed (response_of b)
                | Ok body => query_error (no_get body)
                end
              else mcp_server.query_fallback v
          end)
    else (w, Ok (mcp_server.query_fallback v)).
Proof.
  intros Hdata Hquery Ht.
  unfold environ_or, answer_of, generate_call, prompt_about, called,
    mcp_server.handle_query, try_except, bind, lift, os_environ_get, ret.
  cbn [py_get]. rewrite Hdata. cbn [py_get]. rewrite Hquery, Ht. cbn [negb].
  destruct (String.eqb _ "ollama"); [ | reflexivity ].
  unfold requests_post, environ_or. cbn [call_endpoint call_payload call_timeout].
  destruct (backend _ _ _) as [resp | msg]; [ | reflexivity ].
  destruct (status_code resp =? 200)%Z; [ | reflexivity ].
  unfold response_json_call, lift.
  destruct (response_json resp) as [ body | e ]; [ | reflexivity ].
  destruct body; reflexivity.
Qed.

(** The answer of [do_POST] once the handler has returned [r]. *)
Lemma mcp_post_answers (content_length : Z) (body : post_body) (w w1 : world) (r : json) :
  mcp_server.do_POST_response content_length body w = (w1, Ok r) ->
  accepts 2 w = true ->
  let w' := exec (mcp_server.do_POST content_length body) w in
  wire w' = wire w ++ [json_head; Body r] /\
  outbound w' = outbound w1 /\
  published_one r w w'.
Proof.
  intros Hrun Hpeer.
  pose proof (mcp_response_quiet content_length body w) as Hq.
  unfold exec in Hq. rewrite Hrun in Hq. cbn [fst] in Hq.
  destruct Hq as (Hqueue & Hwire & Hpeer1 & _).
  pose proof (reply_and_publish_run r w1) as Hreply.
  change (mcp_server.do_POST content_length body)
    with (bind (mcp_server.do_POST_response content_length body) reply_and_publish).
  unfold exec, bind, published_one. rewrite Hrun.
  unfold accepts in *. rewrite Hpeer1, Hpeer, Hqueue, Hwire in Hreply.
  destruct (reply_and_publish r w1) as [w' [ [] | e ]]; cbn [fst].
  - tauto.
  - destruct Hreply as [_ Hfalse]. discriminate Hfalse.
Qed.

(** On a connection that takes the answer, [do_POST] returns once the
    handler has returned. *)
Lemma mcp_post_completes (content_length : Z) (body : post_body) (w w1 : world) (r : json) :
  mcp_server.do_POST_response content_length body w = (w1, Ok r) ->
  accepts 2 w = true ->
  eval (mcp_server.do_POST content_length body) w = Ok tt.
Proof.
  intros Hrun Hpeer.
  pose proof (mcp_response_quiet content_length body w) as Hq.
  unfold exec in Hq. rewrite Hrun in Hq. cbn [fst] in Hq.
  destruct Hq as (_ & _ & Hpeer1 & _).
  pose proof (reply_and_publish_run r w1) as Hreply.
  change (mcp_server.do_POST content_length body)
    with (bind (mcp_server.do_POST_response content_length body) reply_and_publish).
  unfold eval, bind. rewrite Hrun.
  unfold accepts in *. rewrite Hpeer1, Hpeer in Hreply.
  destruct (reply_and_publish r w1) as [w' [ [] | e ]]; cbn [snd].
  - reflexivity.
  - destruct Hreply as [_ Hfalse]. discriminate Hfalse.
Qed.

(** C7, as the code has it.  A [query] whose [data.query] is a
    non-empty string, on a connection that takes the answer.  Whatever
    the backend does, the transaction completes: [do_POST] returns,
    having written a 200 with a JSON body that has a [status] and a
    [message], and having published that body.  With the binding
    [ollama] exactly one call was made, the generation call for this
    query, and the body is decided by its outcome.  If the call itself
    fails (no connection, timeout) the body is [status: error] with
    the text of the failure and [data: null].  If the answer has a
    status other than 200 the body is the degraded result:
    [status: error], an apology naming the query, no sources.  If the
    answer is a 200 it is either passed on with [status: ok], or, when
    it cannot be used, reported with its reason and [data: null].
    With another binding no call is made and the body is the degraded
    result. *)
Theorem failed_generation_is_reported_in_band
    (p : positive) (d dd : dict) (q : string) (w : world) :
  dict_get "action" d = Some (JStr "query") ->
  dict_get "data" d = Some (JDict dd) ->
  dict_get "query" dd = Some (JStr q) ->
  q <> "" ->
  accepts 2 w = true ->
  let w' := exec (mcp_server.do_POST (Z.pos p) (Parsed (JDict d))) w in
  let c := generate_call (JStr q) in
  exists r,
    eval (mcp_server.do_POST (Z.pos p) (Parsed (JDict d))) w = Ok tt /\
    wire w' = wire w ++ [json_head; Body r] /\
    published_one r w w' /\
    well_formed r /\
    if String.eqb llm_binding "ollama" then
      outbound w' = outbound w ++ [c] /\
      match answer_of c with
      | Failed msg => r = query_error msg
      | Responded resp =>
          if (status_code resp =? 200)%Z then
            match unusable resp with
            | Some msg => r = query_error msg
            | None =>
                exists b,
                  response_json resp = Ok (JDict b) /\
                  r = query_processed (response_of b)
            end
          else r = mcp_server.query_fallback (JStr q) /\ degraded_about q r
      end
    else
      outbound w' = outbound w /\
      r = mcp_server.query_fallback (JStr q) /\
      degraded_about q r.
Proof.
  intros Haction Hdata Hquery Hq Hpeer w' c. subst w' c.
  assert (Ht : truthy (JStr q) = true).
  { cbn. destruct (String.eqb_spec q ""); [ contradiction | reflexivity ]. }
  pose proof (mcp_generation_run d dd (JStr q) w Hdata Hquery Ht) as Hrun.
  rewrite <- (mcp_dispatches_query p d w Haction) in Hrun.
  pose proof (mcp_response_shape (Z.pos p) (Parsed (JDict d)) w) as Hshape.
  unfold eval in Hshape. rewrite Hrun in Hshape.
  change (environ_or "LLM_BINDING" "ollama") with llm_binding in *.
  destruct (String.eqb llm_binding "ollama").
  - cbn [snd on_result] in Hshape.
    match type of Hrun with
    | _ = (_, Ok ?r0) => exists r0
    end.
    destruct (mcp_post_answers _ _ _ _ _ Hrun Hpeer) as (Hwire & Hout & Hpub).
    split; [ exact (mcp_post_completes _ _ _ _ _ Hrun Hpeer) | ].
    split; [ exact Hwire | split; [ exact Hpub | split; [ exact Hshape | ] ] ].
    split; [ exact Hout | ].
    destruct (answer_of (generate_call (JStr q))) as [resp | msg]; [ | reflexivity ].
    destruct (status_code resp =? 200)%Z;
      [ | split; [ reflexivity | apply fallback_names_the_query ] ].
    unfold unusable.
    destruct (response_json resp) as [ body | e ]; [ | reflexivity ].
    destruct body; try reflexivity.
    eexists. split; reflexivity.
  - cbn [snd on_result] in Hshape.
    exists (mcp_server.query_fallback (JStr q)).
    destruct (mcp_post_answers _ _ _ _ _ Hrun Hpeer) as (Hwire & Hout & Hpub).
    split; [ exact (mcp_post_completes _ _ _ _ _ Hrun Hpeer) | ].
    split; [ exact Hwire | split; [ exact Hpub | split; [ exact Hshape | ] ] ].
    split; [ exact Hout | split; [ reflexivity | apply fallback_names_the_query ] ].
Qed.
End BackendFailure.

(** ** GET: health and the opening of a stream *)

Section Opening.
Context {R : Runtime}.

Lemma accepts_one (w : world) :
  accepts 1 w = true -> peer w = None \/ exists n, peer w = Some (S n).
Proof.
  unfold accepts. destruct (peer w) as [ [ | n ] | ]; cbn; intros H;
    try discriminate; eauto.
Qed.

Lemma accepts_seven (w : world) :
  accepts 7 w = true -> peer w = None \/ exists n, peer w = Some (7 + n).
Proof.
  unfold accepts. destruct (peer w) as [ n | ]; [ | auto ].
  intro H. apply Nat.leb_le in H. right. exists (n - 7). f_equal. lia.
Qed.

Lemma health_body_answers (message : string) :
  answers_health [json_head; Body (health_body message)].
Proof. eexists. split; reflexivity. Qed.

(** Writing a 200 and a JSON body on a connection that takes both. *)
Lemma json_reply_run (payload : json) (w : world) :
  accepts 2 w = true ->
  let m := (send_response 200 ;;
            send_header "Content-Type" "application/json" ;;
            end_headers ;;
            wfile_write (Body payload)) in
  eval m w = Ok tt /\
  wire (exec m w) = wire w ++ [json_head; Body payload] /\
  nothing_published w (exec m w).
Proof.
  intro Hpeer.
  unfold nothing_published, eval, exec, bind, send_response, send_header, end_headers,
    wfile_write.
  cbn.
  destruct (accepts_two w Hpeer) as [E | [n E]]; rewrite E; cbn; rewrite ?E; cbn;
    rewrite <- ?app_assoc; repeat split.
Qed.

Lemma send_event_extends (event_type : string) (data : json) :
  respects extends (mcp_server.send_sse_event event_type data).
Proof. unfold mcp_server.send_sse_event, wfile_flush. repeat respects_step. Qed.

Lemma mcp_stream_extends (fuel : nat) : respects extends (mcp_server.stream fuel).
Proof.
  unfold mcp_server.stream, mcp_server.cycle, mcp_server.poll_and_sleep,
    mcp_server.send_heartbeat, mcp_server.send_sse_event, wfile_flush.
  repeat respects_step.
Qed.

Lemma simple_stream_is_mcp_stream (fuel : nat) :
  simple_mcp_server.stream fuel = mcp_server.stream fuel.
Proof. reflexivity. Qed.

Lemma sse_loop_extends (fuel : nat) :
  respects extends (while_true fuel (sse_server.send_heartbeat ;; time_sleep 5)).
Proof.
  unfold sse_server.send_heartbeat, sse_server.send_sse_event, wfile_flush.
  repeat respects_step.
Qed.

Lemma simple_sse_loop_extends (fuel : nat) :
  respects extends
    (while_true fuel
       (time_sleep 10 ;;
        now <- time_time ;;
        simple_sse.yield "heartbeat"
          (JDict [("type", JStr "heartbeat"); ("timestamp", now)]))).
Proof. unfold simple_sse.yield. repeat respects_step. Qed.

(** The head of a stream, then whatever follows. *)
Lemma stream_head_then (rest : M unit) (w : world) :
  respects extends rest ->
  accepts 1 w = true ->
  exists extra,
    wire (exec (send_response 200 ;;
                send_header "Content-Type" "text/event-stream" ;;
                send_header "Cache-Control" "no-cache" ;;
                send_header "Connection" "keep-alive" ;;
                end_headers ;;
                rest) w)
    = wire w ++ stream_head :: extra.
Proof.
  intros Hrest Hpeer.
  unfold exec, bind, send_response, send_header, end_headers, wfile_write. cbn.
  destruct (accepts_one w Hpeer) as [E | [n E]]; rewrite E; cbn;
    match goal with
    | |- context [rest ?w1] =>
        destruct (Hrest w1) as [extra Hextra]; exists extra;
        unfold exec in Hextra; rewrite Hextra; cbn; rewrite <- app_assoc; reflexivity
    end.
Qed.

Lemma stream_head_cors_then (rest : M unit) (w : world) :
  respects extends rest ->
  accepts 1 w = true ->
  exists extra,
    wire (exec (send_response 200 ;;
                send_header "Content-Type" "text/event-stream" ;;
                send_header "Cache-Control" "no-cache" ;;
                send_header "Connection" "keep-alive" ;;
                send_header "Access-Control-Allow-Origin" "*" ;;
                end_headers ;;
                rest) w)
    = wire w ++ stream_head_cors :: extra.
Proof.
  intros Hrest Hpeer.
  unfold exec, bind, send_response, send_header, end_headers, wfile_write. cbn.
  destruct (accepts_one w Hpeer) as [E | [n E]]; rewrite E; cbn;
    match goal with
    | |- context [rest ?w1] =>
        destruct (Hrest w1) as [extra Hextra]; exists extra;
        unfold exec in Hextra; rewrite Hextra; cbn; rewrite <- app_assoc; reflexivity
    end.
Qed.

(** C8, as the code has it.  On a connection that takes the answer, a
    GET of [/health] is answered 200 with the JSON body
    [{status: ok, message: ...}], whatever the queue, the calls made
    before and the headers, in [mcp_server.py] and by the [/health] view
    of [simple_sse.py]; in [simple_mcp_server.py] when the [Accept]
    header does not ask for an event stream, and otherwise the stream is
    opened; [sse_server.py] has no health answer, every GET opens a
    stream. *)
Theorem health_is_answered (fuel : nat) (hs : list (string * string)) (w : world) :
  accepts 2 w = true ->
  let req := mkRequest "/health" hs in
  (eval (mcp_server.do_GET fuel req) w = Ok tt /\
   wire (exec (mcp_server.do_GET fuel req) w)
   = wire w ++ [json_head; Body (health_body "LightRAG MCP Server is healthy")] /\
   nothing_published w (exec (mcp_server.do_GET fuel req) w)) /\
  answers_health [json_head; Body (health_body "LightRAG MCP Server is healthy")] /\
  (if wants_stream req then
     exists extra,
       wire (exec (simple_mcp_server.do_GET fuel req) w) = wire w ++ stream_head :: extra
   else
     eval (simple_mcp_server.do_GET fuel req) w = Ok tt /\
     wire (exec (simple_mcp_server.do_GET fuel req) w)
     = wire w ++ [json_head; Body (health_body "LightRAG Simple MCP Server is healthy")]) /\
  (exists extra,
      wire (exec (sse_server.do_GET fuel req) w) = wire w ++ stream_head_cors :: extra) /\
  (eval simple_sse.health_check w = Ok tt /\
   wire (exec simple_sse.health_check w)
   = wire w ++ [json_head; Body (health_body "LightRAG MCP Server is healthy")]).
Proof.
  intros Hpeer req.
  assert (Hone : accepts 1 w = true).
  { destruct (accepts_two w Hpeer) as [E | [n E]]; unfold accepts; rewrite E; reflexivity. }
  split; [ | split; [ | split; [ | split ] ] ].
  - apply (json_reply_run _ w Hpeer).
  - apply health_body_answers.
  - unfold simple_mcp_server.do_GET, wants_stream.
    destruct (contains "text/event-stream" (headers_get "Accept" "" (headers req))).
    + apply stream_head_then; [ | exact Hone ].
      unfold simple_mcp_server.stream, simple_mcp_server.cycle,
        simple_mcp_server.poll_and_sleep, simple_mcp_server.send_heartbeat,
        simple_mcp_server.send_sse_event, wfile_flush.
      repeat respects_step.
    + destruct (json_reply_run (health_body "LightRAG Simple MCP Server is healthy") w Hpeer)
        as (Hok & Hwire & _).
      split; [ exact Hok | exact Hwire ].
  - unfold sse_server.do_GET.
    apply stream_head_cors_then; [ | exact Hone ].
    unfold sse_server.send_heartbeat, sse_server.send_sse_event, wfile_flush.
    repeat respects_step.
  - destruct (json_reply_run (health_body "LightRAG MCP Server is healthy") w Hpeer)
      as (Hok & Hwire & _).
    split; [ exact Hok | exact Hwire ].
Qed.
End Opening.

(** ** The first events of a stream *)

Section Bootstrap.
Context {R : Runtime}.

Lemma mcp_opening_then (rest : M unit) (w : world) :
  respects extends rest ->
  accepts 7 w = true ->
  exists d1 d2 d3 extra,
    wire (exec (send_response 200 ;;
                send_header "Content-Type" "text/event-stream" ;;
                send_header "Cache-Control" "no-cache" ;;
                send_header "Connection" "keep-alive" ;;
                end_headers ;;
                mcp_server.send_sse_event "connected"
                  (JDict
                     [ ("status", JStr "connected");
                       ("message", JStr "LightRAG MCP Server Connected") ]) ;;
                mcp_server.send_sse_event "tools"
                  (JDict [("type", JStr "tools"); ("tools", mcp_server.TOOLS)]) ;;
                capabilities <- mcp_server.handle_capabilities ;;
                mcp_server.send_sse_event "capabilities" capabilities ;;
                rest) w)
    = wire w
      ++ [ stream_head;
           EventLine "connected"; DataLine d1;
           EventLine "tools"; DataLine d2;
           EventLine "capabilities"; DataLine d3 ]
      ++ extra.
Proof.
  intros Hrest Hpeer.
  unfold exec, bind, send_response, send_header, end_headers, mcp_server.send_sse_event,
    mcp_server.handle_capabilities, os_environ_get, ret, wfile_flush, wfile_write.
  cbn.
  destruct (accepts_seven w Hpeer) as [E | [n E]]; rewrite E; cbn;
    match goal with
    | |- context [rest ?w1] =>
        destruct (Hrest w1) as [extra Hextra];
        do 3 eexists; exists extra;
        unfold exec in Hextra; rewrite Hextra; cbn; rewrite <- !app_assoc; reflexivity
    end.
Qed.

Lemma simple_opening_then (rest : M unit) (w : world) :
  respects extends rest ->
  accepts 7 w = true ->
  exists d1 d2 d3 extra,
    wire (exec (send_response 200 ;;
                send_header "Content-Type" "text/event-stream" ;;
                send_header "Cache-Control" "no-cache" ;;
                send_header "Connection" "keep-alive" ;;
                end_headers ;;
                simple_mcp_server.send_sse_event "connected"
                  (JDict
                     [ ("status", JStr "connected");
                       ("message", JStr "LightRAG MCP Server Connected") ]) ;;
                simple_mcp_server.send_sse_event "tools"
                  (JDict [("type", JStr "tools"); ("tools", simple_mcp_server.TOOLS)]) ;;
                simple_mcp_server.send_sse_event "capabilities"
                  simple_mcp_server.capabilities ;;
                rest) w)
    = wire w
      ++ [ stream_head;
           EventLine "connected"; DataLine d1;
           EventLine "tools"; DataLine d2;
           EventLine "capabilities"; DataLine d3 ]
      ++ extra.
Proof.
  intros Hrest Hpeer.
  unfold exec, bind, send_response, send_header, end_headers,
    simple_mcp_server.send_sse_event, ret, wfile_flush, wfile_write.
  cbn.
  destruct (accepts_seven w Hpeer) as [E | [n E]]; rewrite E; cbn;
    match goal with
    | |- context [rest ?w1] =>
        destruct (Hrest w1) as [extra Hextra];
        do 3 eexists; exists extra;
        unfold exec in Hextra; rewrite Hextra; cbn; rewrite <- !app_assoc; reflexivity
    end.
Qed.

Lemma opened_types (w : world) (d1 d2 d3 : json) (extra : list chunk) :
  wire w
  = [] ++ [ stream_head;
            EventLine "connected"; DataLine d1;
            EventLine "tools"; DataLine d2;
            EventLine "capabilities"; DataLine d3 ] ++ extra ->
  firstn 3 (event_types w) = bootstrap.
Proof. intro H. unfold event_types. rewrite H. reflexivity. Qed.

Lemma mcp_opens (fuel : nat) (req : request) (q : list json) (calls : list call)
    (budget : option nat) :
  wants_stream req = true ->
  path req <> "/health" ->
  accepts 7 (connect q calls budget) = true ->
  firstn 3 (event_types (exec (mcp_server.do_GET fuel req) (connect q calls budget)))
  = bootstrap.
Proof.
  intros Hwants Hpath Hpeer.
  unfold mcp_server.do_GET. apply String.eqb_neq in Hpath. rewrite Hpath.
  unfold wants_stream in Hwants. rewrite Hwants.
  destruct (mcp_opening_then (mcp_server.stream fuel) _ (mcp_stream_extends fuel) Hpeer)
    as (d1 & d2 & d3 & extra & H).
  exact (opened_types _ _ _ _ _ H).
Qed.

Lemma simple_opens (fuel : nat) (req : request) (q : list json) (calls : list call)
    (budget : option nat) :
  wants_stream req = true ->
  accepts 7 (connect q calls budget) = true ->
  firstn 3 (event_types (exec (simple_mcp_server.do_GET fuel req) (connect q calls budget)))
  = bootstrap.
Proof.
  intros Hwants Hpeer.
  unfold simple_mcp_server.do_GET.
  unfold wants_stream in Hwants. rewrite Hwants.
  rewrite simple_stream_is_mcp_stream.
  destruct (simple_opening_then (mcp_server.stream fuel) _ (mcp_stream_extends fuel) Hpeer)
    as (d1 & d2 & d3 & extra & H).
  exact (opened_types _ _ _ _ _ H).
Qed.

Lemma short_budget (budget : option nat) (q : list json) (calls : list call) :
  accepts 7 (connect q calls budget) = false ->
  exists n, budget = Some n /\ n < 7.
Proof.
  unfold accepts. cbn [peer connect]. destruct budget as [ n | ]; [ | discriminate ].
  intro H. apply Nat.leb_gt in H. eauto.
Qed.

Lemma mcp_opens_as_far_as_written (fuel : nat) (req : request) (q : list json)
    (calls : list call) (budget : option nat) :
  wants_stream req = true ->
  path req <> "/health" ->
  starts_with
    (firstn 3 (event_types (exec (mcp_server.do_GET fuel req) (connect q calls budget))))
    bootstrap = true.
Proof.
  intros Hwants Hpath.
  destruct (accepts 7 (connect q calls budget)) eqn:Hpeer.
  - rewrite (mcp_opens fuel req q calls budget Hwants Hpath Hpeer). reflexivity.
  - destruct (short_budget _ _ _ Hpeer) as (n & -> & Hn).
    unfold mcp_server.do_GET. apply String.eqb_neq in Hpath. rewrite Hpath.
    unfold wants_stream in Hwants. rewrite Hwants.
    do 7 (destruct n as [ | n ]; [ reflexivity | ]).
    lia.
Qed.

Lemma simple_opens_as_far_as_written (fuel : nat) (req : request) (q : list json)
    (calls : list call) (budget : option nat) :
  wants_stream req = true ->
  starts_with
    (firstn 3
       (event_types (exec (simple_mcp_server.do_GET fuel req) (connect q calls budget))))
    bootstrap = true.
Proof.
  intros Hwants.
  destruct (accepts 7 (connect q calls budget)) eqn:Hpeer.
  - rewrite (simple_opens fuel req q calls budget Hwants Hpeer). reflexivity.
  - destruct (short_budget _ _ _ Hpeer) as (n & -> & Hn).
    unfold simple_mcp_server.do_GET.
    unfold wants_stream in Hwants. rewrite Hwants.
    do 7 (destruct n as [ | n ]; [ reflexivity | ]).
    lia.
Qed.
End Bootstrap.

Section OtherOpenings.
Context {R : Runtime}.

Lemma sse_opening_then (rest : M unit) (w : world) :
  respects extends rest ->
  peer w = None ->
  exists d1 d2 d3 extra,
    wire (exec (send_response 200 ;;
                send_header "Content-Type" "text/event-stream" ;;
                send_header "Cache-Control" "no-cache" ;;
                send_header "Connection" "keep-alive" ;;
                send_header "Access-Control-Allow-Origin" "*" ;;
                end_headers ;;
                sse_server.send_sse_event "connected"
                  (JDict
                     [ ("status", JStr "connected");
                       ("message", JStr "LightRAG MCP Server Connected") ]) ;;
                sse_server.send_sse_event "tools" (JDict [("tools", sse_server.TOOLS)]) ;;
                try_except
                  ((sse_server.send_heartbeat ;; time_sleep 5) ;; rest)
                  is_disconnect
                  (fun _ => ret tt)) w)
    = wire w
      ++ [ stream_head_cors;
           EventFrame "connected" d1;
           EventFrame "tools" d2;
           EventFrame "heartbeat" d3 ]
      ++ extra.
Proof.
  intros Hrest Hpeer.
  unfold exec, try_except, bind, send_response, send_header, end_headers,
    sse_server.send_sse_event, sse_server.send_heartbeat, time_time, time_sleep,
    wfile_flush, wfile_write, ret.
  cbn. rewrite Hpeer. cbn.
  match goal with
  | |- context [rest ?w1] =>
      destruct (Hrest w1) as [extra Hextra];
      do 3 eexists; exists extra;
      unfold exec in Hextra;
      destruct (rest w1) as [w2 [ [] | e ]]; [ | destruct (is_disconnect e) ];
      cbn [fst] in *; rewrite Hextra; cbn; rewrite <- !app_assoc; reflexivity
  end.
Qed.

Lemma sse_opens (fuel : nat) (req : request) (q : list json) (calls : list call) :
  firstn 3 (event_types (exec (sse_server.do_GET (S fuel) req) (connect q calls None)))
  = ["connected"; "tools"; "heartbeat"].
Proof.
  unfold sse_server.do_GET. cbn [while_true].
  destruct (sse_opening_then _ (connect q calls None) (sse_loop_extends fuel) eq_refl)
    as (d1 & d2 & d3 & extra & H).
  unfold event_types. rewrite H. reflexivity.
Qed.

Lemma generate_opening_then (rest : M unit) (w : world) :
  respects extends rest ->
  peer w = None ->
  exists d1 d2 d3 extra,
    wire (exec (simple_sse.yield "connected"
                  (JDict
                     [ ("status", JStr "connected");
                       ("message", JStr "LightRAG MCP Server Connected") ]) ;;
                simple_sse.yield "tools" (JDict [("tools", simple_sse.TOOLS)]) ;;
                (time_sleep 10 ;;
                 now <- time_time ;;
                 simple_sse.yield "heartbeat"
                   (JDict [("type", JStr "heartbeat"); ("timestamp", now)])) ;;
                rest) w)
    = wire w
      ++ [ EventFrame "connected" d1; EventFrame "tools" d2; EventFrame "heartbeat" d3 ]
      ++ extra.
Proof.
  intros Hrest Hpeer.
  unfold exec, bind, simple_sse.yield, time_time, time_sleep, wfile_write, ret.
  cbn. rewrite Hpeer. cbn.
  match goal with
  | |- context [rest ?w1] =>
      destruct (Hrest w1) as [extra Hextra];
      do 3 eexists; exists extra;
      unfold exec in Hextra; rewrite Hextra; cbn; rewrite <- !app_assoc; reflexivity
  end.
Qed.

Lemma generate_opens (fuel : nat) (q : list json) (calls : list call) :
  firstn 3 (event_types (exec (simple_sse.generate (S fuel)) (connect q calls None)))
  = ["connected"; "tools"; "heartbeat"].
Proof.
  unfold simple_sse.generate. cbn [while_true].
  destruct (generate_opening_then _ (connect q calls None)
              (simple_sse_loop_extends fuel) eq_refl)
    as (d1 & d2 & d3 & extra & H).
  unfold event_types. rewrite H. reflexivity.
Qed.

(** C5, as the code has it.  In [mcp_server.py] and
    [simple_mcp_server.py] the events of a stream begin with
    [connected], [tools], [capabilities], in that order, whatever the
    queue holds: all three when the peer takes the seven writes of the
    opening, and as many of them as were written when it leaves
    earlier.  In [sse_server.py] and [simple_sse.py] the opening is
    [connected], [tools], and the third event is already a heartbeat. *)
Theorem stream_opens_with_bootstrap
    (fuel : nat) (req : request) (q : list json) (calls : list call)
    (budget : option nat) :
  wants_stream req = true ->
  path req <> "/health" ->
  let opened := connect q calls budget in
  starts_with (firstn 3 (event_types (exec (mcp_server.do_GET fuel req) opened)))
    bootstrap = true /\
  starts_with (firstn 3 (event_types (exec (simple_mcp_server.do_GET fuel req) opened)))
    bootstrap = true /\
  (if accepts 7 opened then
     firstn 3 (event_types (exec (mcp_server.do_GET fuel req) opened)) = bootstrap /\
     firstn 3 (event_types (exec (simple_mcp_server.do_GET fuel req) opened)) = bootstrap
   else True) /\
  firstn 3 (event_types (exec (sse_server.do_GET (S fuel) req) (connect q calls None)))
  = ["connected"; "tools"; "heartbeat"] /\
  firstn 3 (event_types (exec (simple_sse.generate (S fuel)) (connect q calls None)))
  = ["connected"; "tools"; "heartbeat"].
Proof.
  intros Hwants Hpath opened.
  split; [ apply mcp_opens_as_far_as_written; assumption | ].
  split; [ apply simple_opens_as_far_as_written; assumption | ].
  split; [ | split; [ apply sse_opens | apply generate_opens ] ].
  destruct (accepts 7 opened) eqn:Hpeer; [ | exact I ].
  split; [ apply mcp_opens | apply simple_opens ]; assumption.
Qed.
End OtherOpenings.

(** ** Heartbeats *)

Section Cadence.
Context {R : Runtime}.

Lemma every_step (period t0 first k : nat) :
  every period t0 first (S k)
  = (t0 + period * first) :: every period (t0 + period) first k.
Proof.
  unfold every. cbn [seq map]. f_equal.
  rewrite <- seq_shift, map_map. apply map_ext. intro j. lia.
Qed.

Lemma every_length (period t0 first k : nat) : length (every period t0 first k) = k.
Proof. unfold every. rewrite length_map, length_seq. reflexivity. Qed.

Lemma events_of_beat_lines (times : list nat) :
  events_of (beat_lines times) = map (fun t => ("heartbeat", heartbeat_at t)) times.
Proof.
  induction times as [ | t times IH ]; [ reflexivity | ].
  cbn. f_equal. exact IH.
Qed.

Lemma events_of_beat_frames (times : list nat) :
  events_of (beat_frames times) = map (fun t => ("heartbeat", heartbeat_at t)) times.
Proof.
  induction times as [ | t times IH ]; [ reflexivity | ].
  cbn. f_equal. exact IH.
Qed.

Lemma beats_types (times : list nat) :
  map fst (map (fun t => ("heartbeat", heartbeat_at t)) times)
  = repeat "heartbeat" (length times).
Proof.
  induction times as [ | t times IH ]; [ reflexivity | ].
  cbn. f_equal. exact IH.
Qed.

Lemma beats_payloads (times : list nat) :
  map snd
    (filter (fun ev => String.eqb (fst ev) "heartbeat")
       (map (fun t => ("heartbeat", heartbeat_at t)) times))
  = map heartbeat_at times.
Proof.
  induction times as [ | t times IH ]; [ reflexivity | ].
  cbn [map filter fst snd]. change (String.eqb "heartbeat" "heartbeat") with true.
  cbn [map snd]. f_equal. exact IH.
Qed.

Lemma poll_on_empty (w : world) :
  event_queue w = [] ->
  mcp_server.poll_and_sleep w = (set_slept (slept w + 1) w, Ok tt).
Proof.
  intro H.
  unfold mcp_server.poll_and_sleep, try_except, bind, event_queue_get_nowait.
  rewrite H. reflexivity.
Qed.

Lemma ticks_on_empty (n : nat) (w : world) :
  event_queue w = [] ->
  for_range n mcp_server.poll_and_sleep w = (set_slept (slept w + n) w, Ok tt).
Proof.
  revert w. induction n as [ | n IH ]; intros w H; cbn [for_range].
  - unfold ret, set_slept. rewrite Nat.add_0_r. destruct w; reflexivity.
  - unfold bind. rewrite (poll_on_empty w H). rewrite IH by exact H.
    unfold set_slept. cbn. do 2 f_equal. lia.
Qed.

Lemma heartbeat_alive (w : world) :
  peer w = None ->
  mcp_server.send_heartbeat w
  = (set_wire (wire w ++ beat_lines [slept w]) None w, Ok tt).
Proof.
  intro H.
  unfold mcp_server.send_heartbeat, mcp_server.send_sse_event, bind, time_time,
    wfile_flush, wfile_write, ret.
  rewrite H. cbn. rewrite <- app_assoc. reflexivity.
Qed.

Lemma cycle_on_empty (w : world) :
  event_queue w = [] ->
  peer w = None ->
  mcp_server.cycle w
  = (set_wire (wire w ++ beat_lines [slept w + 30]) None (set_slept (slept w + 30) w),
     Ok tt).
Proof.
  intros Hq Hp. unfold mcp_server.cycle, bind.
  rewrite (ticks_on_empty 30 w Hq).
  rewrite heartbeat_alive by exact Hp. reflexivity.
Qed.

(** On an empty queue and with the peer connected, [k] passes of the
    loop sleep [30 * k] seconds and write [k] heartbeats, one after each
    thirty seconds, and the loop is still running. *)
Lemma cycles_on_empty (k : nat) (w : world) :
  event_queue w = [] ->
  peer w = None ->
  exists w',
    while_true k mcp_server.cycle w = (w', Ok tt) /\
    event_queue w' = [] /\
    peer w' = None /\
    slept w' = slept w + 30 * k /\
    wire w' = wire w ++ beat_lines (every 30 (slept w) 1 k).
Proof.
  revert w. induction k as [ | k IH ]; intros w Hq Hp; cbn [while_true].
  - exists w. unfold ret. repeat split; try assumption; try lia.
    symmetry. apply app_nil_r.
  - unfold bind. rewrite (cycle_on_empty w Hq Hp).
    destruct (IH (set_wire (wire w ++ beat_lines [slept w + 30]) None
                    (set_slept (slept w + 30) w)) Hq eq_refl)
      as (w' & Hrun & Hq' & Hp' & Hs & Hw).
    exists w'. cbn [slept wire set_wire set_slept] in Hs, Hw.
    repeat split; try assumption.
    + lia.
    + rewrite Hw, every_step, <- app_assoc. do 2 f_equal.
Qed.

Lemma try_returning_keeps_world {A : Type} (m : M A) (handles : exn -> bool) (a : A)
    (w : world) :
  exec (try_except m handles (fun _ => ret a)) w = exec m w.
Proof.
  unfold exec, try_except. destruct (m w) as [w1 [a1 | e]]; [ reflexivity | ].
  destruct (handles e); reflexivity.
Qed.

Lemma sse_cycles (k : nat) (w : world) :
  peer w = None ->
  exists w',
    while_true k (sse_server.send_heartbeat ;; time_sleep 5) w = (w', Ok tt) /\
    peer w' = None /\
    slept w' = slept w + 5 * k /\
    wire w' = wire w ++ beat_frames (every 5 (slept w) 0 k).
Proof.
  revert w. induction k as [ | k IH ]; intros w Hp; cbn [while_true].
  - exists w. unfold ret. repeat split; try assumption; try lia.
    symmetry. apply app_nil_r.
  - unfold bind at 1 2 3. unfold sse_server.send_heartbeat, sse_server.send_sse_event,
      bind at 1 2, time_time, wfile_write, wfile_flush, ret, time_sleep.
    rewrite Hp.
    match goal with
    | |- context [while_true k _ ?w1] =>
        destruct (IH w1 eq_refl) as (w' & Hrun & Hp' & Hs & Hw)
    end.
    exists w'. cbn [slept wire set_wire set_slept] in Hs, Hw.
    repeat split; try assumption.
    + lia.
    + rewrite Hw, every_step, <- app_assoc. cbn [beat_frames map app].
      rewrite Nat.mul_0_r, Nat.add_0_r. reflexivity.
Qed.

Lemma generate_cycles (k : nat) (w : world) :
  peer w = None ->
  exists w',
    while_true k
      (time_sleep 10 ;;
       now <- time_time ;;
       simple_sse.yield "heartbeat"
         (JDict [("type", JStr "heartbeat"); ("timestamp", now)])) w
    = (w', Ok tt) /\
    peer w' = None /\
    slept w' = slept w + 10 * k /\
    wire w' = wire w ++ beat_frames (every 10 (slept w) 1 k).
Proof.
  revert w. induction k as [ | k IH ]; intros w Hp; cbn [while_true].
  - exists w. unfold ret. repeat split; try assumption; try lia.
    symmetry. apply app_nil_r.
  - unfold bind at 1 2 3. unfold simple_sse.yield, time_time, wfile_write, time_sleep.
    cbn [peer set_slept slept]. rewrite Hp.
    match goal with
    | |- context [while_true k _ ?w1] =>
        destruct (IH w1 eq_refl) as (w' & Hrun & Hp' & Hs & Hw)
    end.
    exists w'. cbn [slept wire set_wire set_slept] in Hs, Hw.
    repeat split; try assumption.
    + lia.
    + rewrite Hw, every_step, <- app_assoc. cbn [beat_frames map app].
      rewrite Nat.mul_1_r. reflexivity.
Qed.
End Cadence.

Section Sleeping.
Context {R : Runtime}.

Lemma sleeps_bind (a b : nat) (m1 m2 : M unit) :
  sleeps a m1 -> sleeps b m2 -> sleeps (a + b) (m1 ;; m2).
Proof.
  intros H1 H2 w Hp. destruct (H1 w Hp) as (w1 & Hrun1 & Hp1 & Hs1).
  destruct (H2 w1 Hp1) as (w2 & Hrun2 & Hp2 & Hs2).
  exists w2. unfold bind. rewrite Hrun1, Hrun2. repeat split; [ assumption | lia ].
Qed.

Lemma sleeps_for_range (a n : nat) (body : M unit) :
  sleeps a body -> sleeps (n * a) (for_range n body).
Proof.
  intro Hb. induction n as [ | n IH ]; cbn [for_range Nat.mul].
  - intros w Hp. exists w. unfold ret. repeat split; [ assumption | lia ].
  - apply sleeps_bind; assumption.
Qed.

Lemma sleeps_while_true (a fuel : nat) (body : M unit) :
  sleeps a body -> sleeps (fuel * a) (while_true fuel body).
Proof.
  intro Hb. induction fuel as [ | fuel IH ]; cbn [while_true Nat.mul].
  - intros w Hp. exists w. unfold ret. repeat split; [ assumption | lia ].
  - apply sleeps_bind; assumption.
Qed.

(** A tick sleeps its second whether or not it found an event. *)
Lemma poll_sleeps : sleeps 1 mcp_server.poll_and_sleep.
Proof.
  intros w Hp.
  unfold mcp_server.poll_and_sleep, mcp_server.send_sse_event, try_except, bind,
    event_queue_get_nowait, wfile_write, wfile_flush, time_sleep, ret.
  destruct (event_queue w) as [ | e q ]; cbn; rewrite ?Hp; cbn;
    eexists; repeat split; assumption.
Qed.

Lemma heartbeat_sleeps : sleeps 0 mcp_server.send_heartbeat.
Proof.
  intros w Hp. rewrite (heartbeat_alive w Hp).
  eexists. repeat split. cbn. lia.
Qed.

Lemma cycle_sleeps : sleeps 30 mcp_server.cycle.
Proof.
  unfold mcp_server.cycle.
  apply (sleeps_bind (30 * 1) 0);
    [ apply sleeps_for_range, poll_sleeps | apply heartbeat_sleeps ].
Qed.

Lemma mcp_opening_run (rest : M unit) (q : list json) (calls : list call) :
  exists d1 d2 d3,
    exec (send_response 200 ;;
          send_header "Content-Type" "text/event-stream" ;;
          send_header "Cache-Control" "no-cache" ;;
          send_header "Connection" "keep-alive" ;;
          end_headers ;;
          mcp_server.send_sse_event "connected"
            (JDict
               [ ("status", JStr "connected");
                 ("message", JStr "LightRAG MCP Server Connected") ]) ;;
          mcp_server.send_sse_event "tools"
            (JDict [("type", JStr "tools"); ("tools", mcp_server.TOOLS)]) ;;
          capabilities <- mcp_server.handle_capabilities ;;
          mcp_server.send_sse_event "capabilities" capabilities ;;
          rest) (connect q calls None)
    = exec rest
        (mkWorld q calls
           [ stream_head;
             EventLine "connected"; DataLine d1;
             EventLine "tools"; DataLine d2;
             EventLine "capabilities"; DataLine d3 ]
           None None 0 []).
Proof. do 3 eexists. reflexivity. Qed.

Lemma simple_opening_run (rest : M unit) (q : list json) (calls : list call) :
  exists d1 d2 d3,
    exec (send_response 200 ;;
          send_header "Content-Type" "text/event-stream" ;;
          send_header "Cache-Control" "no-cache" ;;
          send_header "Connection" "keep-alive" ;;
          end_headers ;;
          simple_mcp_server.send_sse_event "connected"
            (JDict
               [ ("status", JStr "connected");
                 ("message", JStr "LightRAG MCP Server Connected") ]) ;;
          simple_mcp_server.send_sse_event "tools"
            (JDict [("type", JStr "tools"); ("tools", simple_mcp_server.TOOLS)]) ;;
          simple_mcp_server.send_sse_event "capabilities" simple_mcp_server.capabilities ;;
          rest) (connect q calls None)
    = exec rest
        (mkWorld q calls
           [ stream_head;
             EventLine "connected"; DataLine d1;
             EventLine "tools"; DataLine d2;
             EventLine "capabilities"; DataLine d3 ]
           None None 0 []).
Proof. do 3 eexists. reflexivity. Qed.

Lemma opened_events (d1 d2 d3 : json) (rest : list chunk) :
  events_of
    ([ stream_head;
       EventLine "connected"; DataLine d1;
       EventLine "tools"; DataLine d2;
       EventLine "capabilities"; DataLine d3 ] ++ rest)
  = [("connected", d1); ("tools", d2); ("capabilities", d3)] ++ events_of rest.
Proof. reflexivity. Qed.

Lemma opened_heartbeats (d1 d2 d3 : json) (evs : list (string * json)) :
  map snd
    (filter (fun ev => String.eqb (fst ev) "heartbeat")
       ([("connected", d1); ("tools", d2); ("capabilities", d3)] ++ evs))
  = map snd (filter (fun ev => String.eqb (fst ev) "heartbeat") evs).
Proof. reflexivity. Qed.

(** The stream of [mcp_server.py] from its opening, nothing published. *)
Lemma mcp_stream_on_empty (k : nat) (req : request) (calls : list call) :
  wants_stream req = true ->
  path req <> "/health" ->
  let w' := exec (mcp_server.do_GET k req) (connect [] calls None) in
  event_types w' = bootstrap ++ repeat "heartbeat" k /\
  heartbeats_of w' = map heartbeat_at (every 30 0 1 k) /\
  slept w' = 30 * k.
Proof.
  intros Hwants Hpath.
  unfold mcp_server.do_GET. apply String.eqb_neq in Hpath. rewrite Hpath.
  unfold wants_stream in Hwants. rewrite Hwants.
  destruct (mcp_opening_run (mcp_server.stream k) [] calls) as (d1 & d2 & d3 & Hopen).
  rewrite Hopen. unfold mcp_server.stream. rewrite try_returning_keeps_world.
  match goal with
  | |- context [exec _ ?w7] =>
      destruct (cycles_on_empty k w7 eq_refl eq_refl) as (w' & Hrun & _ & _ & Hs & Hw)
  end.
  unfold exec. rewrite Hrun. cbn [fst slept wire] in *.
  unfold event_types, heartbeats_of.
  rewrite Hw, opened_events, events_of_beat_lines, opened_heartbeats, map_app.
  repeat split.
  - rewrite beats_types, every_length. reflexivity.
  - apply beats_payloads.
  - exact Hs.
Qed.

Lemma simple_stream_on_empty (k : nat) (req : request) (calls : list call) :
  wants_stream req = true ->
  let w' := exec (simple_mcp_server.do_GET k req) (connect [] calls None) in
  event_types w' = bootstrap ++ repeat "heartbeat" k /\
  heartbeats_of w' = map heartbeat_at (every 30 0 1 k) /\
  slept w' = 30 * k.
Proof.
  intros Hwants.
  unfold simple_mcp_server.do_GET.
  unfold wants_stream in Hwants. rewrite Hwants.
  rewrite simple_stream_is_mcp_stream.
  destruct (simple_opening_run (mcp_server.stream k) [] calls) as (d1 & d2 & d3 & Hopen).
  rewrite Hopen. unfold mcp_server.stream. rewrite try_returning_keeps_world.
  match goal with
  | |- context [exec _ ?w7] =>
      destruct (cycles_on_empty k w7 eq_refl eq_refl) as (w' & Hrun & _ & _ & Hs & Hw)
  end.
  unfold exec. rewrite Hrun. cbn [fst slept wire] in *.
  unfold event_types, heartbeats_of.
  rewrite Hw, opened_events, events_of_beat_lines, opened_heartbeats, map_app.
  repeat split.
  - rewrite beats_types, every_length. reflexivity.
  - apply beats_payloads.
  - exact Hs.
Qed.

(** Whatever the queue holds, [k] passes of the loop sleep [30 * k]
    seconds. *)
Lemma mcp_stream_sleeps (k : nat) (req : request) (q : list json) (calls : list call) :
  wants_stream req = true ->
  path req <> "/health" ->
  slept (exec (mcp_server.do_GET k req) (connect q calls None)) = 30 * k.
Proof.
  intros Hwants Hpath.
  unfold mcp_server.do_GET. apply String.eqb_neq in Hpath. rewrite Hpath.
  unfold wants_stream in Hwants. rewrite Hwants.
  destruct (mcp_opening_run (mcp_server.stream k) q calls) as (d1 & d2 & d3 & Hopen).
  rewrite Hopen. unfold mcp_server.stream. rewrite try_returning_keeps_world.
  match goal with
  | |- context [exec _ ?w7] =>
      destruct (sleeps_while_true 30 k _ cycle_sleeps w7 eq_refl) as (w' & Hrun & _ & Hs)
  end.
  unfold exec. rewrite Hrun. cbn [fst slept] in *. lia.
Qed.

Lemma sse_opening_run (rest : M unit) (q : list json) (calls : list call) :
  exists d1 d2,
    exec (send_response 200 ;;
          send_header "Content-Type" "text/event-stream" ;;
          send_header "Cache-Control" "no-cache" ;;
          send_header "Connection" "keep-alive" ;;
          send_header "Access-Control-Allow-Origin" "*" ;;
          end_headers ;;
          sse_server.send_sse_event "connected"
            (JDict
               [ ("status", JStr "connected");
                 ("message", JStr "LightRAG MCP Server Connected") ]) ;;
          sse_server.send_sse_event "tools" (JDict [("tools", sse_server.TOOLS)]) ;;
          rest) (connect q calls None)
    = exec rest
        (mkWorld q calls
           [ stream_head_cors; EventFrame "connected" d1; EventFrame "tools" d2 ]
           None None 0 []).
Proof. do 2 eexists. reflexivity. Qed.

Lemma framed_events (pre : list chunk) (d1 d2 : json) (times : list nat) :
  pre = [] \/ pre = [stream_head_cors] ->
  let evs :=
    events_of
      ((pre ++ [EventFrame "connected" d1; EventFrame "tools" d2]) ++ beat_frames times) in
  map fst evs = ["connected"; "tools"] ++ repeat "heartbeat" (length times) /\
  map snd (filter (fun ev => String.eqb (fst ev) "heartbeat") evs)
  = map heartbeat_at times.
Proof.
  intros Hpre evs.
  assert (Hevs : evs = [("connected", d1); ("tools", d2)]
                       ++ map (fun t => ("heartbeat", heartbeat_at t)) times).
  { unfold evs. rewrite <- events_of_beat_frames.
    destruct Hpre as [-> | ->]; reflexivity. }
  rewrite Hevs. split.
  - rewrite map_app, beats_types. reflexivity.
  - change (map snd
              (filter (fun ev => String.eqb (fst ev) "heartbeat")
                 (map (fun t => ("heartbeat", heartbeat_at t)) times))
            = map heartbeat_at times).
    apply beats_payloads.
Qed.

Lemma sse_stream (k : nat) (req : request) (q : list json) (calls : list call) :
  let w' := exec (sse_server.do_GET k req) (connect q calls None) in
  event_types w' = ["connected"; "tools"] ++ repeat "heartbeat" k /\
  heartbeats_of w' = map heartbeat_at (every 5 0 0 k) /\
  slept w' = 5 * k.
Proof.
  unfold sse_server.do_GET.
  destruct (sse_opening_run
              (try_except (while_true k (sse_server.send_heartbeat ;; time_sleep 5))
                 is_disconnect (fun _ => ret tt)) q calls) as (d1 & d2 & Hopen).
  rewrite Hopen, try_returning_keeps_world.
  match goal with
  | |- context [exec _ ?w3] =>
      destruct (sse_cycles k w3 eq_refl) as (w' & Hrun & _ & Hs & Hw)
  end.
  unfold exec. rewrite Hrun. cbn [fst slept wire] in *.
  unfold event_types, heartbeats_of. rewrite Hw.
  destruct (framed_events [stream_head_cors] d1 d2 (every 5 0 0 k)) as [Ht Hb];
    [ auto | ].
  rewrite every_length in Ht. cbn [app] in Ht, Hb. cbn [app].
  repeat split; assumption.
Qed.

Lemma generate_stream (k : nat) (q : list json) (calls : list call) :
  let w' := exec (simple_sse.generate k) (connect q calls None) in
  event_types w' = ["connected"; "tools"] ++ repeat "heartbeat" k /\
  heartbeats_of w' = map heartbeat_at (every 10 0 1 k) /\
  slept w' = 10 * k.
Proof.
  unfold simple_sse.generate.
  match goal with
  | |- context [while_true k ?body] =>
      assert (Hopen :
        exists d1 d2,
          exec (simple_sse.yield "connected"
                  (JDict
                     [ ("status", JStr "connected");
                       ("message", JStr "LightRAG MCP Server Connected") ]) ;;
                simple_sse.yield "tools" (JDict [("tools", simple_sse.TOOLS)]) ;;
                while_true k body) (connect q calls None)
          = exec (while_true k body)
              (mkWorld q calls [EventFrame "connected" d1; EventFrame "tools" d2]
                 None None 0 []))
        by (do 2 eexists; reflexivity)
  end.
  destruct Hopen as (d1 & d2 & Hopen). rewrite Hopen.
  match goal with
  | |- context [exec _ ?w2] =>
      destruct (generate_cycles k w2 eq_refl) as (w' & Hrun & _ & Hs & Hw)
  end.
  unfold exec. rewrite Hrun. cbn [fst slept wire] in *.
  unfold event_types, heartbeats_of. rewrite Hw.
  destruct (framed_events [] d1 d2 (every 10 0 1 k)) as [Ht Hb]; [ auto | ].
  rewrite every_length in Ht. cbn [app] in Ht, Hb. cbn [app].
  repeat split; assumption.
Qed.

(** C6, as the code has it.  With nothing published and the peer
    connected, a stream of
    [mcp_server.py] or [simple_mcp_server.py] observed for [k] passes of
    its loop has slept [30 * k] seconds in ticks of one second and has
    sent, after its opening, [k] heartbeats and nothing else: the [j]-th
    carries the time read after [30 * j] seconds, for every [k].  A tick
    sleeps its second whether or not it found an event to send, so the
    [30 * k] seconds hold whatever the queue holds.  The two variants
    without a queue keep the same shape with their own constants: one
    heartbeat per pass, a pass every 5 seconds in [sse_server.py]
    (heartbeat first) and every 10 seconds in [simple_sse.py] (sleep
    first). *)
Theorem one_heartbeat_per_cycle
    (k : nat) (req : request) (q : list json) (calls : list call) :
  wants_stream req = true ->
  path req <> "/health" ->
  (let w' := exec (mcp_server.do_GET k req) (connect [] calls None) in
   event_types w' = bootstrap ++ repeat "heartbeat" k /\
   heartbeats_of w' = map heartbeat_at (every 30 0 1 k) /\
   slept w' = 30 * k) /\
  (let w' := exec (simple_mcp_server.do_GET k req) (connect [] calls None) in
   event_types w' = bootstrap ++ repeat "heartbeat" k /\
   heartbeats_of w' = map heartbeat_at (every 30 0 1 k) /\
   slept w' = 30 * k) /\
  sleeps 1 mcp_server.poll_and_sleep /\
  slept (exec (mcp_server.do_GET k req) (connect q calls None)) = 30 * k /\
  (let w' := exec (sse_server.do_GET k req) (connect q calls None) in
   event_types w' = ["connected"; "tools"] ++ repeat "heartbeat" k /\
   heartbeats_of w' = map heartbeat_at (every 5 0 0 k) /\
   slept w' = 5 * k) /\
  (let w' := exec (simple_sse.generate k) (connect q calls None) in
   event_types w' = ["connected"; "tools"] ++ repeat "heartbeat" k /\
   heartbeats_of w' = map heartbeat_at (every 10 0 1 k) /\
   slept w' = 10 * k).
Proof.
  intros Hwants Hpath.
  split; [ apply mcp_stream_on_empty; assumption | ].
  split; [ apply simple_stream_on_empty; assumption | ].
  split; [ apply poll_sleeps | ].
  split; [ apply mcp_stream_sleeps; assumption | ].
  split; [ apply sse_stream | apply generate_stream ].
Qed.
End Sleeping.

(** ** Two sessions, one event *)

Section Delivery.
Context {R : Runtime}.

Lemma step_drained (p : Fanout.phase) : respects drained (Fanout.session_step p).
Proof.
  destruct p as [ i | ];
    unfold Fanout.session_step, mcp_server.poll_and_sleep, mcp_server.send_heartbeat,
      mcp_server.send_sse_event, wfile_flush;
    repeat respects_step.
Qed.

(** What is left of a tick once [event_queue.get] has handed over [e]. *)
Lemma tick_after_get (i : nat) (e : json) (q : list json) (w : world) :
  event_queue w = e :: q ->
  Fanout.session_step (Fanout.Streaming i) w
  = try_except
      ((try_except (mcp_server.send_sse_event "message" e) is_queue_empty
          (fun _ => ret tt) ;;
        time_sleep 1) ;;
       if (S i =? 30)%nat then
         mcp_server.send_heartbeat ;;
         ret (Fanout.Streaming 0)
       else ret (Fanout.Streaming (S i)))
      is_disconnect
      (fun _ => ret Fanout.Closed)
      (set_got q (got w ++ [e]) w).
Proof.
  intro H.
  unfold Fanout.session_step, mcp_server.poll_and_sleep, try_except, bind,
    event_queue_get_nowait.
  rewrite H. reflexivity.
Qed.

Lemma tick_consumes (i : nat) (e : json) (q : list json) (w : world) :
  event_queue w = e :: q ->
  let w' := exec (Fanout.session_step (Fanout.Streaming i)) w in
  event_queue w' = q /\ got w' = got w ++ [e].
Proof.
  intros H w'. subst w'. unfold exec. rewrite (tick_after_get i e q w H).
  match goal with
  | |- context [try_except ?m ?h ?k ?w1] =>
      assert (Hio : respects io_only (try_except m h k))
  end.
  { unfold mcp_server.send_heartbeat, mcp_server.send_sse_event, wfile_flush.
    repeat respects_step. }
  match goal with
  | |- context [try_except ?m ?h ?k ?w1] =>
      destruct (Hio w1) as (Hq & Hg & _)
  end.
  unfold exec in Hq, Hg. rewrite Hq, Hg. split; reflexivity.
Qed.

Lemma tick_on_empty (s : world * Fanout.phase) :
  fst (Fanout.tick_on [] s) = [] /\
  got (fst (snd (Fanout.tick_on [] s))) = got (fst s).
Proof.
  unfold Fanout.tick_on.
  pose proof (step_drained (snd s) (set_event_queue [] (fst s)) eq_refl) as [Hq Hg].
  unfold exec in Hq, Hg.
  destruct (Fanout.session_step (snd s) (set_event_queue [] (fst s))) as [w' [p' | e]];
    cbn [fst snd] in *; split; assumption.
Qed.

Lemma tick_on_head (e : json) (q : list json) (w : world) (i : nat) :
  fst (Fanout.tick_on (e :: q) (w, Fanout.Streaming i)) = q /\
  got (fst (snd (Fanout.tick_on (e :: q) (w, Fanout.Streaming i)))) = got w ++ [e].
Proof.
  unfold Fanout.tick_on. cbn [fst snd].
  pose proof (tick_consumes i e q (set_event_queue (e :: q) w) eq_refl) as [Hq Hg].
  unfold exec in Hq, Hg.
  destruct (Fanout.session_step (Fanout.Streaming i) (set_event_queue (e :: q) w))
    as [w' [p' | e']];
    cbn [fst snd] in *; split; assumption.
Qed.

Lemma step_on_empty (st : Fanout.system) (who : Fanout.sid) :
  Fanout.queue st = [] ->
  Fanout.queue (Fanout.sched_step st who) = [] /\
  Fanout.observed_a (Fanout.sched_step st who) = Fanout.observed_a st /\
  Fanout.observed_b (Fanout.sched_step st who) = Fanout.observed_b st.
Proof.
  intro H. unfold Fanout.sched_step, Fanout.observed_a, Fanout.observed_b. rewrite H.
  destruct who.
  - destruct (tick_on_empty (Fanout.session_a st)) as [Hq Hg].
    destruct (Fanout.tick_on [] (Fanout.session_a st)) as [q' s']. cbn [fst snd] in *.
    cbn. auto.
  - destruct (tick_on_empty (Fanout.session_b st)) as [Hq Hg].
    destruct (Fanout.tick_on [] (Fanout.session_b st)) as [q' s']. cbn [fst snd] in *.
    cbn. auto.
Qed.

(** Once the queue is empty no tick of either session takes anything. *)
Lemma schedule_on_empty (schedule : list Fanout.sid) (st : Fanout.system) :
  Fanout.queue st = [] ->
  let st' := Fanout.run_schedule schedule st in
  Fanout.queue st' = [] /\
  Fanout.observed_a st' = Fanout.observed_a st /\
  Fanout.observed_b st' = Fanout.observed_b st.
Proof.
  revert st. induction schedule as [ | who schedule IH ]; intros st H.
  - cbn. auto.
  - destruct (step_on_empty st who H) as (Hq & Ha & Hb).
    destruct (IH (Fanout.sched_step st who) Hq) as (Hq' & Ha' & Hb').
    unfold Fanout.run_schedule in *. cbn [fold_left].
    repeat split; congruence.
Qed.

(** C1.  Two sessions of [mcp_server.py] are streaming, one event [e] is
    on the queue, and their ticks interleave in any order: with no tick
    yet neither has taken [e]; from the first tick on, the session that
    ticked first has taken [e] from [event_queue.get], the other one has
    not and never will, and the queue is empty.  Whether the peer of a
    session is still there does not matter, nor where each session
    stands in its cycle. *)
Theorem one_event_reaches_exactly_one_session
    (e : json) (wa wb : world) (ia ib : nat) (first : Fanout.sid)
    (rest : list Fanout.sid) :
  let opened :=
    Fanout.mkSystem [e] (wa, Fanout.Streaming ia) (wb, Fanout.Streaming ib) in
  let st := Fanout.run_schedule (first :: rest) opened in
  (Fanout.observed_a (Fanout.run_schedule [] opened) = got wa /\
   Fanout.observed_b (Fanout.run_schedule [] opened) = got wb) /\
  Fanout.queue st = [] /\
  match first with
  | Fanout.SessionA =>
      Fanout.observed_a st = got wa ++ [e] /\ Fanout.observed_b st = got wb
  | Fanout.SessionB =>
      Fanout.observed_a st = got wa /\ Fanout.observed_b st = got wb ++ [e]
  end.
Proof.
  intros opened st. split; [ split; reflexivity | ].
  subst st. unfold Fanout.run_schedule. cbn [fold_left].
  fold (Fanout.run_schedule rest (Fanout.sched_step opened first)).
  assert (Hfirst :
    Fanout.queue (Fanout.sched_step opened first) = [] /\
    match first with
    | Fanout.SessionA =>
        Fanout.observed_a (Fanout.sched_step opened first) = got wa ++ [e] /\
        Fanout.observed_b (Fanout.sched_step opened first) = got wb
    | Fanout.SessionB =>
        Fanout.observed_a (Fanout.sched_step opened first) = got wa /\
        Fanout.observed_b (Fanout.sched_step opened first) = got wb ++ [e]
    end).
  { unfold opened, Fanout.sched_step, Fanout.observed_a, Fanout.observed_b.
    cbn [Fanout.queue Fanout.session_a Fanout.session_b].
    destruct first.
    - destruct (tick_on_head e [] wa ia) as [Hq Hg].
      destruct (Fanout.tick_on [e] (wa, Fanout.Streaming ia)) as [q' s'].
      cbn [fst snd] in *. cbn. auto.
    - destruct (tick_on_head e [] wb ib) as [Hq Hg].
      destruct (Fanout.tick_on [e] (wb, Fanout.Streaming ib)) as [q' s'].
      cbn [fst snd] in *. cbn. auto. }
  destruct Hfirst as [Hq Hobs].
  destruct (schedule_on_empty rest _ Hq) as (Hq' & Ha & Hb).
  split; [ exact Hq' | ].
  rewrite Ha, Hb. exact Hobs.
Qed.
End Delivery.

(** ** The state machine is the loop of [do_GET] *)

Section Refinement.
Context {R : Runtime}.

Lemma bind_assoc {A B C : Type} (m : M A) (k1 : A -> M B) (k2 : B -> M C) (w : world) :
  bind (bind m k1) k2 w = bind m (fun a => bind (k1 a) k2) w.
Proof. unfold bind. destruct (m w) as [w1 [a | e]]; reflexivity. Qed.

Lemma for_range_snoc (n : nat) (body : M unit) (w : world) :
  for_range (S n) body w = bind (for_range n body) (fun _ => body) w.
Proof.
  revert w. induction n as [ | n IH ]; intro w.
  - cbn [for_range]. unfold bind, ret. destruct (body w) as [w1 [ [] | e ]]; reflexivity.
  - assert (HL : for_range (S (S n)) body w
                 = let (w1, r) := body w in
                   match r with
                   | Ok _ => for_range (S n) body w1
                   | Raise e => (w1, Raise e)
                   end) by reflexivity.
    assert (HR : bind (for_range (S n) body) (fun _ => body) w
                 = let (w1, r) := body w in
                   match r with
                   | Ok _ => bind (for_range n body) (fun _ => body) w1
                   | Raise e => (w1, Raise e)
                   end).
    { cbn [for_range]. unfold bind. destruct (body w) as [w1 [ [] | e ]]; reflexivity. }
    rewrite HL, HR. destruct (body w) as [w1 [ [] | e ]]; [ apply IH | reflexivity ].
Qed.

Lemma closed_stays (n : nat) (w : world) :
  Fanout.run_steps n Fanout.Closed w = (w, Ok Fanout.Closed).
Proof. induction n as [ | n IH ]; [ reflexivity | exact IH ]. Qed.

Lemma run_steps_add (a b : nat) (p : Fanout.phase) (w : world) :
  Fanout.run_steps (a + b) p w
  = bind (Fanout.run_steps a p) (Fanout.run_steps b) w.
Proof.
  revert p w. induction a as [ | a IH ]; intros p w; [ reflexivity | ].
  assert (HL : Fanout.run_steps (S a + b) p w
               = let (w1, r) := Fanout.session_step p w in
                 match r with
                 | Ok p' => Fanout.run_steps (a + b) p' w1
                 | Raise e => (w1, Raise e)
                 end) by reflexivity.
  assert (HR : bind (Fanout.run_steps (S a) p) (Fanout.run_steps b) w
               = let (w1, r) := Fanout.session_step p w in
                 match r with
                 | Ok p' => bind (Fanout.run_steps a p') (Fanout.run_steps b) w1
                 | Raise e => (w1, Raise e)
                 end).
  { cbn [Fanout.run_steps]. unfold bind.
    destruct (Fanout.session_step p w) as [w1 [p' | e]]; reflexivity. }
  rewrite HL, HR.
  destruct (Fanout.session_step p w) as [w1 [p' | e]]; [ apply IH | reflexivity ].
Qed.

Lemma halted_absorbs (a b : nat) (p : Fanout.phase) (w : world) :
  halted (eval (Fanout.run_steps a p) w) ->
  exec (Fanout.run_steps (a + b) p) w = exec (Fanout.run_steps a p) w /\
  halted (eval (Fanout.run_steps (a + b) p) w).
Proof.
  unfold exec, eval. rewrite run_steps_add. unfold bind.
  destruct (Fanout.run_steps a p w) as [w1 [ [ i | ] | e ]]; cbn [fst snd halted].
  - contradiction.
  - intros _. rewrite closed_stays. split; [ reflexivity | exact I ].
  - intros _. split; [ reflexivity | exact I ].
Qed.

Lemma step_of_poll (i : nat) (w : world) :
  S i <> 30 ->
  Fanout.session_step (Fanout.Streaming i) w
  = match mcp_server.poll_and_sleep w with
    | (w1, Ok _) => (w1, Ok (Fanout.Streaming (S i)))
    | (w1, Raise e) =>
        if is_disconnect e then (w1, Ok Fanout.Closed) else (w1, Raise e)
    end.
Proof.
  intro Hi. apply Nat.eqb_neq in Hi.
  unfold Fanout.session_step. rewrite Hi. unfold try_except, bind.
  destruct (mcp_server.poll_and_sleep w) as [w1 [ [] | e ]]; reflexivity.
Qed.

Lemma step_of_last_poll (w : world) :
  Fanout.session_step (Fanout.Streaming 29) w
  = match (mcp_server.poll_and_sleep ;; mcp_server.send_heartbeat) w with
    | (w1, Ok _) => (w1, Ok (Fanout.Streaming 0))
    | (w1, Raise e) =>
        if is_disconnect e then (w1, Ok Fanout.Closed) else (w1, Raise e)
    end.
Proof.
  unfold Fanout.session_step. change (30 =? 30)%nat with true. cbv iota.
  unfold try_except, bind.
  destruct (mcp_server.poll_and_sleep w) as [w1 [ [] | e ]]; [ | reflexivity ].
  destruct (mcp_server.send_heartbeat w1) as [w2 [ [] | e ]]; reflexivity.
Qed.

(** Ticks inside a cycle are passes of the [for] body. *)
Lemma ticks_are_passes (n i : nat) (w : world) :
  i + n < 30 ->
  match for_range n mcp_server.poll_and_sleep w with
  | (w', Ok _) =>
      Fanout.run_steps n (Fanout.Streaming i) w = (w', Ok (Fanout.Streaming (i + n)))
  | (w', Raise _) =>
      exec (Fanout.run_steps n (Fanout.Streaming i)) w = w' /\
      halted (eval (Fanout.run_steps n (Fanout.Streaming i)) w)
  end.
Proof.
  revert i w. induction n as [ | n IH ]; intros i w Hi.
  - cbn. rewrite Nat.add_0_r. reflexivity.
  - cbn [for_range Fanout.run_steps]. unfold bind, exec, eval.
    rewrite step_of_poll by lia.
    destruct (mcp_server.poll_and_sleep w) as [w1 [ [] | e ]].
    + specialize (IH (S i) w1). rewrite <- Nat.add_succ_comm. apply IH. lia.
    + destruct (is_disconnect e); cbn [fst snd]; [ rewrite closed_stays | ];
        split; first [ reflexivity | exact I ].
Qed.

Lemma run_one_step (p : Fanout.phase) (w : world) :
  Fanout.run_steps 1 p w = Fanout.session_step p w.
Proof.
  cbn [Fanout.run_steps]. unfold bind, ret.
  destruct (Fanout.session_step p w) as [w1 [p' | e]]; reflexivity.
Qed.

(** Thirty ticks from the start of a cycle are one pass of [while True]. *)
Lemma thirty_ticks_are_a_cycle (w : world) :
  match mcp_server.cycle w with
  | (w', Ok _) =>
      Fanout.run_steps 30 (Fanout.Streaming 0) w = (w', Ok (Fanout.Streaming 0))
  | (w', Raise _) =>
      exec (Fanout.run_steps 30 (Fanout.Streaming 0)) w = w' /\
      halted (eval (Fanout.run_steps 30 (Fanout.Streaming 0)) w)
  end.
Proof.
  assert (Hc : mcp_server.cycle w
               = let (w1, r) := for_range 29 mcp_server.poll_and_sleep w in
                 match r with
                 | Ok _ => (mcp_server.poll_and_sleep ;; mcp_server.send_heartbeat) w1
                 | Raise e => (w1, Raise e)
                 end).
  { unfold mcp_server.cycle. unfold bind at 1.
    rewrite (for_range_snoc 29 mcp_server.poll_and_sleep w). unfold bind.
    destruct (for_range 29 mcp_server.poll_and_sleep w) as [w1 [ [] | e ]]; reflexivity. }
  assert (Hr : Fanout.run_steps 30 (Fanout.Streaming 0) w
               = let (w1, r) := Fanout.run_steps 29 (Fanout.Streaming 0) w in
                 match r with
                 | Ok p => Fanout.run_steps 1 p w1
                 | Raise e => (w1, Raise e)
                 end).
  { exact (run_steps_add 29 1 (Fanout.Streaming 0) w). }
  pose proof (ticks_are_passes 29 0 w ltac:(lia)) as Hticks.
  change (0 + 29) with 29 in Hticks.
  rewrite Hc. unfold exec, eval in *. rewrite Hr.
  destruct (for_range 29 mcp_server.poll_and_sleep w) as [w1 [ [] | e ]].
  - rewrite Hticks, run_one_step, step_of_last_poll.
    destruct ((mcp_server.poll_and_sleep ;; mcp_server.send_heartbeat) w1)
      as [w2 [ [] | e ]]; [ reflexivity | ].
    destruct (is_disconnect e); cbn [fst snd]; split; first [ reflexivity | exact I ].
  - destruct Hticks as [Hw Hh].
    destruct (Fanout.run_steps 29 (Fanout.Streaming 0) w) as [w2 [ [ i | ] | e' ]];
      cbn [fst snd halted] in *.
    + contradiction.
    + rewrite closed_stays. cbn [fst snd]. split; [ exact Hw | exact I ].
    + split; [ exact Hw | exact I ].
Qed.

(** [simple_mcp_server.py] runs the same loop. *)
Lemma simple_tick_is_mcp_tick :
  simple_mcp_server.poll_and_sleep = mcp_server.poll_and_sleep /\
  simple_mcp_server.send_heartbeat = mcp_server.send_heartbeat /\
  simple_mcp_server.cycle = mcp_server.cycle.
Proof. repeat split. Qed.

(** The loop of [do_GET], observed for [fuel] passes, leaves the world
    where [30 * fuel] ticks of the state machine leave it. *)
Lemma stream_is_run_of_ticks (fuel : nat) (w : world) :
  exec (mcp_server.stream fuel) w
  = exec (Fanout.run_steps (30 * fuel) (Fanout.Streaming 0)) w.
Proof.
  unfold mcp_server.stream. rewrite try_returning_keeps_world.
  revert w. induction fuel as [ | fuel IH ]; intro w; [ reflexivity | ].
  replace (30 * S fuel) with (30 + 30 * fuel) by lia.
  assert (Hl : while_true (S fuel) mcp_server.cycle w
               = let (w1, r) := mcp_server.cycle w in
                 match r with
                 | Ok _ => while_true fuel mcp_server.cycle w1
                 | Raise e => (w1, Raise e)
                 end) by reflexivity.
  assert (Hr : Fanout.run_steps (30 + 30 * fuel) (Fanout.Streaming 0) w
               = let (w1, r) := Fanout.run_steps 30 (Fanout.Streaming 0) w in
                 match r with
                 | Ok p => Fanout.run_steps (30 * fuel) p w1
                 | Raise e => (w1, Raise e)
                 end).
  { exact (run_steps_add 30 (30 * fuel) (Fanout.Streaming 0) w). }
  unfold exec in *. rewrite Hl, Hr.
  pose proof (thirty_ticks_are_a_cycle w) as Hcycle.
  destruct (mcp_server.cycle w) as [w1 [ [] | e ]].
  - rewrite Hcycle. apply IH.
  - destruct Hcycle as [Hw Hh]. unfold exec, eval in Hw, Hh.
    destruct (Fanout.run_steps 30 (Fanout.Streaming 0) w) as [w2 [ [ i | ] | e' ]];
      cbn [fst snd halted] in *.
    + contradiction.
    + rewrite closed_stays. exact (eq_sym Hw).
    + exact (eq_sym Hw).
Qed.
End Refinement.

(** ** Concrete runs *)

(** A POST with a body that is not JSON, on an idle server. *)
Lemma malformed_json_run :
  accepts 2 idle = true /\
  published_one invalid_json_result idle
    (exec (mcp_server.do_POST (R := unreachable_backend) 9 (Unparseable "{not json")) idle).
Proof.
  split; [ reflexivity | ].
  destruct (malformed_json_is_answered_and_published
              (R := unreachable_backend) 9 "{not json" idle eq_refl)
    as [[_ H] _].
  exact H.
Defined.

(** The same POST does put an event on the queue of [mcp_server.py]. *)
Lemma malformed_json_reaches_the_queue :
  ~ nothing_published idle
      (exec (mcp_server.do_POST (R := unreachable_backend) 9 (Unparseable "{not json")) idle).
Proof. unfold nothing_published. vm_compute. discriminate. Qed.

(** A query posted to [sse_server.py] publishes nothing. *)
Lemma sse_server_post_publishes_nothing :
  ~ exists r,
      published_one r idle
        (exec (sse_server.do_POST (R := unreachable_backend) 52
                 (Parsed (query_request "What is VAEBZ?"))) idle).
Proof.
  intros [r H]. unfold published_one in H. vm_compute in H.
  destruct (event_queue idle); discriminate H.
Qed.

(** An empty query posted to any of the three servers. *)
Lemma empty_query_run :
  dict_get "action" [("action", JStr "query"); ("data", JDict [("query", JStr "")])]
  = Some (JStr "query") /\
  empty_query [("action", JStr "query"); ("data", JDict [("query", JStr "")])] = true /\
  mcp_server.do_POST_response (R := unreachable_backend) 45 (Parsed (query_request "")) idle
  = (idle, Ok no_query_result).
Proof.
  split; [ reflexivity | split; [ reflexivity | ] ].
  destruct (empty_query_is_refused_without_backend
              (R := unreachable_backend) 45
              [("action", JStr "query"); ("data", JDict [("query", JStr "")])]
              idle eq_refl eq_refl)
    as [H _].
  exact H.
Defined.

(** The refusal of [sse_server.py] carries no [data: null]. *)
Lemma sse_server_refusal_has_no_data :
  ~ exists r,
      eval (sse_server.do_POST_response (R := unreachable_backend) (query_request "")) idle
      = Ok r /\
      error_with_null_data r.
Proof.
  intros (r & Hr & d & Hd & _ & Hdata).
  vm_compute in Hr. injection Hr as <-. injection Hd as <-.
  vm_compute in Hdata. discriminate Hdata.
Qed.

(** A request with no [data] key. *)
Lemma absent_data_run :
  dict_get "data" [("action", JStr "query")] = None /\
  mcp_server.handle_query (R := unreachable_backend) (JDict [("action", JStr "query")]) idle
  = (idle, Ok no_query_result).
Proof.
  split; [ reflexivity | ].
  destruct (absent_data_is_an_empty_query
              (R := unreachable_backend) [("action", JStr "query")] idle eq_refl)
    as [[H _] _].
  exact H.
Defined.

(** A stream opened on [/] with the peer connected. *)
Lemma bootstrap_run :
  wants_stream (sse_request "/") = true /\
  path (sse_request "/") <> "/health" /\
  firstn 3
    (event_types
       (exec (mcp_server.do_GET (R := unreachable_backend) 1 (sse_request "/")) idle))
  = bootstrap.
Proof.
  split; [ reflexivity | split; [ discriminate | ] ].
  assert (Hpath : path (sse_request "/") <> "/health") by discriminate.
  destruct (stream_opens_with_bootstrap
              (R := unreachable_backend) 1 (sse_request "/") [] [] None eq_refl Hpath)
    as (_ & _ & [H _] & _).
  exact H.
Defined.

(** The third event of [sse_server.py] is a heartbeat. *)
Lemma sse_server_has_no_capabilities_event :
  firstn 3
    (event_types
       (exec (sse_server.do_GET (R := unreachable_backend) 1 (sse_request "/")) idle))
  <> bootstrap.
Proof. vm_compute. discriminate. Qed.

(** Two cycles of a stream with nothing published. *)
Lemma heartbeat_run :
  wants_stream (sse_request "/") = true /\
  path (sse_request "/") <> "/health" /\
  slept (exec (mcp_server.do_GET (R := unreachable_backend) 2 (sse_request "/")) idle) = 60.
Proof.
  split; [ reflexivity | split; [ discriminate | ] ].
  assert (Hpath : path (sse_request "/") <> "/health") by discriminate.
  destruct (one_heartbeat_per_cycle
              (R := unreachable_backend) 2 (sse_request "/") [] [] eq_refl Hpath)
    as [(_ & _ & H) _].
  exact H.
Defined.

(** In thirty seconds [sse_server.py] sends six heartbeats, not one. *)
Lemma sse_server_beats_every_five_seconds :
  slept (exec (sse_server.do_GET (R := unreachable_backend) 6 (sse_request "/")) idle) = 30 /\
  length
    (heartbeats_of
       (exec (sse_server.do_GET (R := unreachable_backend) 6 (sse_request "/")) idle))
  <> 1.
Proof. split; [ reflexivity | vm_compute; discriminate ]. Qed.

(** The scenario of the specification, the backend answering 503. *)
Lemma degraded_run :
  accepts 2 idle = true /\
  "What is VAEBZ?" <> "" /\
  exists r,
    eval (mcp_server.do_POST (R := overloaded_backend) 52
            (Parsed (query_request "What is VAEBZ?"))) idle
    = Ok tt /\
    wire (exec (mcp_server.do_POST (R := overloaded_backend) 52
                  (Parsed (query_request "What is VAEBZ?"))) idle)
    = wire idle ++ [json_head; Body r] /\
    degraded_about "What is VAEBZ?" r.
Proof.
  split; [ reflexivity | split; [ discriminate | ] ].
  assert (Hq : "What is VAEBZ?" <> "") by discriminate.
  destruct (failed_generation_is_reported_in_band
              (R := overloaded_backend) 52
              [("action", JStr "query"); ("data", JDict [("query", JStr "What is VAEBZ?")])]
              [("query", JStr "What is VAEBZ?")] "What is VAEBZ?" idle
              eq_refl eq_refl eq_refl Hq eq_refl)
    as (r & Hok & Hwire & _ & _ & _ & _ & Hdegraded).
  exists r. split; [ exact Hok | split; [ exact Hwire | exact Hdegraded ] ].
Defined.

(** The same scenario with a backend that cannot be reached: the result
    has [data: null], not an apology. *)
Lemma unreachable_backend_gives_null_data :
  ~ exists r,
      eval (mcp_server.do_POST_response (R := unreachable_backend) 52
              (Parsed (query_request "What is VAEBZ?"))) idle
      = Ok r /\
      degraded_about "What is VAEBZ?" r.
Proof.
  intros (r & Hr & d & dd & text & Hd & _ & Hdata & _).
  vm_compute in Hr. injection Hr as <-. injection Hd as <-.
  vm_compute in Hdata. discriminate Hdata.
Qed.

(** A health check on an idle server. *)
Lemma health_run :
  accepts 2 idle = true /\
  eval (mcp_server.do_GET (R := unreachable_backend) 0 (mkRequest "/health" [])) idle
  = Ok tt.
Proof.
  split; [ reflexivity | ].
  destruct (health_is_answered (R := unreachable_backend) 0 [] idle eq_refl)
    as [[H _] _].
  exact H.
Defined.

(** [sse_server.py] answers [/health] with a stream. *)
Lemma sse_server_has_no_health_answer :
  ~ exists cs,
      wire (exec (sse_server.do_GET (R := unreachable_backend) 1 (mkRequest "/health" []))
              idle)
      = wire idle ++ cs /\
      answers_health cs.
Proof.
  intros (cs & Hwire & d & Hcs & _).
  subst cs. vm_compute in Hwire. discriminate Hwire.
Qed.

(** * Further properties *)

(** ** Bodies that are not the expected object *)

Section OddBodies.
Context {R : Runtime}.

(** X1.  A POST whose body is JSON but a number, a boolean or [null]
    stops at ['action' in request_data] with a [TypeError] in the three
    [http.server] variants: nothing is written, nothing is published,
    since only [JSONDecodeError] is caught there.  The view of
    [simple_sse.py] catches it and answers with an error payload. *)
Theorem scalar_body_stops_post (p : positive) (j : json) (w : world) :
  scalar j = true ->
  mcp_server.do_POST (Z.pos p) (Parsed j) w = (w, Raise (TypeError (not_iterable j))) /\
  simple_mcp_server.do_POST (Z.pos p) (Parsed j) w
  = (w, Raise (TypeError (not_iterable j))) /\
  sse_server.do_POST (Z.pos p) (Parsed j) w = (w, Raise (TypeError (not_iterable j))) /\
  simple_sse.handle_request_payload (Ok j) w = (w, Ok (flask_error (not_iterable j))).
Proof.
  intro Hj. destruct j; try discriminate Hj; repeat split.
Qed.

(** X2.  A POST whose body is a JSON array: when no element is the
    string ["action"] it is handled as a request without action, and
    when one is, the lookup that follows raises, [.get] in
    [mcp_server.py] and [simple_mcp_server.py], the subscript in
    [sse_server.py]. *)
Theorem array_body_is_a_request_without_action (p : positive) (l : list json) (w : world) :
  let named := existsb (fun v => py_eq_str v "action") l in
  mcp_server.do_POST_response (Z.pos p) (Parsed (JList l)) w
  = (w, if named then Raise (AttributeError (no_get (JList l)))
        else Ok (mcp_ack "No action specified")) /\
  simple_mcp_server.do_POST_response (Z.pos p) (Parsed (JList l)) w
  = (w, if named then Raise (AttributeError (no_get (JList l)))
        else Ok (bare_ack "No action specified")) /\
  sse_server.do_POST_response (JList l) w
  = (w, if named then Raise (TypeError "list indices must be integers or slices, not str")
        else Ok (bare_ack "Request received")).
Proof.
  intro named. subst named.
  unfold mcp_server.do_POST_response, simple_mcp_server.do_POST_response,
    sse_server.do_POST_response, mcp_server.default_response, try_except, bind, lift,
    json_loads, rfile_read_decode, ret.
  cbn [Z.gtb Z.compare py_in py_get py_getitem].
  destruct (existsb (fun v => py_eq_str v "action") l); repeat split.
Qed.

Lemma mcp_default_response (message : string) (w : world) :
  mcp_server.default_response message w = (w, Ok (mcp_ack message)).
Proof. reflexivity. Qed.

(** X3.  [mcp_server.py] never rejects an action it does not route: a
    request object whose action is missing, or is any value other than
    the four routed names ([null], a number, an unknown name), is
    answered [status: ok] with a message that names the action, and
    nothing else is done. *)
Theorem unrouted_action_is_acknowledged (p : positive) (d : dict) (w : world) :
  routed_by_mcp (dict_get "action" d) = false ->
  mcp_server.do_POST_response (Z.pos p) (Parsed (JDict d)) w
  = (w, Ok (mcp_ack (acknowledgment (dict_get "action" d)))).
Proof.
  unfold routed_by_mcp, acknowledgment.
  unfold mcp_server.do_POST_response, mcp_server.default_response, try_except, bind, lift,
    json_loads, rfile_read_decode, ret.
  cbn [Z.gtb Z.compare py_in py_get].
  destruct (dict_get "action" d) as [ a | ]; cbn [is_some]; [ | reflexivity ].
  intro Hroute.
  apply orb_false_elim in Hroute. destruct Hroute as [Hroute Htools].
  apply orb_false_elim in Hroute. destruct Hroute as [Hroute Hcaps].
  apply orb_false_elim in Hroute. destruct Hroute as [Hquery Hemb].
  rewrite Hquery, Hemb, Hcaps, Htools. reflexivity.
Qed.

(** X4.  The two simpler servers route fewer actions: in
    [simple_mcp_server.py] every action other than [query] and
    [get_tools], [embedding] and [capabilities] included, is
    acknowledged with [status: ok] and an empty [data]; [sse_server.py]
    answers such a request with [Request received]. *)
Theorem simple_servers_acknowledge_the_rest (p : positive) (d : dict) (w : world) :
  routed_by_simple (dict_get "action" d) = false ->
  simple_mcp_server.do_POST_response (Z.pos p) (Parsed (JDict d)) w
  = (w, Ok (bare_ack (acknowledgment (dict_get "action" d)))) /\
  sse_server.do_POST_response (JDict d) w = (w, Ok (bare_ack "Request received")) /\
  simple_sse.handle_request_payload (Ok (JDict d)) w
  = (w, Ok (bare_ack "Request received")).
Proof.
  unfold routed_by_simple, acknowledgment.
  unfold simple_mcp_server.do_POST_response, sse_server.do_POST_response,
    simple_sse.handle_request_payload, try_except, bind, lift, json_loads, rfile_read_decode, ret.
  cbn [Z.gtb Z.compare py_in py_get py_getitem].
  destruct (dict_get "action" d) as [ a | ]; cbn [is_some]; [ | repeat split ].
  intro Hroute.
  apply orb_false_elim in Hroute. destruct Hroute as [Hquery Htools].
  rewrite Hquery, Htools. repeat split.
Qed.

(** X5.  When [Content-Length] is absent, zero or negative the body is
    never looked at: [mcp_server.py] and [simple_mcp_server.py] answer
    200 with the acknowledgment [Empty request] and publish it, and
    [sse_server.py] answers with the error page 400 [Empty request]. *)
Theorem empty_body_is_not_read (content_length : Z) (body : post_body) (w : world) :
  (content_length <= 0)%Z ->
  accepts 2 w = true ->
  (let w' := exec (mcp_server.do_POST content_length body) w in
   wire w' = wire w ++ [json_head; Body (mcp_ack "Empty request")] /\
   published_one (mcp_ack "Empty request") w w') /\
  (let w' := exec (simple_mcp_server.do_POST content_length body) w in
   wire w' = wire w ++ [json_head; Body (bare_ack "Empty request")] /\
   published_one (bare_ack "Empty request") w w') /\
  (let w' := exec (sse_server.do_POST content_length body) w in
   wire w' = wire w ++ [error_head; ErrorPage 400 "Empty request"] /\
   nothing_published w w').
Proof.
  intros Hlen Hpeer.
  assert (Hgt : (content_length >? 0)%Z = false).
  { rewrite Z.gtb_ltb. apply Z.ltb_ge. exact Hlen. }
  unfold published_one, nothing_published, exec, mcp_server.do_POST,
    simple_mcp_server.do_POST, sse_server.do_POST, mcp_server.do_POST_response,
    simple_mcp_server.do_POST_response, mcp_server.default_response, send_error, bind,
    send_response, send_header, end_headers, wfile_write, event_queue_put, ret.
  rewrite Hgt. cbn.
  destruct (accepts_two w Hpeer) as [E | [n E]]; rewrite E; cbn; rewrite ?E; cbn;
    rewrite <- ?app_assoc; repeat split.
Qed.
End OddBodies.

(** ** Requests the handlers were not written for *)

Section OddRequests.
Context {R : Runtime}.

(** X6.  When [data] is present but is not an object, [.get] fails on
    it.  [mcp_server.py] catches that and returns [status: error] with
    the text of the exception and [data: null], without calling the
    backend; [handle_query] of [simple_mcp_server.py] and
    [sse_server.py] lets the [AttributeError] out. *)
Theorem data_that_is_not_an_object (d : dict) (v : json) (w : world) :
  dict_get "data" d = Some v ->
  is_object v = false ->
  mcp_server.handle_query (JDict d) w = (w, Ok (query_error (no_get v))) /\
  mcp_server.handle_embedding (JDict d) w = (w, Ok (embedding_error (no_get v))) /\
  simple_mcp_server.handle_query (JDict d) w = (w, Raise (AttributeError (no_get v))) /\
  sse_server.handle_query (JDict d) w = (w, Raise (AttributeError (no_get v))).
Proof.
  intros Hdata Hv.
  unfold mcp_server.handle_query, mcp_server.handle_embedding,
    simple_mcp_server.handle_query, sse_server.handle_query, try_except, bind, lift.
  cbn [py_get]. rewrite Hdata.
  destruct v; try discriminate Hv; repeat split.
Qed.

(** X7.  A query that is not a string (a number, [true], a non-empty
    array or object) passes the emptiness test and then fails at
    [.lower()] in [simple_mcp_server.py] and [sse_server.py]: the
    handler raises, and the POST of [simple_mcp_server.py] ends there,
    with nothing written and nothing published. *)
Theorem query_that_is_not_text (p : positive) (d dd : dict) (v : json) (w : world) :
  dict_get "action" d = Some (JStr "query") ->
  dict_get "data" d = Some (JDict dd) ->
  dict_get "query" dd = Some v ->
  truthy v = true ->
  is_text v = false ->
  simple_mcp_server.handle_query (JDict d) w = (w, Raise (AttributeError (no_lower v))) /\
  sse_server.handle_query (JDict d) w = (w, Raise (AttributeError (no_lower v))) /\
  simple_mcp_server.do_POST (Z.pos p) (Parsed (JDict d)) w
  = (w, Raise (AttributeError (no_lower v))) /\
  sse_server.do_POST (Z.pos p) (Parsed (JDict d)) w
  = (w, Raise (AttributeError (no_lower v))).
Proof.
  intros Haction Hdata Hquery Htruthy Htext.
  assert (Hsimple : simple_mcp_server.handle_query (JDict d) w
                    = (w, Raise (AttributeError (no_lower v)))).
  { unfold simple_mcp_server.handle_query, bind, lift. cbn [py_get].
    rewrite Hdata. cbn [py_get]. rewrite Hquery, Htruthy.
    destruct v; try discriminate Htext; reflexivity. }
  assert (Hsse : sse_server.handle_query (JDict d) w
                 = (w, Raise (AttributeError (no_lower v)))).
  { unfold sse_server.handle_query, bind, lift. cbn [py_get].
    rewrite Hdata. cbn [py_get]. rewrite Hquery, Htruthy.
    destruct v; try discriminate Htext; reflexivity. }
  split; [ exact Hsimple | split; [ exact Hsse | split ] ].
  - unfold simple_mcp_server.do_POST, simple_mcp_server.do_POST_response,
      try_except, bind, lift, json_loads, rfile_read_decode, ret.
    cbn [Z.gtb Z.compare py_in py_get]. rewrite Haction. cbn [is_some py_eq_str].
    change (String.eqb "query" "query") with true. cbv beta iota.
    rewrite Hsimple. reflexivity.
  - unfold sse_server.do_POST, sse_server.do_POST_response,
      try_except, bind, lift, json_loads, rfile_read_decode, ret.
    cbn [Z.gtb Z.compare py_in py_getitem]. rewrite Haction. cbn [is_some py_eq_str].
    change (String.eqb "query" "query") with true. cbv beta iota.
    rewrite Hsse. reflexivity.
Qed.

(** X8.  The emptiness test is Python's truth test: a query that is
    [0], [false], [null], an empty array or an empty object is refused
    like the empty string, by every variant and before anything else is
    done. *)
Theorem falsy_query_is_refused (d : dict) (w : world) :
  falsy_field "query" d = true ->
  mcp_server.handle_query (JDict d) w = (w, Ok no_query_result) /\
  simple_mcp_server.handle_query (JDict d) w = (w, Ok no_query_result) /\
  sse_server.handle_query (JDict d) w = (w, Ok no_query_result_bare) /\
  simple_sse.handle_query (JDict d) w = (w, Ok no_query_result).
Proof.
  unfold falsy_field.
  unfold mcp_server.handle_query, simple_mcp_server.handle_query, sse_server.handle_query,
    simple_sse.handle_query, try_except, bind, lift.
  cbn [py_get].
  destruct (dict_get "data" d) as [ [ | | | | | | dd ] | ]; try discriminate;
    cbn [py_get].
  - destruct (dict_get "query" dd) as [ v | ].
    + intro H. apply negb_true_iff in H. rewrite H. repeat split.
    + intros _. repeat split.
  - intros _. repeat split.
Qed.

(** X9.  [handle_embedding] refuses a request whose [data.text] is
    missing or empty (or any value Python takes for false) with
    [status: error] and [data: null], and calls no backend: the world
    comes back as it was. *)
Theorem missing_text_is_refused (d : dict) (w : world) :
  falsy_field "text" d = true ->
  mcp_server.handle_embedding (JDict d) w = (w, Ok no_text_result).
Proof.
  unfold falsy_field.
  unfold mcp_server.handle_embedding, try_except, bind, lift.
  cbn [py_get].
  destruct (dict_get "data" d) as [ [ | | | | | | dd ] | ]; try discriminate;
    cbn [py_get].
  - destruct (dict_get "text" dd) as [ v | ].
    + intro H. apply negb_true_iff in H. rewrite H. reflexivity.
    + intros _. reflexivity.
  - intros _. reflexivity.
Qed.

(** X10.  Whatever JSON value it is given and whatever the backend
    does, a handler of [mcp_server.py] returns: its result is a mapping
    with a [status] and a [message], and the queue and the connection
    are as they were. *)
Theorem mcp_handlers_never_raise (data : json) (w : world) :
  (exists r, eval (mcp_server.handle_query data) w = Ok r /\ well_formed r) /\
  (exists r, eval (mcp_server.handle_embedding data) w = Ok r /\ well_formed r) /\
  same_connection w (exec (mcp_server.handle_query data) w) /\
  same_connection w (exec (mcp_server.handle_embedding data) w).
Proof.
  split; [ | split; [ | split ] ].
  - apply returns_and_yields;
      [ apply mcp_handle_query_total | apply mcp_handle_query_shape ].
  - apply returns_and_yields;
      [ apply mcp_handle_embedding_total | apply mcp_handle_embedding_shape ].
  - apply mcp_handle_query_quiet.
  - apply mcp_handle_embedding_quiet.
Qed.
End OddRequests.

(** ** The calls to the backend *)

Section BackendCalls.
Context {R : Runtime}.

Lemma truthy_fmt_contained (v : json) : contains (fmt v) (prompt_about v) = true.
Proof.
  unfold prompt_about.
  do 3 apply contains_after. apply contains_at_front.
Qed.

(** The run of [handle_embedding] on a text that is not empty. *)
Lemma mcp_embedding_run (d dd : dict) (text : json) (w : world) :
  dict_get "data" d = Some (JDict dd) ->
  dict_get "text" dd = Some text ->
  truthy text = true ->
  mcp_server.handle_embedding (JDict d) w
  = if String.eqb (environ_or "EMBEDDING_BINDING" "ollama") "ollama" then
      (called (embedding_call text) w,
       Ok match answer_of (embedding_call text) with
          | Failed msg => embedding_error msg
          | Responded resp =>
              if (status_code resp =? 200)%Z then
                match response_json resp with
                | Raise e => embedding_error (exn_str e)
                | Ok (JDict b) =>
                    match py_len (embedding_of b) with
                    | Ok n =>
                        embedding_processed n (environ_or "EMBEDDING_MODEL" "bge-m3:latest")
                    | Raise e => embedding_error (exn_str e)
                    end
                | Ok body => embedding_error (no_get body)
                end
              else embedding_unavailable (environ_or "EMBEDDING_MODEL" "bge-m3:latest")
          end)
    else (w, Ok (embedding_unavailable (environ_or "EMBEDDING_MODEL" "bge-m3:latest"))).
Proof.
  intros Hdata Htext Ht.
  unfold environ_or, answer_of, embedding_call, called, embedding_of,
    mcp_server.handle_embedding, try_except, bind, lift, os_environ_get, ret.
  cbn [py_get]. rewrite Hdata. cbn [py_get]. rewrite Htext, Ht. cbn [negb].
  destruct (String.eqb _ "ollama"); [ | reflexivity ].
  unfold requests_post, environ_or. cbn [call_endpoint call_payload call_timeout].
  destruct (backend _ _ _) as [resp | msg]; [ | reflexivity ].
  destruct (status_code resp =? 200)%Z; [ | reflexivity ].
  unfold response_json_call, lift.
  destruct (response_json resp) as [ body | e ]; [ | reflexivity ].
  destruct body; try reflexivity.
  cbn [py_get].
  destruct (py_len _); reflexivity.
Qed.

(** X11.  When the backend answers a generation call with 200 and a JSON
    object, [handle_query] of [mcp_server.py] returns [status: ok] with
    the object's [response] as the answer, or the text
    [No response from LLM] when the object has no such key, and one
    knowledge-base source.  It made exactly one call, with a timeout of
    60 seconds and streaming off, whose prompt holds the fixed context
    and the query. *)
Theorem answered_generation_is_passed_on
  (d dd b : dict) (v : json) (resp : response) (w : world) :
  dict_get "data" d = Some (JDict dd) ->
  dict_get "query" dd = Some v ->
  truthy v = true ->
  environ_or "LLM_BINDING" "ollama" = "ollama" ->
  answer_of (generate_call v) = Responded resp ->
  status_code resp = 200%Z ->
  response_json resp = Ok (JDict b) ->
  mcp_server.handle_query (JDict d) w
  = (called (generate_call v) w, Ok (query_processed (response_of b))) /\
  call_timeout (generate_call v) = 60%Z /\
  dict_get "stream" (match call_payload (generate_call v) with
                     | JDict p => p
                     | _ => []
                     end) = Some (JBool false) /\
  contains mcp_server.context (prompt_about v) = true /\
  contains (fmt v) (prompt_about v) = true.
Proof.
  intros Hdata Hquery Ht Hbinding Hanswer Hcode Hjson.
  split; [ | split; [ reflexivity | split; [ reflexivity | split ] ] ].
  - rewrite (mcp_generation_run d dd v w Hdata Hquery Ht).
    rewrite Hbinding, Hanswer, Hcode, Hjson. reflexivity.
  - unfold prompt_about. apply contains_after, contains_at_front.
  - apply truthy_fmt_contained.
Qed.

(** X12.  When the backend answers a generation call with 200 but
    [response.json()] raises, or gives JSON that is not an object,
    [handle_query] of [mcp_server.py] reports it in band:
    [status: error], in the message the text of the exception that
    was raised, whatever it is, and [data: null]. *)
Theorem unusable_generation_answer_is_an_error
  (d dd : dict) (v : json) (resp : response) (msg : string) (w : world) :
  dict_get "data" d = Some (JDict dd) ->
  dict_get "query" dd = Some v ->
  truthy v = true ->
  environ_or "LLM_BINDING" "ollama" = "ollama" ->
  answer_of (generate_call v) = Responded resp ->
  status_code resp = 200%Z ->
  unusable resp = Some msg ->
  mcp_server.handle_query (JDict d) w
  = (called (generate_call v) w, Ok (query_error msg)).
Proof.
  intros Hdata Hquery Ht Hbinding Hanswer Hcode Hbad.
  rewrite (mcp_generation_run d dd v w Hdata Hquery Ht).
  rewrite Hbinding, Hanswer, Hcode. cbn [String.eqb Ascii.eqb Bool.eqb Z.eqb Pos.eqb].
  unfold unusable in Hbad.
  destruct (response_json resp) as [ body | e ].
  - destruct body; inversion Hbad; reflexivity.
  - inversion Hbad. reflexivity.
Qed.

(** X13.  When the embedding service answers 200 with a JSON object,
    [handle_embedding] returns [status: ok] and as [dimensions] the
    length of the object's [embedding] array, 0 when the object has no
    such key; it made exactly one call, with a timeout of 30 seconds,
    that carries the text as its prompt. *)
Theorem embedding_reports_the_dimensions
  (d dd b : dict) (text : json) (vector : list json) (resp : response) (w : world) :
  dict_get "data" d = Some (JDict dd) ->
  dict_get "text" dd = Some text ->
  truthy text = true ->
  environ_or "EMBEDDING_BINDING" "ollama" = "ollama" ->
  answer_of (embedding_call text) = Responded resp ->
  status_code resp = 200%Z ->
  response_json resp = Ok (JDict b) ->
  embedding_of b = JList vector ->
  mcp_server.handle_embedding (JDict d) w
  = (called (embedding_call text) w,
     Ok (embedding_processed (Z.of_nat (length vector))
           (environ_or "EMBEDDING_MODEL" "bge-m3:latest"))) /\
  call_timeout (embedding_call text) = 30%Z /\
  dict_get "prompt" (match call_payload (embedding_call text) with
                     | JDict p => p
                     | _ => []
                     end) = Some text.
Proof.
  intros Hdata Htext Ht Hbinding Hanswer Hcode Hjson Hvector.
  split; [ | split; reflexivity ].
  rewrite (mcp_embedding_run d dd text w Hdata Htext Ht).
  rewrite Hbinding, Hanswer, Hcode, Hjson, Hvector. reflexivity.
Qed.

(** X14.  Every failure of an embedding request is reported in band.
    With a binding other than [ollama] no call is made and the result
    is [Embedding service unavailable] with [dimensions: 0].  Otherwise
    one call is made: if it fails, or if the 200 answer cannot be used,
    the result is [status: error] with the text of the exception and
    [data: null]; if the answer is not 200, it is
    [Embedding service unavailable]. *)
Theorem embedding_failures_are_reported_in_band
  (d dd : dict) (text : json) (w : world) :
  dict_get "data" d = Some (JDict dd) ->
  dict_get "text" dd = Some text ->
  truthy text = true ->
  let model := environ_or "EMBEDDING_MODEL" "bge-m3:latest" in
  let run := mcp_server.handle_embedding (JDict d) w in
  if String.eqb (environ_or "EMBEDDING_BINDING" "ollama") "ollama" then
    fst run = called (embedding_call text) w /\
    match answer_of (embedding_call text) with
    | Failed msg => snd run = Ok (embedding_error msg)
    | Responded resp =>
        if (status_code resp =? 200)%Z then
          match unusable resp with
          | Some msg => snd run = Ok (embedding_error msg)
          | None => exists r, snd run = Ok r /\ well_formed r
          end
        else snd run = Ok (embedding_unavailable model)
    end
  else run = (w, Ok (embedding_unavailable model)).
Proof.
  intros Hdata Htext Ht model run. subst model run.
  rewrite (mcp_embedding_run d dd text w Hdata Htext Ht).
  destruct (String.eqb _ "ollama"); [ | reflexivity ].
  cbn [fst snd]. split; [ reflexivity | ].
  destruct (answer_of _) as [resp | msg]; [ | reflexivity ].
  destruct (status_code resp =? 200)%Z; [ | reflexivity ].
  unfold unusable.
  destruct (response_json resp) as [ body | e ]; [ | reflexivity ].
  destruct body; try reflexivity.
  destruct (py_len _); eexists; (split; [ reflexivity | reflexivity ]).
Qed.
End BackendCalls.

(** ** Sessions: what is taken from the queue, and when a stream ends *)

#[export] Instance conserves_preorder : PreOrder conserves.
Proof.
  split.
  - intro w. split; [ reflexivity | ]. exists []. split; [ reflexivity | ].
    symmetry. apply app_nil_r.
  - intros w1 w2 w3 (Ho & x & Hq & Hg) (Ho' & y & Hq' & Hg').
    split; [ congruence | ].
    exists (x ++ y). rewrite Hq, Hq', Hg', Hg. rewrite !app_assoc. split; reflexivity.
Qed.

Section Exceptions.









End Exceptions.

Section Sessions.
Context {R : Runtime}.










(** One pass on a queue that holds an event, the peer connected. *)
Lemma poll_on_head (e : json) (q : list json) (w : world) :
  event_queue w = e :: q ->
  peer w = None ->
  mcp_server.poll_and_sleep w
  = (mkWorld q (outbound w) (wire w ++ message_lines [e]) None (pending w)
       (slept w + 1) (got w ++ [e]),
     Ok tt).
Proof.
  intros Hq Hp.
  unfold mcp_server.poll_and_sleep, mcp_server.send_sse_event, try_except, bind,
    event_queue_get_nowait, wfile_write, wfile_flush, time_sleep, ret.
  rewrite Hq. cbn. rewrite Hp. cbn. rewrite <- app_assoc. reflexivity.
Qed.

Lemma message_lines_app (a b : list json) :
  message_lines (a ++ b) = message_lines a ++ message_lines b.
Proof. unfold message_lines. apply flat_map_app. Qed.

(** [n] passes with the peer connected. *)
Lemma polls_deliver (n : nat) (w : world) :
  peer w = None ->
  for_range n mcp_server.poll_and_sleep w
  = (mkWorld (skipn n (event_queue w)) (outbound w)
       (wire w ++ message_lines (firstn n (event_queue w))) None (pending w)
       (slept w + n) (got w ++ firstn n (event_queue w)),
     Ok tt).
Proof.
  revert w. induction n as [ | n IH ]; intros w Hp.
  - cbn [for_range skipn firstn message_lines flat_map]. unfold ret.
    rewrite !app_nil_r, Nat.add_0_r. destruct w; cbn in *; subst; reflexivity.
  - cbn [for_range]. unfold bind.
    destruct (event_queue w) as [ | e q ] eqn:Hq.
    + rewrite (poll_on_empty w Hq).
      rewrite IH by exact Hp.
      cbn [event_queue set_slept outbound wire pending slept got].
      rewrite Hq, skipn_nil, firstn_nil. cbn [skipn firstn].
      do 2 f_equal. lia.
    + rewrite (poll_on_head e q w Hq Hp).
      rewrite IH by reflexivity.
      cbn [event_queue outbound wire pending slept got skipn firstn].
      change (e :: firstn n q) with ([e] ++ firstn n q).
      rewrite message_lines_app, !app_assoc.
      do 2 f_equal. lia.
Qed.

(** X16.  A connected stream delivers its backlog in order, one event a
    second: after [n] passes of the inner loop the first [n] queued
    events, or all of them if there are fewer, are off the queue and on
    the wire as [message] events in queue order, the rest of the queue
    is untouched, and [n] seconds have been slept. *)
Theorem backlog_is_delivered_in_order (n : nat) (w : world) :
  peer w = None ->
  let w' := exec (for_range n mcp_server.poll_and_sleep) w in
  let sent := firstn n (event_queue w) in
  eval (for_range n mcp_server.poll_and_sleep) w = Ok tt /\
  wire w' = wire w ++ message_lines sent /\
  map snd (events_of (message_lines sent)) = sent /\
  got w' = got w ++ sent /\
  event_queue w' = skipn n (event_queue w) /\
  slept w' = slept w + n.
Proof.
  intros Hp w' sent. subst w' sent. unfold exec, eval.
  rewrite (polls_deliver n w Hp). cbn [fst snd wire got event_queue slept].
  repeat split.
  induction (firstn n (event_queue w)) as [ | e l IH ]; [ reflexivity | ].
  cbn [message_lines flat_map app events_of map snd]. f_equal. exact IH.
Qed.

(** X17.  What a POST answers is what the stream delivers.  The
    response [do_POST] writes as its body joins the queue behind the
    events already there, and a connected session that polls once more
    than there were events before it writes them all, the response
    last, as the data of a [message] event. *)
Theorem post_response_reaches_the_stream
  (content_length : Z) (body : post_body) (w w1 s : world) (r : json) :
  mcp_server.do_POST_response content_length body w = (w1, Ok r) ->
  accepts 2 w = true ->
  peer s = None ->
  event_queue s = event_queue (exec (mcp_server.do_POST content_length body) w) ->
  let s' := exec (for_range (S (length (event_queue w))) mcp_server.poll_and_sleep) s in
  wire (exec (mcp_server.do_POST content_length body) w) = wire w ++ [json_head; Body r] /\
  wire s' = wire s ++ message_lines (event_queue w) ++ [EventLine "message"; DataLine r] /\
  event_queue s' = [].
Proof.
  intros Hrun Hpeer Hs Hq s'. subst s'.
  destruct (mcp_post_answers _ _ _ _ _ Hrun Hpeer) as (Hwire & _ & Hpub).
  unfold published_one in Hpub. rewrite Hpub in Hq.
  split; [ exact Hwire | ].
  unfold exec. rewrite (polls_deliver _ s Hs). cbn [fst wire event_queue].
  rewrite Hq.
  assert (Hlen : length (event_queue w ++ [r]) <= S (length (event_queue w))).
  { rewrite length_app. cbn. lia. }
  rewrite (firstn_all2 _ Hlen), (skipn_all2 _ Hlen).
  rewrite message_lines_app. split; reflexivity.
Qed.

(** X18.  An event taken for a client that has gone is lost.  When the
    first write of a pass fails, the event is already off the queue;
    the loop ends there, [do_GET] returns, and the event is on no
    wire and not back on the queue. *)
Theorem event_taken_for_a_gone_client_is_lost
  (fuel : nat) (e : json) (q : list json) (w : world) :
  peer w = Some 0 ->
  event_queue w = e :: q ->
  let w' := exec (mcp_server.stream (S fuel)) w in
  eval (mcp_server.stream (S fuel)) w = Ok tt /\
  event_queue w' = q /\
  got w' = got w ++ [e] /\
  wire w' = wire w.
Proof.
  intros Hp Hq w'. subst w'.
  assert (Hpoll : mcp_server.poll_and_sleep w
                  = (set_got q (got w ++ [e]) w, Raise BrokenPipeError)).
  { unfold mcp_server.poll_and_sleep, mcp_server.send_sse_event, try_except, bind,
      event_queue_get_nowait, wfile_write.
    rewrite Hq. cbn. rewrite Hp. reflexivity. }
  assert (Hrun : mcp_server.stream (S fuel) w = (set_got q (got w ++ [e]) w, Ok tt)).
  { unfold mcp_server.stream, mcp_server.cycle. cbn [while_true].
    change (for_range 30 mcp_server.poll_and_sleep)
      with (mcp_server.poll_and_sleep ;; for_range 29 mcp_server.poll_and_sleep).
    unfold try_except, bind. rewrite Hpoll. reflexivity. }
  unfold exec, eval. rewrite Hrun. repeat split.
Qed.

Lemma get_conserves : respects conserves event_queue_get_nowait.
Proof.
  intro w. unfold exec, event_queue_get_nowait, conserves.
  destruct (event_queue w) as [ | e q ] eqn:Hq; cbn.
  - split; [ reflexivity | ]. exists []. rewrite Hq. split; [ reflexivity | ].
    symmetry. apply app_nil_r.
  - split; [ reflexivity | ]. exists [e]. split; reflexivity.
Qed.

Lemma io_only_conserves (w w' : world) : io_only w w' -> conserves w w'.
Proof.
  intros (Hq & Hg & Ho & _). split; [ exact Ho | ].
  exists []. rewrite Hq, Hg, app_nil_r. split; reflexivity.
Qed.

Lemma io_only_then_conserves {A : Type} (m : M A) :
  respects io_only m -> respects conserves m.
Proof. intros H w. apply io_only_conserves, H. Qed.

Lemma environ_conserves (name default : string) :
  respects conserves (os_environ_get name default).
Proof. intro w. reflexivity. Qed.

(** X19.  A GET never puts an event on the queue, never calls the
    backend, and takes events only from the head of the queue: what it
    took, followed by what it left, is the queue it found.  The GET of
    [sse_server.py] does not touch the queue at all. *)
Theorem sessions_only_take_from_the_head (fuel : nat) (req : request) :
  respects conserves (mcp_server.do_GET fuel req) /\
  respects conserves (simple_mcp_server.do_GET fuel req) /\
  respects io_only (sse_server.do_GET fuel req).
Proof.
  pose proof get_conserves as Hget.
  pose proof environ_conserves as Henv.
  pose proof (@io_only_then_conserves) as Hio.
  split; [ | split ].
  - unfold mcp_server.do_GET, mcp_server.stream, mcp_server.cycle,
      mcp_server.poll_and_sleep, mcp_server.send_heartbeat, mcp_server.send_sse_event,
      mcp_server.handle_capabilities, wfile_flush.
    repeat first [ respects_step | apply Hget | apply Henv
                 | apply Hio; solve [ auto with respects_db ] ].
  - unfold simple_mcp_server.do_GET, simple_mcp_server.stream, simple_mcp_server.cycle,
      simple_mcp_server.poll_and_sleep, simple_mcp_server.send_heartbeat,
      simple_mcp_server.reply_json, simple_mcp_server.send_sse_event, wfile_flush.
    repeat first [ respects_step | apply Hget | apply Henv
                 | apply Hio; solve [ auto with respects_db ] ].
  - unfold sse_server.do_GET, sse_server.send_heartbeat, sse_server.send_sse_event,
      wfile_flush.
    repeat respects_step.
Qed.

(** X28.  One pass of the outer loop, the peer connected: at most
    thirty queued events are delivered, in order, thirty seconds are
    slept whether there were events or not, and one heartbeat follows,
    stamped with the time after the sleep; what was queued beyond
    thirty waits for the next pass. *)
Theorem cycle_delivers_then_beats (w : world) :
  peer w = None ->
  let w' := exec mcp_server.cycle w in
  eval mcp_server.cycle w = Ok tt /\
  wire w'
  = wire w ++ message_lines (firstn 30 (event_queue w)) ++ beat_lines [slept w + 30] /\
  event_queue w' = skipn 30 (event_queue w) /\
  got w' = got w ++ firstn 30 (event_queue w) /\
  slept w' = slept w + 30.
Proof.
  intros Hp w'. subst w'.
  assert (Hrun : mcp_server.cycle w
                 = (mkWorld (skipn 30 (event_queue w)) (outbound w)
                      ((wire w ++ message_lines (firstn 30 (event_queue w)))
                       ++ beat_lines [slept w + 30])
                      None (pending w) (slept w + 30)
                      (got w ++ firstn 30 (event_queue w)),
                    Ok tt)).
  { unfold mcp_server.cycle, bind. rewrite (polls_deliver 30 w Hp).
    rewrite heartbeat_alive by reflexivity. reflexivity. }
  unfold exec, eval. rewrite Hrun. cbn [fst snd wire event_queue got slept].
  rewrite <- app_assoc. repeat split.
Qed.
End Sessions.

(** ** The variants that answer without a backend *)

Section Canned.
Context {R : Runtime}.

Lemma lower_app (a b : string) : lower (a ++ b) = (lower a ++ lower b)%string.
Proof.
  induction a as [ | c a IH ]; cbn [String.append lower]; [ reflexivity | ].
  rewrite IH. reflexivity.
Qed.

Lemma mention_found (pre name post : string) :
  lower name = "vaebz" ->
  contains "vaebz" (lower (pre ++ name ++ post)) = true.
Proof.
  intro H. rewrite !lower_app, H.
  apply contains_after, contains_at_front.
Qed.

Lemma mention_is_text (pre name post : string) :
  lower name = "vaebz" ->
  truthy (JStr (pre ++ name ++ post)) = true.
Proof.
  intro H. cbn [truthy].
  destruct pre; [ | reflexivity ].
  destruct name; [ discriminate H | reflexivity ].
Qed.

(** The three copies of [handle_query] on a query that is text. *)
Lemma canned_run (d dd : dict) (q : string) (w : world) :
  dict_get "data" d = Some (JDict dd) ->
  dict_get "query" dd = Some (JStr q) ->
  truthy (JStr q) = true ->
  simple_mcp_server.handle_query (JDict d) w = (w, Ok (canned_answer q)) /\
  sse_server.handle_query (JDict d) w = (w, Ok (canned_answer q)) /\
  simple_sse.handle_query (JDict d) w = (w, Ok (canned_answer q)).
Proof.
  intros Hdata Hquery Ht.
  unfold simple_mcp_server.handle_query, sse_server.handle_query, simple_sse.handle_query,
    bind, lift, ret.
  cbn [py_get]. rewrite Hdata. cbn [py_get]. rewrite Hquery, Ht.
  repeat split.
Qed.

(** X20.  A query that mentions [vaebz], in any letter case and anywhere
    in the text, gets the fixed company answer from
    [simple_mcp_server.py], [sse_server.py] and [simple_sse.py], with
    one knowledge-base source; nothing else of the query is used. *)
Theorem mention_of_vaebz_gets_the_company_answer
  (d dd : dict) (pre name post : string) (w : world) :
  dict_get "data" d = Some (JDict dd) ->
  dict_get "query" dd = Some (JStr (pre ++ name ++ post)) ->
  lower name = "vaebz" ->
  simple_mcp_server.handle_query (JDict d) w = (w, Ok (query_processed (JStr canned_vaebz))) /\
  sse_server.handle_query (JDict d) w = (w, Ok (query_processed (JStr canned_vaebz))) /\
  simple_sse.handle_query (JDict d) w = (w, Ok (query_processed (JStr canned_vaebz))).
Proof.
  intros Hdata Hquery Hname.
  pose proof (canned_run d dd _ w Hdata Hquery (mention_is_text pre name post Hname)) as H.
  unfold canned_answer in H. rewrite (mention_found pre name post Hname) in H.
  exact H.
Qed.

(** X21.  Any other query that is a non-empty string is answered
    [status: ok] with a sentence that quotes the query as it was sent,
    by the three variants alike. *)
Theorem other_queries_are_quoted_back (d dd : dict) (q : string) (w : world) :
  dict_get "data" d = Some (JDict dd) ->
  dict_get "query" dd = Some (JStr q) ->
  q <> "" ->
  contains "vaebz" (lower q) = false ->
  let text := (canned_head ++ q ++ canned_tail)%string in
  simple_mcp_server.handle_query (JDict d) w = (w, Ok (query_processed (JStr text))) /\
  sse_server.handle_query (JDict d) w = (w, Ok (query_processed (JStr text))) /\
  simple_sse.handle_query (JDict d) w = (w, Ok (query_processed (JStr text))) /\
  contains q text = true.
Proof.
  intros Hdata Hquery Hq Hno text. subst text.
  assert (Ht : truthy (JStr q) = true).
  { cbn. destruct (String.eqb_spec q ""); [ contradiction | reflexivity ]. }
  destruct (canned_run d dd q w Hdata Hquery Ht) as (H1 & H2 & H3).
  unfold canned_answer in *. rewrite Hno in *.
  repeat split; try assumption.
  apply contains_after, contains_at_front.
Qed.
End Canned.

(** ** The POST view of [simple_sse.py] *)

Section FlaskPost.
Context {R : Runtime}.

Lemma flask_handle_query_is_simple (data : json) :
  simple_sse.handle_query data = simple_mcp_server.handle_query data.
Proof. reflexivity. Qed.

Lemma simple_handle_query_keeps_world (data : json) (w : world) :
  fst (simple_mcp_server.handle_query data w) = w.
Proof.
  unfold simple_mcp_server.handle_query, bind, lift, ret.
  destruct (py_get data "data" (JDict [])) as [ d | e ]; [ | reflexivity ].
  destruct (py_get d "query" (JStr "")) as [ query_text | e ]; [ | reflexivity ].
  destruct (negb (truthy query_text)); [ reflexivity | ].
  destruct (py_lower query_text); reflexivity.
Qed.

(** X22.  The POST view of [simple_sse.py] never fails: whatever
    [get_json] gave, a value of any shape or an exception, the view
    returns a payload with a [status] and a [message], and when
    something was raised the payload is [status: error] with the text
    of the exception and an empty [data] object. *)
Theorem flask_post_always_answers (posted : result json) (w : world) :
  (exists r,
      simple_sse.handle_request_payload posted w = (w, Ok r) /\ well_formed r) /\
  match posted with
  | Raise e =>
      simple_sse.handle_request_payload posted w = (w, Ok (flask_error (exn_str e)))
  | Ok request_data =>
      match py_in "action" request_data with
      | Raise e =>
          simple_sse.handle_request_payload posted w = (w, Ok (flask_error (exn_str e)))
      | Ok _ => True
      end
  end.
Proof.
  split.
  - unfold simple_sse.handle_request_payload, try_except, bind, lift, ret, any_exception.
    destruct posted as [ request_data | e ]; [ | eexists; split; reflexivity ].
    destruct (py_in "action" request_data) as [ has_action | e ];
      [ | eexists; split; reflexivity ].
    assert (Hq : exists r,
               match simple_sse.handle_query request_data w with
               | (w', Ok a) => (w', Ok a)
               | (w', Raise e) =>
                   (w', Ok (JDict
                              [ ("status", JStr "error");
                                ("message", JStr ("Error: " ++ exn_str e));
                                ("data", JDict []) ]))
               end = (w, Ok r) /\ well_formed r).
    { rewrite flask_handle_query_is_simple.
      pose proof (simple_handle_query_keeps_world request_data w) as Hw.
      pose proof (simple_handle_query_shape request_data w) as Hs.
      unfold eval in Hs.
      destruct (simple_mcp_server.handle_query request_data w) as [w' [ r | e ]];
        cbn [fst snd on_result] in *; subst w'; eexists; split; try reflexivity.
      exact Hs. }
    destruct has_action.
    + destruct (py_getitem request_data "action") as [ action | e ];
        [ | eexists; split; reflexivity ].
      destruct (py_eq_str action "query"); [ exact Hq | ].
      destruct (py_eq_str action "get_tools"); eexists; split; reflexivity.
    + eexists; split; reflexivity.
  - unfold simple_sse.handle_request_payload, try_except, bind, lift, ret, any_exception.
    destruct posted as [ request_data | e ]; [ | reflexivity ].
    destruct (py_in "action" request_data) as [ has_action | e ]; [ exact I | reflexivity ].
Qed.

(** X23.  On a query the view of [simple_sse.py] gives what
    [handle_query] of [simple_mcp_server.py] returns, and where that
    one raises, an error payload with the text of what it raised. *)
Theorem flask_query_is_the_simple_query_made_safe (d : dict) (w : world) :
  dict_get "action" d = Some (JStr "query") ->
  simple_sse.handle_request_payload (Ok (JDict d)) w
  = (w,
     Ok match eval (simple_mcp_server.handle_query (JDict d)) w with
        | Ok r => r
        | Raise e => flask_error (exn_str e)
        end).
Proof.
  intro Haction.
  unfold simple_sse.handle_request_payload, try_except, bind, lift, ret, any_exception.
  cbn [py_in py_getitem]. rewrite Haction. cbn [is_some py_eq_str].
  change (String.eqb "query" "query") with true. cbv beta iota.
  rewrite flask_handle_query_is_simple.
  pose proof (simple_handle_query_keeps_world (JDict d) w) as Hw.
  unfold eval.
  destruct (simple_mcp_server.handle_query (JDict d) w) as [w' [ r | e ]];
    cbn [fst snd] in *; subst w'; reflexivity.
Qed.
End FlaskPost.

(** ** GET: what selects a stream, and what the first events carry *)

Section Surfaces.
Context {R : Runtime}.

Lemma mcp_capabilities_run (w : world) :
  mcp_server.handle_capabilities w = (w, Ok mcp_capabilities).
Proof. reflexivity. Qed.

(** The opening of [mcp_server.py] with its payloads. *)
Lemma mcp_opening_payloads (rest : M unit) (w : world) :
  respects extends rest ->
  accepts 7 w = true ->
  exists extra,
    wire (exec (send_response 200 ;;
                send_header "Content-Type" "text/event-stream" ;;
                send_header "Cache-Control" "no-cache" ;;
                send_header "Connection" "keep-alive" ;;
                end_headers ;;
                mcp_server.send_sse_event "connected"
                  (JDict
                     [ ("status", JStr "connected");
                       ("message", JStr "LightRAG MCP Server Connected") ]) ;;
                mcp_server.send_sse_event "tools"
                  (JDict [("type", JStr "tools"); ("tools", mcp_server.TOOLS)]) ;;
                capabilities <- mcp_server.handle_capabilities ;;
                mcp_server.send_sse_event "capabilities" capabilities ;;
                rest) w)
    = wire w
      ++ [ stream_head;
           EventLine "connected"; DataLine connected_payload;
           EventLine "tools"; DataLine (tools_payload mcp_server.TOOLS);
           EventLine "capabilities"; DataLine mcp_capabilities ]
      ++ extra.
Proof.
  intros Hrest Hpeer.
  unfold exec, bind, send_response, send_header, end_headers, mcp_server.send_sse_event,
    mcp_server.handle_capabilities, os_environ_get, ret, wfile_flush, wfile_write.
  cbn.
  destruct (accepts_seven w Hpeer) as [E | [n E]]; rewrite E; cbn;
    match goal with
    | |- context [rest ?w1] =>
        destruct (Hrest w1) as [extra Hextra];
        exists extra;
        unfold exec in Hextra; rewrite Hextra; cbn; rewrite <- !app_assoc; reflexivity
    end.
Qed.

Lemma simple_opening_payloads (rest : M unit) (w : world) :
  respects extends rest ->
  accepts 7 w = true ->
  exists extra,
    wire (exec (send_response 200 ;;
                send_header "Content-Type" "text/event-stream" ;;
                send_header "Cache-Control" "no-cache" ;;
                send_header "Connection" "keep-alive" ;;
                end_headers ;;
                simple_mcp_server.send_sse_event "connected"
                  (JDict
                     [ ("status", JStr "connected");
                       ("message", JStr "LightRAG MCP Server Connected") ]) ;;
                simple_mcp_server.send_sse_event "tools"
                  (JDict [("type", JStr "tools"); ("tools", simple_mcp_server.TOOLS)]) ;;
                simple_mcp_server.send_sse_event "capabilities"
                  simple_mcp_server.capabilities ;;
                rest) w)
    = wire w
      ++ [ stream_head;
           EventLine "connected"; DataLine connected_payload;
           EventLine "tools"; DataLine (tools_payload simple_mcp_server.TOOLS);
           EventLine "capabilities"; DataLine simple_mcp_server.capabilities ]
      ++ extra.
Proof.
  intros Hrest Hpeer.
  unfold exec, bind, send_response, send_header, end_headers,
    simple_mcp_server.send_sse_event, ret, wfile_flush, wfile_write.
  cbn.
  destruct (accepts_seven w Hpeer) as [E | [n E]]; rewrite E; cbn;
    match goal with
    | |- context [rest ?w1] =>
        destruct (Hrest w1) as [extra Hextra];
        exists extra;
        unfold exec in Hextra; rewrite Hextra; cbn; rewrite <- !app_assoc; reflexivity
    end.
Qed.

Lemma opened_payloads (w : world) (d1 d2 d3 : json) (extra : list chunk) :
  wire w
  = [] ++ [ stream_head;
            EventLine "connected"; DataLine d1;
            EventLine "tools"; DataLine d2;
            EventLine "capabilities"; DataLine d3 ] ++ extra ->
  firstn 3 (events_of (wire w))
  = [("connected", d1); ("tools", d2); ("capabilities", d3)].
Proof. intro H. rewrite H. reflexivity. Qed.

(** X24.  The bootstrap events carry what a POST would answer.  In
    [mcp_server.py] the data of the [capabilities] event is the
    response to a POST with action [capabilities], and the catalogue
    in the [tools] event is the one in the response to [get_tools]; in
    [simple_mcp_server.py] the data of the [capabilities] event is the
    body of a GET of [/capabilities], and its [tools] event carries the
    catalogue of its [get_tools] response. *)
Theorem bootstrap_carries_the_post_answers
  (fuel : nat) (p : positive) (req : request) (q : list json) (calls : list call)
  (budget : option nat) (w : world) :
  wants_stream req = true ->
  path req <> "/health" ->
  accepts 7 (connect q calls budget) = true ->
  (exists capabilities tools,
      firstn 3 (events_of (wire (exec (mcp_server.do_GET fuel req) (connect q calls budget))))
      = [ ("connected", connected_payload);
          ("tools", tools_payload tools);
          ("capabilities", capabilities) ] /\
      mcp_server.do_POST_response (Z.pos p)
        (Parsed (JDict [("action", JStr "capabilities")])) w
      = (w, Ok capabilities) /\
      mcp_server.do_POST_response (Z.pos p)
        (Parsed (JDict [("action", JStr "get_tools")])) w
      = (w, Ok (tools_retrieved tools))) /\
  (exists capabilities tools,
      firstn 3
        (events_of (wire (exec (simple_mcp_server.do_GET fuel req) (connect q calls budget))))
      = [ ("connected", connected_payload);
          ("tools", tools_payload tools);
          ("capabilities", capabilities) ] /\
      simple_mcp_server.do_POST_response (Z.pos p)
        (Parsed (JDict [("action", JStr "get_tools")])) w
      = (w, Ok (tools_retrieved tools)) /\
      forall w0,
        accepts 2 w0 = true ->
        wire (exec (simple_mcp_server.do_GET fuel (mkRequest "/capabilities" [])) w0)
        = wire w0 ++ [json_head; Body capabilities]).
Proof.
  intros Hwants Hpath Hpeer.
  apply String.eqb_neq in Hpath. unfold wants_stream in Hwants.
  split.
  - exists mcp_capabilities, mcp_server.TOOLS.
    split; [ | split; reflexivity ].
    unfold mcp_server.do_GET. rewrite Hpath, Hwants.
    destruct (mcp_opening_payloads (mcp_server.stream fuel) _
                (mcp_stream_extends fuel) Hpeer) as (extra & H).
    exact (opened_payloads _ _ _ _ _ H).
  - exists simple_mcp_server.capabilities, simple_mcp_server.TOOLS.
    split; [ | split; [ reflexivity | ] ].
    + unfold simple_mcp_server.do_GET. rewrite Hwants.
      rewrite simple_stream_is_mcp_stream.
      destruct (simple_opening_payloads (mcp_server.stream fuel) _
                  (mcp_stream_extends fuel) Hpeer) as (extra & H).
      exact (opened_payloads _ _ _ _ _ H).
    + intros w0 Hw0.
      destruct (json_reply_run simple_mcp_server.capabilities w0 Hw0) as (_ & Hwire & _).
      exact Hwire.
Qed.

Lemma accept_found (k v : string) (hs : list (string * string)) :
  lower k = "accept" ->
  headers_get "Accept" "" ((k, v) :: hs) = v.
Proof. intro H. cbn [headers_get]. rewrite H. reflexivity. Qed.

Lemma accept_missing (hs : list (string * string)) :
  forallb (fun kv => negb (String.eqb (lower (fst kv)) "accept")) hs = true ->
  headers_get "Accept" "" hs = "".
Proof.
  induction hs as [ | [k v] hs IH ]; [ reflexivity | ].
  cbn [forallb fst headers_get]. intro H. apply andb_true_iff in H as [Hk Hrest].
  apply negb_true_iff in Hk.
  change (lower "Accept") with "accept". rewrite Hk. exact (IH Hrest).
Qed.

Lemma flask_loop_extends (fuel : nat) : respects extends (simple_sse.generate fuel).
Proof. unfold simple_sse.generate, simple_sse.yield. repeat respects_step. Qed.

Lemma accept_is_the_first_so_named (before after : list (string * string))
    (k v : string) :
  without_accept before = true ->
  lower k = "accept" ->
  headers_get "Accept" "" (before ++ (k, v) :: after) = v.
Proof.
  intros Hbefore Hk.
  induction before as [ | [k0 v0] before IH ].
  - apply accept_found. exact Hk.
  - cbn [without_accept forallb fst] in Hbefore.
    apply andb_true_iff in Hbefore as [Hk0 Hrest].
    apply negb_true_iff in Hk0.
    cbn [app headers_get].
    change (lower "Accept") with "accept". rewrite Hk0. exact (IH Hrest).
Qed.

(** X25.  A GET is a stream request when the value of its [Accept]
    header, wherever the header stands among the others and in
    whatever letter case its name is written, contains
    [text/event-stream] anywhere: [mcp_server.py] (off [/health]) and
    [simple_mcp_server.py] then write the stream head first, and
    [simple_sse.py] a 200 with the event-stream content type.  When
    the header is repeated, it is the first one that counts. *)
Theorem accept_is_matched_as_a_substring
  (fuel : nat) (req : request) (k pre post : string)
  (before after : list (string * string)) (w : world) :
  headers req = before ++ (k, pre ++ "text/event-stream" ++ post)%string :: after ->
  without_accept before = true ->
  lower k = "accept" ->
  path req <> "/health" ->
  accepts 1 w = true ->
  (exists extra,
      wire (exec (mcp_server.do_GET fuel req) w) = wire w ++ stream_head :: extra) /\
  (exists extra,
      wire (exec (simple_mcp_server.do_GET fuel req) w) = wire w ++ stream_head :: extra) /\
  (exists extra,
      wire (exec (simple_sse.sse fuel req) w)
      = wire w ++ Head 200 [("Content-Type", "text/event-stream")] :: extra).
Proof.
  intros Hheaders Hbefore Hk Hpath Hpeer.
  apply String.eqb_neq in Hpath.
  assert (Hwants : contains "text/event-stream" (headers_get "Accept" "" (headers req))
                   = true).
  { rewrite Hheaders, (accept_is_the_first_so_named before after k _ Hbefore Hk).
    apply contains_after, contains_at_front. }
  split; [ | split ].
  - unfold mcp_server.do_GET. rewrite Hpath, Hwants.
    apply stream_head_then; [ | exact Hpeer ].
    unfold mcp_server.handle_capabilities, mcp_server.send_sse_event, wfile_flush.
    pose proof (mcp_stream_extends fuel).
    repeat first [ respects_step | assumption ].
  - unfold simple_mcp_server.do_GET. rewrite Hwants.
    apply stream_head_then; [ | exact Hpeer ].
    rewrite simple_stream_is_mcp_stream.
    unfold simple_mcp_server.send_sse_event, wfile_flush.
    pose proof (mcp_stream_extends fuel).
    repeat first [ respects_step | assumption ].
  - unfold simple_sse.sse. rewrite Hwants.
    pose proof (flask_loop_extends fuel) as Hrest.
    revert Hrest. generalize (simple_sse.generate fuel). intros rest Hrest.
    unfold exec, bind, send_response, send_header, end_headers, wfile_write. cbn.
    destruct (accepts_one w Hpeer) as [E | [n E]]; rewrite E; cbn;
      match goal with
      | |- context [rest ?w1] =>
          destruct (Hrest w1) as [extra Hextra]; exists extra;
          unfold exec in Hextra; rewrite Hextra; cbn; rewrite <- app_assoc; reflexivity
      end.
Qed.

(** X26.  A GET without an [Accept] header is never a stream.
    [mcp_server.py] (off [/health]) answers it with a 200 and the
    plain-text banner, and [simple_sse.py] with its JSON status page;
    both return at once, write nothing more, and leave the queue as it
    was. *)
Theorem get_without_accept_is_not_a_stream (fuel : nat) (req : request) (w : world) :
  no_accept req = true ->
  path req <> "/health" ->
  accepts 2 w = true ->
  (eval (mcp_server.do_GET fuel req) w = Ok tt /\
   wire (exec (mcp_server.do_GET fuel req) w)
   = wire w ++ [text_head; Text "LightRAG MCP Server Running"] /\
   event_queue (exec (mcp_server.do_GET fuel req) w) = event_queue w) /\
  (eval (simple_sse.sse fuel req) w = Ok tt /\
   wire (exec (simple_sse.sse fuel req) w) = wire w ++ [json_head; Body flask_status_page] /\
   event_queue (exec (simple_sse.sse fuel req) w) = event_queue w).
Proof.
  intros Hno Hpath Hpeer.
  apply String.eqb_neq in Hpath.
  assert (Hplain : contains "text/event-stream" (headers_get "Accept" "" (headers req))
                   = false).
  { rewrite (accept_missing _ Hno). reflexivity. }
  split.
  - unfold mcp_server.do_GET. rewrite Hpath, Hplain.
    unfold eval, exec, bind, send_response, send_header, end_headers, wfile_write.
    cbn.
    destruct (accepts_two w Hpeer) as [E | [n E]]; rewrite E; cbn; rewrite ?E; cbn;
      rewrite <- ?app_assoc; repeat split.
  - unfold simple_sse.sse, simple_sse.jsonify. rewrite Hplain.
    exact (json_reply_run flask_status_page w Hpeer).
Qed.

(** X27.  In [simple_mcp_server.py] the catalogue can be had by two
    routes with the same body: a GET of [/tools] that asks for no
    stream, and a POST with action [get_tools].  Only the POST
    publishes it to the queue. *)
Theorem tools_by_get_and_by_post
  (fuel : nat) (p : positive) (req : request) (d : dict) (w w2 : world) :
  path req = "/tools" ->
  wants_stream req = false ->
  dict_get "action" d = Some (JStr "get_tools") ->
  accepts 2 w = true ->
  accepts 2 w2 = true ->
  let by_get := exec (simple_mcp_server.do_GET fuel req) w in
  let by_post := exec (simple_mcp_server.do_POST (Z.pos p) (Parsed (JDict d))) w2 in
  wire by_get = wire w ++ [json_head; Body (tools_retrieved simple_mcp_server.TOOLS)] /\
  wire by_post = wire w2 ++ [json_head; Body (tools_retrieved simple_mcp_server.TOOLS)] /\
  nothing_published w by_get /\
  published_one (tools_retrieved simple_mcp_server.TOOLS) w2 by_post.
Proof.
  intros Hpath Hwants Haction Hw Hw2 by_get by_post. subst by_get by_post.
  assert (Hget : simple_mcp_server.do_GET fuel req
                 = simple_mcp_server.reply_json (tools_retrieved simple_mcp_server.TOOLS)).
  { unfold simple_mcp_server.do_GET. unfold wants_stream in Hwants.
    rewrite Hwants, Hpath. reflexivity. }
  assert (Hpost : simple_mcp_server.do_POST_response (Z.pos p) (Parsed (JDict d)) w2
                  = (w2, Ok (tools_retrieved simple_mcp_server.TOOLS))).
  { unfold simple_mcp_server.do_POST_response, try_except, bind, lift, json_loads, rfile_read_decode, ret.
    cbn [Z.gtb Z.compare py_in py_get]. rewrite Haction. reflexivity. }
  rewrite Hget. unfold simple_mcp_server.reply_json.
  destruct (json_reply_run (tools_retrieved simple_mcp_server.TOOLS) w Hw)
    as (_ & Hwire & Hnone).
  split; [ exact Hwire | ].
  split; [ | split; [ exact Hnone | ] ].
  - unfold simple_mcp_server.do_POST, exec, bind.
    rewrite Hpost. unfold send_response, send_header, end_headers, wfile_write,
      event_queue_put. cbn.
    destruct (accepts_two w2 Hw2) as [E | [n E]]; rewrite E; cbn; rewrite ?E; cbn;
      rewrite <- ?app_assoc; reflexivity.
  - unfold published_one, simple_mcp_server.do_POST, exec, bind.
    rewrite Hpost. unfold send_response, send_header, end_headers, wfile_write,
      event_queue_put. cbn.
    destruct (accepts_two w2 Hw2) as [E | [n E]]; rewrite E; cbn; rewrite ?E; cbn;
      reflexivity.
Qed.
End Surfaces.

(** ** Concrete runs of the further properties *)

(** A POST whose body is the number 7. *)
Lemma scalar_body_run :
  scalar (JInt 7) = true /\
  mcp_server.do_POST (R := unreachable_backend) 1 (Parsed (JInt 7)) idle
  = (idle, Raise (TypeError "argument of type 'int' is not iterable")).
Proof.
  split; [ reflexivity | ].
  destruct (scalar_body_stops_post (R := unreachable_backend) 1 (JInt 7) idle eq_refl)
    as [H _].
  exact H.
Defined.

(** An action [mcp_server.py] does not know. *)
Lemma unrouted_action_run :
  routed_by_mcp (dict_get "action" [("action", JStr "delete")]) = false /\
  mcp_server.do_POST_response (R := unreachable_backend) 20
    (Parsed (JDict [("action", JStr "delete")])) idle
  = (idle, Ok (mcp_ack "Action 'delete' acknowledged")).
Proof.
  split; [ reflexivity | ].
  exact (unrouted_action_is_acknowledged
           (R := unreachable_backend) 20 [("action", JStr "delete")] idle eq_refl).
Defined.

(** An embedding request sent to [simple_mcp_server.py]. *)
Lemma embedding_at_the_simple_server_run :
  routed_by_simple (dict_get "action" [("action", JStr "embedding")]) = false /\
  simple_mcp_server.do_POST_response (R := unreachable_backend) 23
    (Parsed (JDict [("action", JStr "embedding")])) idle
  = (idle, Ok (bare_ack "Action 'embedding' acknowledged")).
Proof.
  split; [ reflexivity | ].
  destruct (simple_servers_acknowledge_the_rest
              (R := unreachable_backend) 23 [("action", JStr "embedding")] idle eq_refl)
    as [H _].
  exact H.
Defined.

(** A POST without [Content-Length]. *)
Lemma empty_body_run :
  (0 <= 0)%Z /\
  accepts 2 idle = true /\
  published_one (mcp_ack "Empty request") idle
    (exec (mcp_server.do_POST (R := unreachable_backend) 0 (Unparseable "")) idle).
Proof.
  split; [ apply Z.le_refl | split; [ reflexivity | ] ].
  destruct (empty_body_is_not_read
              (R := unreachable_backend) 0 (Unparseable "") idle (Z.le_refl 0) eq_refl)
    as [[_ H] _].
  exact H.
Defined.

(** A query whose [data] is a string. *)
Lemma data_as_text_run :
  dict_get "data" [("action", JStr "query"); ("data", JStr "What is VAEBZ?")]
  = Some (JStr "What is VAEBZ?") /\
  is_object (JStr "What is VAEBZ?") = false /\
  mcp_server.handle_query (R := unreachable_backend)
    (JDict [("action", JStr "query"); ("data", JStr "What is VAEBZ?")]) idle
  = (idle, Ok (query_error "'str' object has no attribute 'get'")).
Proof.
  split; [ reflexivity | split; [ reflexivity | ] ].
  destruct (data_that_is_not_an_object
              (R := unreachable_backend)
              [("action", JStr "query"); ("data", JStr "What is VAEBZ?")]
              (JStr "What is VAEBZ?") idle eq_refl eq_refl)
    as [H _].
  exact H.
Defined.

(** A query that is the number 7, posted to [simple_mcp_server.py]. *)
Lemma numeric_query_run :
  truthy (JInt 7) = true /\
  is_text (JInt 7) = false /\
  simple_mcp_server.do_POST (R := unreachable_backend) 40
    (Parsed (JDict [("action", JStr "query"); ("data", JDict [("query", JInt 7)])])) idle
  = (idle, Raise (AttributeError "'int' object has no attribute 'lower'")).
Proof.
  split; [ reflexivity | split; [ reflexivity | ] ].
  destruct (query_that_is_not_text
              (R := unreachable_backend) 40
              [("action", JStr "query"); ("data", JDict [("query", JInt 7)])]
              [("query", JInt 7)] (JInt 7) idle eq_refl eq_refl eq_refl eq_refl eq_refl)
    as (_ & _ & H & _).
  exact H.
Defined.

(** A query that is the number 0. *)
Lemma zero_query_run :
  falsy_field "query" [("data", JDict [("query", JInt 0)])] = true /\
  mcp_server.handle_query (R := unreachable_backend)
    (JDict [("data", JDict [("query", JInt 0)])]) idle
  = (idle, Ok no_query_result).
Proof.
  split; [ reflexivity | ].
  destruct (falsy_query_is_refused
              (R := unreachable_backend) [("data", JDict [("query", JInt 0)])] idle eq_refl)
    as [H _].
  exact H.
Defined.

(** An embedding request whose text is an empty array. *)
Lemma empty_text_run :
  falsy_field "text" [("data", JDict [("text", JList [])])] = true /\
  mcp_server.handle_embedding (R := unreachable_backend)
    (JDict [("data", JDict [("text", JList [])])]) idle
  = (idle, Ok no_text_result).
Proof.
  split; [ reflexivity | ].
  exact (missing_text_is_refused
           (R := unreachable_backend) [("data", JDict [("text", JList [])])] idle eq_refl).
Defined.

(** A query answered by the backend. *)
Lemma answered_generation_run :
  truthy (JStr "What is VAEBZ?") = true /\
  snd (mcp_server.handle_query
         (R := answering_backend (JDict [("response", JStr "An AI company.")]))
         (query_request "What is VAEBZ?") idle)
  = Ok (query_processed (JStr "An AI company.")).
Proof.
  split; [ reflexivity | ].
  destruct (answered_generation_is_passed_on
              (R := answering_backend (JDict [("response", JStr "An AI company.")]))
              [("action", JStr "query"); ("data", JDict [("query", JStr "What is VAEBZ?")])]
              [("query", JStr "What is VAEBZ?")]
              [("response", JStr "An AI company.")]
              (JStr "What is VAEBZ?")
              (mkResponse 200 (Ok (JDict [("response", JStr "An AI company.")])) "")
              idle eq_refl eq_refl eq_refl eq_refl eq_refl eq_refl eq_refl)
    as [H _].
  unfold query_request. rewrite H. reflexivity.
Defined.

(** A backend that answers 200 with a body that is not JSON: the text
    of the exception is the one [response.json()] raised for that body. *)
Lemma unusable_generation_run :
  unusable
    (mkResponse 200
       (Raise (RequestException
                 "Expecting property name enclosed in double quotes: line 1 column 2 (char 1)"))
       "{not json")
  = Some "Expecting property name enclosed in double quotes: line 1 column 2 (char 1)" /\
  snd (mcp_server.handle_query (R := garbling_backend) (query_request "What is VAEBZ?") idle)
  = Ok (query_error
          "Expecting property name enclosed in double quotes: line 1 column 2 (char 1)").
Proof.
  split; [ reflexivity | ].
  pose proof (unusable_generation_answer_is_an_error
                (R := garbling_backend)
                [("action", JStr "query"); ("data", JDict [("query", JStr "What is VAEBZ?")])]
                [("query", JStr "What is VAEBZ?")]
                (JStr "What is VAEBZ?")
                (mkResponse 200
                   (Raise (RequestException
                             "Expecting property name enclosed in double quotes: line 1 column 2 (char 1)"))
                   "{not json")
                "Expecting property name enclosed in double quotes: line 1 column 2 (char 1)"
                idle eq_refl eq_refl eq_refl eq_refl eq_refl eq_refl eq_refl) as H.
  unfold query_request. rewrite H. reflexivity.
Defined.

(** An embedding of three dimensions. *)
Lemma embedding_run :
  embedding_of [("embedding", JList [JInt 1; JInt 2; JInt 3])]
  = JList [JInt 1; JInt 2; JInt 3] /\
  snd (mcp_server.handle_embedding
         (R := answering_backend (JDict [("embedding", JList [JInt 1; JInt 2; JInt 3])]))
         (JDict [("action", JStr "embedding"); ("data", JDict [("text", JStr "hello")])])
         idle)
  = Ok (embedding_processed 3 "bge-m3:latest").
Proof.
  split; [ reflexivity | ].
  destruct (embedding_reports_the_dimensions
              (R := answering_backend (JDict [("embedding", JList [JInt 1; JInt 2; JInt 3])]))
              [("action", JStr "embedding"); ("data", JDict [("text", JStr "hello")])]
              [("text", JStr "hello")]
              [("embedding", JList [JInt 1; JInt 2; JInt 3])]
              (JStr "hello")
              [JInt 1; JInt 2; JInt 3]
              (mkResponse 200
                 (Ok (JDict [("embedding", JList [JInt 1; JInt 2; JInt 3])])) "")
              idle eq_refl eq_refl eq_refl eq_refl eq_refl eq_refl eq_refl eq_refl)
    as [H _].
  rewrite H. reflexivity.
Defined.

(** An embedding request while the service cannot be reached. *)
Lemma embedding_refused_run :
  truthy (JStr "hello") = true /\
  snd (mcp_server.handle_embedding (R := unreachable_backend)
         (JDict [("action", JStr "embedding"); ("data", JDict [("text", JStr "hello")])])
         idle)
  = Ok (embedding_error "Connection refused").
Proof.
  split; [ reflexivity | ].
  exact (proj2
           (embedding_failures_are_reported_in_band
              (R := unreachable_backend)
              [("action", JStr "embedding"); ("data", JDict [("text", JStr "hello")])]
              [("text", JStr "hello")] (JStr "hello") idle eq_refl eq_refl eq_refl)).
Defined.


(** Two passes over a queue of three events. *)
Lemma backlog_run :
  peer (connect [JInt 1; JInt 2; JInt 3] [] None) = None /\
  event_queue (exec (for_range 2 mcp_server.poll_and_sleep)
                 (connect [JInt 1; JInt 2; JInt 3] [] None))
  = [JInt 3].
Proof.
  split; [ reflexivity | ].
  destruct (backlog_is_delivered_in_order
              2 (connect [JInt 1; JInt 2; JInt 3] [] None) eq_refl)
    as (_ & _ & _ & _ & H & _).
  exact H.
Defined.

(** A POST without action, and the session that delivers its answer. *)
Lemma round_trip_run :
  accepts 2 idle = true /\
  peer (connect [mcp_ack "No action specified"] [] None) = None /\
  wire (exec (for_range 1 mcp_server.poll_and_sleep)
          (connect [mcp_ack "No action specified"] [] None))
  = [EventLine "message"; DataLine (mcp_ack "No action specified")].
Proof.
  split; [ reflexivity | split; [ reflexivity | ] ].
  destruct (post_response_reaches_the_stream
              (R := unreachable_backend) 2 (Parsed (JDict [])) idle idle
              (connect [mcp_ack "No action specified"] [] None)
              (mcp_ack "No action specified") eq_refl eq_refl eq_refl eq_refl)
    as (_ & H & _).
  exact H.
Defined.

(** An event queued for a client that has gone. *)
Lemma lost_event_run :
  peer (connect [JInt 1] [] (Some 0)) = Some 0 /\
  event_queue (exec (mcp_server.stream (R := unreachable_backend) 1)
                 (connect [JInt 1] [] (Some 0))) = [] /\
  wire (exec (mcp_server.stream (R := unreachable_backend) 1)
          (connect [JInt 1] [] (Some 0))) = [].
Proof.
  split; [ reflexivity | ].
  destruct (event_taken_for_a_gone_client_is_lost
              (R := unreachable_backend) 0 (JInt 1) [] (connect [JInt 1] [] (Some 0))
              eq_refl eq_refl)
    as (_ & Hq & _ & Hw).
  split; [ exact Hq | exact Hw ].
Defined.

(** A query that names the company in mixed case. *)
Lemma mention_run :
  lower "Vaebz" = "vaebz" /\
  simple_mcp_server.handle_query (R := unreachable_backend)
    (query_request "Tell me about Vaebz please") idle
  = (idle, Ok (query_processed (JStr canned_vaebz))).
Proof.
  split; [ reflexivity | ].
  destruct (mention_of_vaebz_gets_the_company_answer
              (R := unreachable_backend)
              [ ("action", JStr "query");
                ("data", JDict [("query", JStr "Tell me about Vaebz please")]) ]
              [("query", JStr "Tell me about Vaebz please")]
              "Tell me about " "Vaebz" " please" idle eq_refl eq_refl eq_refl)
    as [H _].
  exact H.
Defined.

(** A query that does not name the company. *)
Lemma quoted_query_run :
  "hello" <> "" /\
  contains "vaebz" (lower "hello") = false /\
  simple_mcp_server.handle_query (R := unreachable_backend) (query_request "hello") idle
  = (idle, Ok (query_processed (JStr (canned_head ++ "hello" ++ canned_tail)))) /\
  contains "hello" (canned_head ++ "hello" ++ canned_tail)%string = true.
Proof.
  assert (Hq : "hello" <> "") by discriminate.
  split; [ exact Hq | split; [ reflexivity | ] ].
  destruct (other_queries_are_quoted_back
              (R := unreachable_backend)
              [("action", JStr "query"); ("data", JDict [("query", JStr "hello")])]
              [("query", JStr "hello")] "hello" idle eq_refl eq_refl Hq eq_refl)
    as (H1 & _ & _ & H).
  split; [ exact H1 | exact H ].
Defined.

(** A numeric query posted to [simple_sse.py]. *)
Lemma flask_numeric_query_run :
  dict_get "action" [("action", JStr "query"); ("data", JDict [("query", JInt 7)])]
  = Some (JStr "query") /\
  simple_sse.handle_request_payload (R := unreachable_backend)
    (Ok (JDict [("action", JStr "query"); ("data", JDict [("query", JInt 7)])])) idle
  = (idle, Ok (flask_error "'int' object has no attribute 'lower'")).
Proof.
  split; [ reflexivity | ].
  exact (flask_query_is_the_simple_query_made_safe
           (R := unreachable_backend)
           [("action", JStr "query"); ("data", JDict [("query", JInt 7)])] idle eq_refl).
Defined.

(** The capabilities of an idle [mcp_server.py], by event and by POST. *)
Lemma bootstrap_payloads_run :
  wants_stream (sse_request "/") = true /\
  path (sse_request "/") <> "/health" /\
  accepts 7 (connect [] [] None) = true /\
  exists capabilities tools,
    firstn 3
      (events_of
         (wire (exec (mcp_server.do_GET (R := unreachable_backend) 1 (sse_request "/"))
                  (connect [] [] None))))
    = [ ("connected", connected_payload);
        ("tools", tools_payload tools);
        ("capabilities", capabilities) ] /\
    mcp_server.do_POST_response (R := unreachable_backend) 26
      (Parsed (JDict [("action", JStr "capabilities")])) idle
    = (idle, Ok capabilities) /\
    mcp_server.do_POST_response (R := unreachable_backend) 26
      (Parsed (JDict [("action", JStr "get_tools")])) idle
    = (idle, Ok (tools_retrieved tools)).
Proof.
  assert (Hpath : path (sse_request "/") <> "/health") by discriminate.
  split; [ reflexivity | split; [ exact Hpath | split; [ reflexivity | ] ] ].
  destruct (bootstrap_carries_the_post_answers
              (R := unreachable_backend) 1 26 (sse_request "/") [] [] None idle
              eq_refl Hpath eq_refl)
    as [H _].
  exact H.
Defined.

(** A browser-like GET: [Host] first, then an [Accept] header, its name
    in lower case, that lists the event stream second. *)
Lemma accept_list_run :
  without_accept [("Host", "localhost:9626")] = true /\
  lower "accept" = "accept" /\
  path (mkRequest "/"
          [ ("Host", "localhost:9626");
            ("accept", "application/json, text/event-stream;q=0.9");
            ("User-Agent", "curl/8.5.0") ])
  <> "/health" /\
  accepts 1 idle = true /\
  exists extra,
    wire (exec (mcp_server.do_GET (R := unreachable_backend) 1
                  (mkRequest "/"
                     [ ("Host", "localhost:9626");
                       ("accept", "application/json, text/event-stream;q=0.9");
                       ("User-Agent", "curl/8.5.0") ]))
            idle)
    = wire idle ++ stream_head :: extra.
Proof.
  assert (Hpath : path (mkRequest "/"
                          [ ("Host", "localhost:9626");
                            ("accept", "application/json, text/event-stream;q=0.9");
                            ("User-Agent", "curl/8.5.0") ])
                  <> "/health") by discriminate.
  split; [ reflexivity | split; [ reflexivity | split; [ exact Hpath | ] ] ].
  split; [ reflexivity | ].
  destruct (accept_is_matched_as_a_substring
              (R := unreachable_backend) 1
              (mkRequest "/"
                 [ ("Host", "localhost:9626");
                   ("accept", "application/json, text/event-stream;q=0.9");
                   ("User-Agent", "curl/8.5.0") ])
              "accept" "application/json, " ";q=0.9"
              [("Host", "localhost:9626")] [("User-Agent", "curl/8.5.0")] idle
              eq_refl eq_refl eq_refl Hpath eq_refl)
    as [H _].
  exact H.
Defined.

(** A GET from a client that sends no [Accept] header. *)
Lemma plain_get_run :
  no_accept (mkRequest "/" [("User-Agent", "curl/8.5.0")]) = true /\
  accepts 2 idle = true /\
  wire (exec (mcp_server.do_GET (R := unreachable_backend) 1
                (mkRequest "/" [("User-Agent", "curl/8.5.0")])) idle)
  = [text_head; Text "LightRAG MCP Server Running"].
Proof.
  assert (Hpath : path (mkRequest "/" [("User-Agent", "curl/8.5.0")]) <> "/health")
    by discriminate.
  split; [ reflexivity | split; [ reflexivity | ] ].
  destruct (get_without_accept_is_not_a_stream
              (R := unreachable_backend) 1 (mkRequest "/" [("User-Agent", "curl/8.5.0")])
              idle eq_refl Hpath eq_refl)
    as [(_ & H & _) _].
  exact H.
Defined.

(** The catalogue of [simple_mcp_server.py], by GET and by POST. *)
Lemma tools_run :
  wants_stream (mkRequest "/tools" []) = false /\
  accepts 2 idle = true /\
  published_one (tools_retrieved simple_mcp_server.TOOLS) idle
    (exec (simple_mcp_server.do_POST (R := unreachable_backend) 23
             (Parsed (JDict [("action", JStr "get_tools")]))) idle).
Proof.
  split; [ reflexivity | split; [ reflexivity | ] ].
  destruct (tools_by_get_and_by_post
              (R := unreachable_backend) 1 23 (mkRequest "/tools" [])
              [("action", JStr "get_tools")] idle idle
              eq_refl eq_refl eq_refl eq_refl eq_refl)
    as (_ & _ & _ & H).
  exact H.
Defined.

(** A pass of the outer loop over a queue of two events. *)
Lemma cycle_run :
  peer (connect [JInt 1; JInt 2] [] None) = None /\
  wire (exec (mcp_server.cycle (R := unreachable_backend)) (connect [JInt 1; JInt 2] [] None))
  = [ EventLine "message"; DataLine (JInt 1);
      EventLine "message"; DataLine (JInt 2);
      EventLine "heartbeat"; DataLine (heartbeat_at (R := unreachable_backend) 30) ].
Proof.
  split; [ reflexivity | ].
  destruct (cycle_delivers_then_beats
              (R := unreachable_backend) (connect [JInt 1; JInt 2] [] None) eq_refl)
    as (_ & H & _).
  exact H.
Defined.
